(** * Exam-Grading-Agent: the grading pipeline, embedded and checked

    Shallow embedding of the control flow of
    - [src/narrative-agent/exam_grader_agents.py]     ([NarrativeAgent]),
    - [src/multi-agent/exam_grader_agents_multi_1.py] ([MultiAgent]),
    - [src/exam_grader_agents.py]                     ([AgentsSDK]).

    Python statements run in a state-and-exception monad over a [World]
    that records everything the claims observe: the files on disk, the log
    of chat-completion requests, the number of Whisper calls and the
    durations passed to [time.sleep].  The external services (the chat
    model, Whisper, librosa, [json.loads], the guardrail and triage models)
    are variables of the development: every theorem holds for all of them.

    Python itself is followed where the code leans on it: an [except]
    tuple is checked before it is matched, [str.strip] and [str.split]
    work on Unicode characters, a file opened in text mode is decoded and
    its newlines are translated, and a [float] is an IEEE 754 double. *)

From stdpp Require Import gmap strings list.
From Stdlib Require Import Ascii String QArith Qabs Lqa Qround Qpower.
Local Open Scope string_scope.
Local Open Scope Z_scope.

(* ===================================================================== *)
(** ** Python exceptions *)
(* ===================================================================== *)

(** The exception classes the three files name or can meet.  The first
    block is the [openai] package, with the names the [except] clauses
    use for its exception classes: in both generations of the client
    every error of the package derives from [OpenAIError].  A request the
    service rejects as malformed is [InvalidRequestError] in
    [openai.error] (narrative agent) and [BadRequestError] in
    [openai] >= 1 (multi agent).  [Timeout] is the exception class
    [openai.error.Timeout] of the older client, the one the narrative
    agent imports. *)
Inductive exc_class : Type :=
  | OpenAIError
  | RateLimitError
  | ServiceUnavailableError
  | APIConnectionError
  | Timeout
  | InvalidRequestError
  | BadRequestError
  | AuthenticationError
  | JSONDecodeError
  | UnicodeDecodeError
  | RecursionError
  | KeyError
  | IndexError
  | ValueError
  | TypeError
  | AttributeError
  | ZeroDivisionError
  | FileNotFoundError
  | OSError
  | InputGuardrailTripwireTriggered
  | OtherException (name : string).

#[global] Instance exc_class_eq_dec : EqDecision exc_class.
Proof. solve_decision. Defined.

Record exception : Type := Exc { exc_type : exc_class; exc_arg : string }.

#[global] Instance exception_eq_dec : EqDecision exception.
Proof. solve_decision. Defined.

(** [issubclass c base] for the classes above. *)
Definition is_openai_error (c : exc_class) : bool :=
  match c with
  | OpenAIError | RateLimitError | ServiceUnavailableError
  | APIConnectionError | Timeout | InvalidRequestError
  | BadRequestError | AuthenticationError => true
  | _ => false
  end.

Definition issubclass (c base : exc_class) : bool :=
  if decide (c = base) then true
  else match base with
       | OpenAIError => is_openai_error c
       | OSError => if decide (c = FileNotFoundError) then true else false
       | ValueError =>
           if decide (c = JSONDecodeError) then true
           else if decide (c = UnicodeDecodeError) then true else false
       | _ => false
       end.

(** [except (C1, C2, ...)]: the exception matches when its class derives
    from one of the listed classes. *)
Definition matches (e : exception) (classes : list exc_class) : bool :=
  existsb (issubclass (exc_type e)) classes.

(** What a name in an [except] tuple is bound to: an exception class, or
    an object of another kind.  The multi agent does
    [from openai import ..., Timeout]; in [openai] >= 1, the client whose
    [openai.chat.completions.create] that file calls, [openai.Timeout] is
    [httpx.Timeout], a class of timeout settings that does not derive from
    [BaseException]. *)
Inductive except_entry : Type :=
  | ExceptionClass (c : exc_class)
  | NotAnException (qualname : string).

Definition httpx_Timeout : except_entry := NotAnException "httpx.Timeout".

Definition is_exception_class (entry : except_entry) : bool :=
  match entry with
  | ExceptionClass _ => true
  | NotAnException _ => false
  end.

Definition exception_classes (entries : list except_entry) : list exc_class :=
  omap (fun entry =>
          match entry with
          | ExceptionClass c => Some c
          | NotAnException _ => None
          end) entries.

(** ** The world and the monad of Python statements *)
(* ===================================================================== *)

Inductive Outcome (A : Type) : Type :=
  | Returns (a : A)
  | Raises (e : exception).
Arguments Returns {A} a.
Arguments Raises {A} e.

(** One chat-completion request: the keyword arguments of
    [openai.chat.completions.create] / [openai.ChatCompletion.create]. *)
Record ChatRequest : Type := {
  req_model : string;
  req_system : string;              (* messages[0], role "system" *)
  req_user : string;                (* messages[1], role "user" *)
  req_temperature : Q;
  req_seed : option Z;
  req_functions : list string;      (* names declared by functions=... *)
  req_function_call : option string (* name forced by function_call=... *)
}.

(** What a completion carries, as far as the graders read it:
    [resp.choices[i].message.content] and
    [resp.choices[i].message.function_call.arguments]. *)
Record Message : Type := {
  content : option string;
  function_call_arguments : option string
}.

Record ChatResponse : Type := { choices : list Message }.

Record World : Type := {
  files : gmap string string;   (* regular files: path to contents *)
  unwritable : gset string;     (* paths that cannot be opened for writing *)
  chat_log : list ChatRequest;  (* requests sent to the chat model so far *)
  whisper_calls : nat;          (* transcription requests sent so far *)
  agent_log : list string;      (* agents whose model was asked, in order *)
  sleeps : list Q               (* arguments of time.sleep, oldest first *)
}.

Definition set_files (f : gmap string string) (w : World) : World :=
  {| files := f; unwritable := unwritable w; chat_log := chat_log w;
     whisper_calls := whisper_calls w; agent_log := agent_log w;
     sleeps := sleeps w |}.

Definition set_chat_log (l : list ChatRequest) (w : World) : World :=
  {| files := files w; unwritable := unwritable w; chat_log := l;
     whisper_calls := whisper_calls w; agent_log := agent_log w;
     sleeps := sleeps w |}.

Definition set_whisper_calls (n : nat) (w : World) : World :=
  {| files := files w; unwritable := unwritable w; chat_log := chat_log w;
     whisper_calls := n; agent_log := agent_log w; sleeps := sleeps w |}.

Definition set_agent_log (l : list string) (w : World) : World :=
  {| files := files w; unwritable := unwritable w; chat_log := chat_log w;
     whisper_calls := whisper_calls w; agent_log := l; sleeps := sleeps w |}.

Definition set_sleeps (l : list Q) (w : World) : World :=
  {| files := files w; unwritable := unwritable w; chat_log := chat_log w;
     whisper_calls := whisper_calls w; agent_log := agent_log w;
     sleeps := l |}.

Definition M (A : Type) : Type := World -> Outcome A * World.

Definition ret {A} (a : A) : M A := fun w => (Returns a, w).

Definition raise {A} (e : exception) : M A := fun w => (Raises e, w).

Definition bind {A B} (m : M A) (k : A -> M B) : M B :=
  fun w =>
    match m w with
    | (Returns a, w') => k a w'
    | (Raises e, w') => (Raises e, w')
    end.

Declare Scope py_scope.
Delimit Scope py_scope with py.
Notation "x <- m ;; k" := (bind m (fun x => k))
  (at level 100, m at next level, right associativity) : py_scope.
Notation "m ;;; k" := (bind m (fun _ => k))
  (at level 100, right associativity) : py_scope.
Local Open Scope py_scope.

(** [try: body  except (C...): h1  except (D...): h2]: the first clause
    whose classes match handles the exception; an exception no clause
    matches propagates.  State changes made by [body] are kept. *)
Fixpoint dispatch {A} (clauses : list (list exc_class * (exception -> M A)))
    (e : exception) : M A :=
  match clauses with
  | [] => raise e
  | (classes, handler) :: rest =>
      if matches e classes then handler e else dispatch rest e
  end.

Definition try_except {A} (body : M A)
    (clauses : list (list exc_class * (exception -> M A))) : M A :=
  fun w =>
    match body w with
    | (Returns a, w') => (Returns a, w')
    | (Raises e, w') => dispatch clauses e w'
    end.

(** [try: body  except (E1, E2, ...): handler] for a tuple of names.  When
    an exception reaches the clause, CPython first checks every entry of
    the tuple and raises [TypeError] if one of them is not an exception
    class; only a tuple of exception classes is matched against the
    exception.  The [TypeError] is raised in place of the exception that
    reached the clause. *)
Definition check_exc_match (e : exception) (entries : list except_entry)
  : Outcome bool :=
  if forallb is_exception_class entries
  then Returns (matches e (exception_classes entries))
  else Raises (Exc TypeError
         "catching classes that do not inherit from BaseException is not allowed").

Definition try_except_tuple {A} (body : M A) (entries : list except_entry)
    (handler : exception -> M A) : M A :=
  fun w =>
    match body w with
    | (Returns a, w') => (Returns a, w')
    | (Raises e, w') =>
        match check_exc_match e entries with
        | Returns true => handler e w'
        | Returns false => (Raises e, w')
        | Raises type_error => (Raises type_error, w')
        end
    end.

(** [time.sleep(d)] *)
Definition time_sleep (d : Q) : M unit :=
  fun w => (Returns tt, set_sleeps (sleeps w ++ [d]) w).

(** [range(lo, hi)] *)
Definition range (lo hi : Z) : list Z :=
  map (fun i => lo + Z.of_nat i) (seq 0 (Z.to_nat (hi - lo))).

(* ===================================================================== *)
(** ** The chat model *)
(* ===================================================================== *)

(** The chat model is an arbitrary function of the number of requests
    made before and of the request: a stub that fails on its first [k]
    calls and then answers is one such function. *)
Definition ChatOracle : Type := nat -> ChatRequest -> Outcome ChatResponse.

Definition chat_create (chat : ChatOracle) (kwargs : ChatRequest)
  : M ChatResponse :=
  fun w => (chat (List.length (chat_log w)) kwargs,
            set_chat_log (chat_log w ++ [kwargs]) w).

(* ===================================================================== *)
(** ** Retry with exponential backoff *)
(* ===================================================================== *)

Definition MAX_RETRIES : Z := 3.
Definition INITIAL_BACKOFF : Q := 2.


(* ===================================================================== *)
(** ** Python strings *)
(* ===================================================================== *)

(** A Python [str] is kept as the bytes of its UTF-8 encoding. *)

Definition code (c : ascii) : Z := Z.of_nat (nat_of_ascii c).
Definition chr (n : Z) : ascii := ascii_of_nat (Z.to_nat n).

Definition dquote : ascii := chr 34.
Definition dq : string := String dquote EmptyString.
Definition nl : string := String (chr 10) EmptyString.

(** [s1 + nl + s2 + nl + ...]: every line followed by a newline. *)
Fixpoint lines (l : list string) : string :=
  match l with
  | [] => EmptyString
  | s :: rest => s +:+ nl +:+ lines rest
  end.

(** [str.strip()], [str.split()], [s[0]] and [str.lstrip(chars)] work on
    characters, and the texts the code meets have characters outside
    ASCII (bullets, no-break spaces).  A [str] being kept as its UTF-8
    bytes, its characters are the groups of one leading byte and the
    continuation bytes after it. *)
Module Text.


(** A byte [10xxxxxx] continues the character begun before it. *)
Definition continuation (c : ascii) : bool :=
  (128 <=? code c) && (code c <? 192).

Definition chars (s : list ascii) : list (list ascii) :=
  fold_right
    (fun c acc =>
       match acc with
       | (d :: g) :: rest =>
           if continuation d then (c :: d :: g) :: rest else [c] :: acc
       | _ => [c] :: acc
       end) [] s.

(** [ord(ch)] of a well-formed character. *)
Definition ord (ch : list ascii) : option Z :=
  match map code ch with
  | [a] => if a <? 128 then Some a else None
  | [a; b] =>
      if (192 <=? a) && (a <? 224)
      then Some ((a - 192) * 64 + (b - 128)) else None
  | [a; b; c] =>
      if (224 <=? a) && (a <? 240)
      then Some ((a - 224) * 4096 + (b - 128) * 64 + (c - 128)) else None
  | [a; b; c; d] =>
      if (240 <=? a) && (a <? 248)
      then Some ((a - 240) * 262144 + (b - 128) * 4096 + (c - 128) * 64
                 + (d - 128))
      else None
  | _ => None
  end.

(** [ch.isspace()], the characters [str.strip()] removes and
    [str.split()] splits at: space, tab, newline, vertical tab, form feed,
    carriage return, the four separators U+001C-U+001F, next line,
    no-break space, the Ogham space mark, the spaces U+2000-U+200A, the
    line and paragraph separators, the narrow no-break, medium
    mathematical and ideographic spaces. *)
Definition isspace (ch : list ascii) : bool :=
  match ord ch with
  | Some n =>
      (n =? 32) || ((9 <=? n) && (n <=? 13)) || ((28 <=? n) && (n <=? 31))
      || (n =? 133) || (n =? 160) || (n =? 5760)
      || ((8192 <=? n) && (n <=? 8202))
      || (n =? 8232) || (n =? 8233) || (n =? 8239) || (n =? 8287)
      || (n =? 12288)
  | None => false
  end.

(** [s.lstrip(...)]: drop the leading characters that satisfy [p]. *)
Fixpoint lstrip (p : list ascii -> bool) (s : list (list ascii))
  : list (list ascii) :=
  match s with
  | ch :: r => if p ch then lstrip p r else s
  | [] => []
  end.

(** [s.strip(...)] *)
Definition strip (p : list ascii -> bool) (s : list (list ascii))
  : list (list ascii) :=
  rev (lstrip p (rev (lstrip p s))).

(** [s.split(sep)] for a one-byte separator: never the empty list. *)
Fixpoint split (sep : ascii) (s : string) : list string :=
  match s with
  | EmptyString => [EmptyString]
  | String c r =>
      if bool_decide (c = sep) then EmptyString :: split sep r
      else match split sep r with
           | h :: t => String c h :: t
           | [] => [String c EmptyString]
           end
  end.

(** [sep.join(l)] *)
Fixpoint join (sep : string) (l : list string) : string :=
  match l with
  | [] => EmptyString
  | x :: rest =>
      match rest with
      | [] => x
      | _ => x +:+ sep +:+ join sep rest
      end
  end.

(** [str(i)] of an integer that is not negative: its decimal digits. *)
Fixpoint digits (fuel : nat) (n : Z) (acc : string) : string :=
  match fuel with
  | O => acc
  | S fuel' =>
      let acc' := String (chr (48 + n mod 10)) acc in
      if n / 10 =? 0 then acc' else digits fuel' (n / 10) acc'
  end.

Definition str_of_nat (i : nat) : string :=
  digits (S i) (Z.of_nat i) EmptyString.

(** [s.startswith(prefix)] and [s.endswith(suffix)] *)
Fixpoint starts (prefix s : list ascii) : bool :=
  match prefix with
  | [] => true
  | a :: prefix' =>
      match s with
      | b :: s' => bool_decide (a = b) && starts prefix' s'
      | [] => false
      end
  end.

Definition endswith (s suffix : string) : bool :=
  starts (rev (list_ascii_of_string suffix)) (rev (list_ascii_of_string s)).


(** The byte strings that are the UTF-8 encoding of a text: what
    [bytes.decode("utf-8")] and a file opened in text mode accept (no
    overlong forms, no surrogates, nothing above U+10FFFF). *)
Definition between (lo hi : Z) (c : ascii) : bool :=
  (lo <=? code c) && (code c <=? hi).

Fixpoint well_formed (s : list ascii) : bool :=
  match s with
  | [] => true
  | a :: r =>
      let n := code a in
      if n <? 128 then well_formed r
      else if (194 <=? n) && (n <=? 223) then
        match r with
        | b :: r1 => between 128 191 b && well_formed r1
        | _ => false
        end
      else if (224 <=? n) && (n <=? 239) then
        match r with
        | b :: c :: r2 =>
            between (if n =? 224 then 160 else 128)
                    (if n =? 237 then 159 else 191) b
            && between 128 191 c && well_formed r2
        | _ => false
        end
      else if (240 <=? n) && (n <=? 244) then
        match r with
        | b :: c :: d :: r3 =>
            between (if n =? 240 then 144 else 128)
                    (if n =? 244 then 143 else 191) b
            && between 128 191 c && between 128 191 d && well_formed r3
        | _ => false
        end
      else false
  end.

End Text.

(** The characters of a [str], and the [str] of a list of characters. *)
Definition characters (s : string) : list (list ascii) :=
  Text.chars (list_ascii_of_string s).

Definition text_of (chars : list (list ascii)) : string :=
  string_of_list_ascii (List.concat chars).

(** [s.strip()] *)
Definition strip (s : string) : string :=
  text_of (Text.strip Text.isspace (characters s)).

(** [s.split()]: the maximal runs of characters that are not white
    space. *)
Fixpoint split_ws (s : list (list ascii)) (word : list (list ascii))
  : list (list (list ascii)) :=
  match s with
  | [] => match word with [] => [] | _ => [rev word] end
  | ch :: r =>
      if Text.isspace ch
      then match word with
           | [] => split_ws r []
           | _ => rev word :: split_ws r []
           end
      else split_ws r (ch :: word)
  end.

Definition split (s : string) : list string :=
  map text_of (split_ws (characters s) []).

(** Reading in text mode with the default [newline=None]: every
    [\r\n] and every other [\r] comes out as [\n]. *)
Fixpoint universal_newlines (s : string) : string :=
  match s with
  | EmptyString => EmptyString
  | String c r =>
      if code c =? 13 then
        match r with
        | String d r' =>
            if code d =? 10 then String (chr 10) (universal_newlines r')
            else String (chr 10) (universal_newlines r)
        | EmptyString => String (chr 10) EmptyString
        end
      else String c (universal_newlines r)
  end.

(** [data.decode("utf-8")] *)
Definition decode_utf8 (data : string) : Outcome string :=
  if Text.well_formed (list_ascii_of_string data) then Returns data
  else Raises (Exc UnicodeDecodeError
                 "'utf-8' codec can't decode bytes: invalid data").

(** What [open(path, "r").read()] makes of the bytes of a file, the
    locale's encoding being UTF-8. *)
Definition read_text (data : string) : Outcome string :=
  match decode_utf8 data with
  | Returns text => Returns (universal_newlines text)
  | Raises e => Raises e
  end.

(** Truth value of a [str]: empty is false. *)
Definition truthy (s : string) : bool :=
  match s with EmptyString => false | _ => true end.

(* ===================================================================== *)
(* ===================================================================== *)
(** ** Python floats *)
(* ===================================================================== *)

(** A Python [float] is an IEEE 754 double, and [/] and [-] on floats
    give the double nearest to the exact result, ties going to the even
    mantissa.  A double is kept as the rational number it is; [binary64]
    is the rounding.  Infinities and NaN are left out: no quotient or
    difference the code forms comes near the largest double. *)
Module Float.

(** The nearest integer, ties to the even one. *)
Definition round_half_even (q : Q) : Z :=
  let f := Qfloor q in
  match (q - inject_Z f ?= 1 # 2)%Q with
  | Lt => f
  | Gt => f + 1
  | Eq => if Z.even f then f else f + 1
  end.

(** [floor (log2 q)] for [q > 0]. *)
Definition floor_log2 (q : Q) : Z :=
  let e := Z.log2 (Qnum q) - Z.log2 (Zpos (Qden q)) in
  if Qle_bool (Qpower 2 e) q then e else e - 1.

(** The exponent of the last place of the double nearest to [q > 0]: 53
    bits of mantissa, and no exponent below that of the subnormal
    numbers. *)
Definition exponent (q : Q) : Z := Z.max (floor_log2 q - 52) (-1074).

(** The double nearest to [q], for [q >= 0]. *)
Definition nearest (q : Q) : Q :=
  if Qle_bool q 0 then 0%Q
  else
    let p := exponent q in
    Qred (inject_Z (round_half_even (q / Qpower 2 p)) * Qpower 2 p).

Definition binary64 (q : Q) : Q :=
  if Qle_bool 0 q then nearest q else Qred (- nearest (- q)).

End Float.

(** [float(n)] of an [int] *)
Definition float_of_int (n : Z) : Q := Float.binary64 (inject_Z n).

(** [a - b] on floats *)
Definition float_sub (a b : Q) : Q := Float.binary64 (a - b).

(** ** [str.format] *)
(* ===================================================================== *)

(** The scanner of [str.format], as one pass over the template.  Literal
    text is copied, [{{] and [}}] stand for one brace, and a single [{]
    opens a replacement field that runs to the matching [}]; the field
    name ends at the first [:] or [!].  The value is looked up when the
    field is complete, so errors come in template order.  The calls in
    the source pass keyword arguments only, all of type [str].  What
    Python does with an argument it has found when the field also has an
    attribute, an index, a format spec or a conversion other than [!s]
    is not modelled: such a field ends in [NotModelled]. *)
Module Format.

Inductive state : Type :=
  | Lit                                   (* literal text *)
  | LitOpen                               (* read a '{' *)
  | LitClose                              (* read a '}' *)
  | Name (name : list ascii) (bracket : bool)
  | Conv (name : list ascii)              (* read '!' *)
  | ConvEnd (name : list ascii) (conv : ascii)
  | Spec (name : list ascii) (conv : option ascii)
         (spec : list ascii) (depth : nat).

Definition value_error {A} (msg : string) : Outcome A :=
  Raises (Exc ValueError msg).

(** The part of a field name before the first [.] or [[]. *)
Fixpoint first_part (name : list ascii) : list ascii * list ascii :=
  match name with
  | [] => ([], [])
  | c :: r =>
      if (code c =? 46) || (code c =? 91) then ([], name)
      else let '(a, b) := first_part r in (c :: a, b)
  end.

Definition all_digits (s : list ascii) : bool :=
  forallb (fun c => (48 <=? code c) && (code c <=? 57)) s.

Fixpoint lookup (key : string) (kwargs : list (string * string))
  : option string :=
  match kwargs with
  | [] => None
  | (k, v) :: rest => if decide (k = key) then Some v else lookup key rest
  end.

(** A complete field [{name!conv:spec}] (name reversed while scanning). *)
Definition field (kwargs : list (string * string)) (rname : list ascii)
    (conv : option ascii) (rspec : list ascii) : Outcome (list ascii) :=
  let '(first, rest) := first_part (rev rname) in
  if all_digits first
  then (* empty or numeric: a positional argument, and there are none *)
    Raises (Exc IndexError
      "Replacement index out of range for positional args tuple")
  else
    match lookup (string_of_list_ascii first) kwargs with
    | None => Raises (Exc KeyError (string_of_list_ascii first))
    | Some v =>
        match rest, conv, rspec with
        | [], None, [] => Returns (list_ascii_of_string v)
        | [], Some c, [] =>
            if code c =? 115 (* !s *) then Returns (list_ascii_of_string v)
            else Raises (Exc (OtherException "NotModelled") "conversion")
        | _, _, _ =>
            Raises (Exc (OtherException "NotModelled") "accessor or spec")
        end
    end.

Definition emit (kwargs : list (string * string)) (rname : list ascii)
    (conv : option ascii) (rspec : list ascii) (out : list ascii)
  : Outcome (state * list ascii) :=
  match field kwargs rname conv rspec with
  | Returns v => Returns (Lit, (rev v ++ out)%list)
  | Raises e => Raises e
  end.

(** One character inside a field name, outside brackets. *)
Definition name_step (kwargs : list (string * string)) (name : list ascii)
    (c : ascii) (out : list ascii) : Outcome (state * list ascii) :=
  let n := code c in
  if n =? 123 then value_error "unexpected '{' in field name"
  else if n =? 91 then Returns (Name (c :: name) true, out)
  else if n =? 125 then emit kwargs name None [] out
  else if n =? 58 then Returns (Spec name None [] 1, out)
  else if n =? 33 then Returns (Conv name, out)
  else Returns (Name (c :: name) false, out).

Definition step (kwargs : list (string * string)) (st : state) (c : ascii)
    (out : list ascii) : Outcome (state * list ascii) :=
  let n := code c in
  match st with
  | Lit =>
      if n =? 123 then Returns (LitOpen, out)
      else if n =? 125 then Returns (LitClose, out)
      else Returns (Lit, c :: out)
  | LitOpen =>
      if n =? 123 then Returns (Lit, c :: out)
      else name_step kwargs [] c out
  | LitClose =>
      if n =? 125 then Returns (Lit, c :: out)
      else value_error "Single '}' encountered in format string"
  | Name name true =>
      Returns (Name (c :: name) (negb (n =? 93)), out)
  | Name name false => name_step kwargs name c out
  | Conv name => Returns (ConvEnd name c, out)
  | ConvEnd name conv =>
      if n =? 125 then emit kwargs name (Some conv) [] out
      else if n =? 58 then Returns (Spec name (Some conv) [] 1, out)
      else value_error "expected ':' after conversion specifier"
  | Spec name conv spec depth =>
      if n =? 123 then Returns (Spec name conv (c :: spec) (S depth), out)
      else if n =? 125 then
        match depth with
        | O | 1%nat => emit kwargs name conv spec out
        | S d => Returns (Spec name conv (c :: spec) d, out)
        end
      else Returns (Spec name conv (c :: spec) depth, out)
  end.

(** What the end of the template means in each state. *)
Definition finish (st : state) (out : list ascii) : Outcome (list ascii) :=
  match st with
  | Lit => Returns (rev out)
  | LitOpen => value_error "Single '{' encountered in format string"
  | LitClose => value_error "Single '}' encountered in format string"
  | Name _ _ => value_error "expected '}' before end of string"
  | Conv _ =>
      value_error "end of string while looking for conversion specifier"
  | ConvEnd _ _ | Spec _ _ _ _ =>
      value_error "unmatched '{' in format spec"
  end.

Fixpoint scan (kwargs : list (string * string)) (s : list ascii)
    (st : state) (out : list ascii) : Outcome (list ascii) :=
  match s with
  | [] => finish st out
  | c :: r =>
      match step kwargs st c out with
      | Returns (st', out') => scan kwargs r st' out'
      | Raises e => Raises e
      end
  end.

(** [template.format(key=value, ...)] *)
Definition format (template : string) (kwargs : list (string * string))
  : Outcome string :=
  match scan kwargs (list_ascii_of_string template) Lit [] with
  | Returns l => Returns (string_of_list_ascii l)
  | Raises e => Raises e
  end.

End Format.

(* ===================================================================== *)
(** ** JSON values and a decoder *)
(* ===================================================================== *)

(** What [json.loads] builds: [None], [bool], [int], [float], [str],
    [list] and [dict].  A [dict] keeps its keys in insertion order.  A
    [float] is the double nearest to its literal, kept as a rational
    number; a literal too large for a double gives an infinity. *)
#[warnings="-register-all"]
Inductive json : Type :=
  | JNull
  | JBool (b : bool)
  | JInt (n : Z)
  | JFloat (q : Q)
  | JNaN
  | JInfinity (negative : bool)
  | JString (s : string)
  | JList (items : list json)
  | JDict (members : list (string * json)).

(** [d[key] = value] on a dict: an existing key keeps its place. *)
Fixpoint dict_set (d : list (string * json)) (key : string) (value : json)
  : list (string * json) :=
  match d with
  | [] => [(key, value)]
  | (k, v) :: rest =>
      if decide (k = key) then (k, value) :: rest
      else (k, v) :: dict_set rest key value
  end.

(** [d.get(key)] *)
Fixpoint dict_get (d : list (string * json)) (key : string) : option json :=
  match d with
  | [] => None
  | (k, v) :: rest => if decide (k = key) then Some v else dict_get rest key
  end.

(** The decoder every grader is run with in the examples below: the JSON
    grammar as [json.loads] accepts it (strict strings, the constants
    [NaN], [Infinity] and [-Infinity], surrounding whitespace).  Text
    outside the grammar raises [JSONDecodeError]; an integer literal of
    more than 4300 digits raises [ValueError] (the limit of [int] on
    decimal strings), and containers nested deeper than the interpreter
    allows raise [RecursionError], both at the place where the scanner
    meets them.  The theorems do not depend on this decoder: they hold
    for every decoder. *)
Module Json.

(** What scanning a piece of text gives. *)
Inductive result (A : Type) : Type :=
  | Ok (a : A)
  | Malformed                (* [JSONDecodeError] *)
  | Fails (e : exception).   (* an exception of another class *)
Arguments Ok {A} a.
Arguments Malformed {A}.
Arguments Fails {A} e.

(** [sys.int_info.default_max_str_digits] *)
Definition max_str_digits : nat := 4300.

(** [sys.getrecursionlimit()] as Python starts.  The frames in use when
    [json.loads] is called come off it, so the nesting at which CPython
    gives up is lower by what the caller has used. *)
Definition recursion_limit : nat := 1000.

(** The doubles end below [2 ^ 1024]; what rounds to that or beyond is
    an infinity. *)
Definition overflows (q : Q) : bool := Qle_bool (Qpower 2 1024) (Qabs q).

Definition is_ws (c : ascii) : bool :=
  let n := code c in (n =? 32) || (n =? 9) || (n =? 10) || (n =? 13).

Fixpoint skip_ws (s : list ascii) : list ascii :=
  match s with
  | c :: r => if is_ws c then skip_ws r else s
  | [] => []
  end.

Definition digit (c : ascii) : option Z :=
  let n := code c in
  if (48 <=? n) && (n <=? 57) then Some (n - 48) else None.

Definition hexdigit (c : ascii) : option Z :=
  let n := code c in
  if (48 <=? n) && (n <=? 57) then Some (n - 48)
  else if (97 <=? n) && (n <=? 102) then Some (n - 87)
  else if (65 <=? n) && (n <=? 70) then Some (n - 55)
  else None.

(** The longest run of digits: its value, its length, and the rest. *)
Fixpoint digits (s : list ascii) (acc : Z) (len : nat)
  : Z * nat * list ascii :=
  match s with
  | c :: r =>
      match digit c with
      | Some d => digits r (acc * 10 + d) (S len)
      | None => (acc, len, s)
      end
  | [] => (acc, len, [])
  end.

(** Four hexadecimal digits. *)
Definition hex4 (s : list ascii) : option (Z * list ascii) :=
  match s with
  | a :: b :: c :: d :: r =>
      match hexdigit a, hexdigit b, hexdigit c, hexdigit d with
      | Some x, Some y, Some z, Some t =>
          Some (((x * 16 + y) * 16 + z) * 16 + t, r)
      | _, _, _, _ => None
      end
  | _ => None
  end.

(** UTF-8 bytes of a code point. *)
Definition utf8 (cp : Z) : list ascii :=
  if cp <? 128 then [chr cp]
  else if cp <? 2048 then
    [chr (192 + cp / 64); chr (128 + cp mod 64)]
  else if cp <? 65536 then
    [chr (224 + cp / 4096); chr (128 + (cp / 64) mod 64);
     chr (128 + cp mod 64)]
  else
    [chr (240 + cp / 262144); chr (128 + (cp / 4096) mod 64);
     chr (128 + (cp / 64) mod 64); chr (128 + cp mod 64)].

(** The character a one-letter escape stands for. *)
Definition escape (c : ascii) : option ascii :=
  let n := code c in
  if (n =? 34) || (n =? 92) || (n =? 47) then Some c
  else if n =? 98 then Some (chr 8)
  else if n =? 102 then Some (chr 12)
  else if n =? 110 then Some (chr 10)
  else if n =? 114 then Some (chr 13)
  else if n =? 116 then Some (chr 9)
  else None.

(** The low half of a surrogate pair, when one follows. *)
Definition low_surrogate (s : list ascii) : option (Z * list ascii) :=
  match s with
  | b :: u :: r =>
      if (code b =? 92) && (code u =? 117) then
        match hex4 r with
        | Some (lo, r') =>
            if (56320 <=? lo) && (lo <=? 57343) then Some (lo, r') else None
        | None => None
        end
      else None
  | _ => None
  end.

(** The body of a string, after its opening quote. *)
Fixpoint scanstring (fuel : nat) (s : list ascii) (acc : list ascii)
  : option (string * list ascii) :=
  match fuel, s with
  | O, _ | _, [] => None
  | S fuel, c :: r =>
      let n := code c in
      if n =? 34 then Some (string_of_list_ascii (rev acc), r)
      else if n <? 32 then None
      else if n =? 92 then
        match r with
        | [] => None
        | e :: r' =>
            if code e =? 117 then
              match hex4 r' with
              | None => None
              | Some (hi, r'') =>
                  let paired :=
                    if (55296 <=? hi) && (hi <=? 56319)
                    then low_surrogate r'' else None in
                  match paired with
                  | Some (lo, r3) =>
                      let cp := 65536 + (hi - 55296) * 1024 + (lo - 56320) in
                      scanstring fuel r3 (rev (utf8 cp) ++ acc)%list
                  | None => scanstring fuel r'' (rev (utf8 hi) ++ acc)%list
                  end
              end
            else
              match escape e with
              | Some x => scanstring fuel r' (x :: acc)
              | None => None
              end
        end
      else scanstring fuel r (c :: acc)
  end.

(** A number: an optional minus sign, then 0 or a digit run without
    leading zero, then optionally a point with digits, then optionally an
    exponent.  A part that does not match in full is left unread.
    Without fraction and exponent the literal goes to [int], which
    refuses more than [max_str_digits] digits; otherwise it goes to
    [float]. *)
Definition number (s : list ascii) : result (json * list ascii) :=
  let '(neg, s1) :=
    match s with
    | c :: r => if code c =? 45 then (true, r) else (false, s)
    | [] => (false, s)
    end in
  let int_part :=
    match s1 with
    | c :: r =>
        if code c =? 48 then Some (0, 1%nat, r)
        else match digit c with
             | Some _ => Some (digits s1 0 O)
             | None => None
             end
    | [] => None
    end in
  match int_part with
  | None => Malformed
  | Some (i, ilen, s2) =>
      let '(frac, s3) :=
        match s2 with
        | c :: r =>
            if code c =? 46 then
              match digits r 0 O with
              | (_, O, _) => (None, s2)
              | (v, len, r') => (Some (v, len), r')
              end
            else (None, s2)
        | [] => (None, s2)
        end in
      let '(expo, s4) :=
        match s3 with
        | c :: r =>
            if (code c =? 101) || (code c =? 69) then
              let '(eneg, r1) :=
                match r with
                | d :: r' =>
                    if code d =? 45 then (true, r')
                    else if code d =? 43 then (false, r')
                    else (false, r)
                | [] => (false, r)
                end in
              match digits r1 0 O with
              | (_, O, _) => (None, s3)
              | (v, _, r') => (Some (if eneg then - v else v), r')
              end
            else (None, s3)
        | [] => (None, s3)
        end in
      match frac, expo with
      | None, None =>
          if (max_str_digits <? ilen)%nat
          then Fails (Exc ValueError
                 "Exceeds the limit (4300 digits) for integer string conversion")
          else Ok (JInt (if neg then - i else i), s4)
      | _, _ =>
          let '(f, flen) := match frac with
                            | Some p => p
                            | None => (0, O)
                            end in
          let e := match expo with Some e => e | None => 0 end in
          let mant := Qdiv (inject_Z (i * 10 ^ Z.of_nat flen + f))
                           (inject_Z (10 ^ Z.of_nat flen)) in
          let q := Float.binary64 (Qmult mant (Qpower (inject_Z 10) e)) in
          if overflows q then Ok (JInfinity neg, s4)
          else Ok (JFloat (if neg then Qred (Qopp q) else q), s4)
      end
  end.

Definition starts_with (word : string) (s : list ascii)
  : option (list ascii) :=
  let w := list_ascii_of_string word in
  if decide (take (List.length w) s = w)
  then Some (drop (List.length w) s) else None.

(** A value.  [depth] is the number of containers that may still be
    opened; [fuel] bounds the recursion and is never used up. *)
Fixpoint value (fuel depth : nat) (s : list ascii)
  : result (json * list ascii) :=
  match fuel with
  | O => Malformed
  | S fuel =>
      match s with
      | [] => Malformed
      | c :: r =>
          let n := code c in
          if n =? 34 then
            match scanstring (S (List.length r)) r [] with
            | Some (str, r') => Ok (JString str, r')
            | None => Malformed
            end
          else if n =? 123 then
            match depth with
            | O => Fails (Exc RecursionError
                     "maximum recursion depth exceeded while decoding a JSON object from a unicode string")
            | S depth =>
                match skip_ws r with
                | c' :: r' =>
                    if code c' =? 125 then Ok (JDict [], r')
                    else members fuel depth (c' :: r') []
                | [] => Malformed
                end
            end
          else if n =? 91 then
            match depth with
            | O => Fails (Exc RecursionError
                     "maximum recursion depth exceeded while decoding a JSON array from a unicode string")
            | S depth =>
                match skip_ws r with
                | c' :: r' =>
                    if code c' =? 93 then Ok (JList [], r')
                    else items fuel depth (c' :: r') []
                | [] => Malformed
                end
            end
          else
            match starts_with "null" s, starts_with "true" s,
                  starts_with "false" s with
            | Some r', _, _ => Ok (JNull, r')
            | _, Some r', _ => Ok (JBool true, r')
            | _, _, Some r' => Ok (JBool false, r')
            | None, None, None =>
                match number s with
                | Ok res => Ok res
                | Fails e => Fails e
                | Malformed =>
                    match starts_with "NaN" s, starts_with "Infinity" s,
                          starts_with "-Infinity" s with
                    | Some r', _, _ => Ok (JNaN, r')
                    | _, Some r', _ => Ok (JInfinity false, r')
                    | _, _, Some r' => Ok (JInfinity true, r')
                    | None, None, None => Malformed
                    end
                end
            end
      end
  end
with items (fuel depth : nat) (s : list ascii) (acc : list json)
  : result (json * list ascii) :=
  match fuel with
  | O => Malformed
  | S fuel =>
      match value fuel depth s with
      | Malformed => Malformed
      | Fails e => Fails e
      | Ok (v, r) =>
          match skip_ws r with
          | c :: r' =>
              if code c =? 44
              then items fuel depth (skip_ws r') (acc ++ [v])%list
              else if code c =? 93 then Ok (JList (acc ++ [v])%list, r')
              else Malformed
          | [] => Malformed
          end
      end
  end
with members (fuel depth : nat) (s : list ascii) (acc : list (string * json))
  : result (json * list ascii) :=
  match fuel with
  | O => Malformed
  | S fuel =>
      match s with
      | q :: r =>
          if code q =? 34 then
            match scanstring (S (List.length r)) r [] with
            | None => Malformed
            | Some (key, r1) =>
                match skip_ws r1 with
                | c :: r2 =>
                    if code c =? 58 then
                      match value fuel depth (skip_ws r2) with
                      | Malformed => Malformed
                      | Fails e => Fails e
                      | Ok (v, r3) =>
                          match skip_ws r3 with
                          | d :: r4 =>
                              if code d =? 44 then
                                members fuel depth (skip_ws r4)
                                  (dict_set acc key v)
                              else if code d =? 125 then
                                Ok (JDict (dict_set acc key v), r4)
                              else Malformed
                          | [] => Malformed
                          end
                      end
                    else Malformed
                | [] => Malformed
                end
            end
          else Malformed
      | [] => Malformed
      end
  end.

(** [json.loads(text)] with room for [depth] nested containers.  The
    [JSONDecodeError] carries the text it was raised for. *)
Definition decode (depth : nat) (text : string) : Outcome json :=
  let s := list_ascii_of_string text in
  match value (2 * List.length s + 2) depth (skip_ws s) with
  | Ok (v, r) =>
      match skip_ws r with
      | [] => Returns v
      | _ => Raises (Exc JSONDecodeError text)
      end
  | Malformed => Raises (Exc JSONDecodeError text)
  | Fails e => Raises e
  end.

(** [json.loads(text)] *)
Definition loads (text : string) : Outcome json :=
  decode recursion_limit text.

End Json.

(* ===================================================================== *)
(** ** Files, paths and division *)
(* ===================================================================== *)

(** [os.path.exists(path)] *)
Definition os_path_exists (path : string) : M bool :=
  fun w => (Returns (bool_decide (is_Some (files w !! path))), w).

(** [open(path, "rb").read()]: the bytes of the file. *)
Definition open_read (path : string) : M string :=
  fun w =>
    match files w !! path with
    | Some data => (Returns data, w)
    | None => (Raises (Exc FileNotFoundError path), w)
    end.

(** [open(path, "r").read()]: the bytes of the file, decoded, with the
    newlines translated. *)
Definition open_read_text (path : string) : M string :=
  fun w =>
    match files w !! path with
    | Some data => (read_text data, w)
    | None => (Raises (Exc FileNotFoundError path), w)
    end.

(** [with open(path, "w") as f: f.write(text)], and the same in mode
    ["wb"]: the file holds the UTF-8 bytes of the text (on POSIX a
    newline is written as it is). *)
Definition open_write (path text : string) : M unit :=
  fun w =>
    if decide (path ∈ unwritable w)
    then (Raises (Exc OSError path), w)
    else (Returns tt, set_files (<[path := text]> (files w)) w).

Module os_path.

Fixpoint rfind_slash (s : list ascii) (acc : list ascii) : list ascii :=
  match s with
  | [] => rev acc
  | c :: r =>
      if code c =? 47 then rfind_slash r [] else rfind_slash r (c :: acc)
  end.

(** [os.path.basename(p)]: what follows the last slash. *)
Definition basename (p : string) : string :=
  string_of_list_ascii (rfind_slash (list_ascii_of_string p) []).

Definition starts_with_slash (s : string) : bool :=
  match s with String c _ => code c =? 47 | EmptyString => false end.

Definition ends_with_slash (s : string) : bool :=
  match rev (list_ascii_of_string s) with
  | c :: _ => code c =? 47
  | [] => false
  end.

(** [os.path.join(a, b)] *)
Definition join (a b : string) : string :=
  if starts_with_slash b then b
  else if negb (truthy a) || ends_with_slash a then a +:+ b
  else a +:+ "/" +:+ b.

End os_path.

(** [a / b] on floats, on integers, and on a float and an integer that
    a double holds exactly: the double nearest to the quotient, and
    [ZeroDivisionError] for a zero divisor. *)
Definition truediv (a b : Q) : M Q :=
  if Qeq_bool b 0 then raise (Exc ZeroDivisionError "division by zero")
  else ret (Float.binary64 (a / b)).

(** Truth value of a number. *)
Definition nonzero (a : Q) : bool := negb (Qeq_bool a 0).

(* ===================================================================== *)
(** ** Whisper and librosa *)
(* ===================================================================== *)

(** [openai.audio.transcriptions.create] answers with a [str] or with an
    object that may have a [text] entry. *)
Inductive WhisperResponse : Type :=
  | WhisperText (text : string)
  | WhisperObject (text : option string).

(** The transcription service: a function of the number of requests made
    before and of the bytes of the file. *)
Definition WhisperOracle : Type := nat -> string -> Outcome WhisperResponse.

Definition transcriptions_create (whisper : WhisperOracle) (file : string)
  : M WhisperResponse :=
  fun w => (whisper (whisper_calls w) file,
            set_whisper_calls (S (whisper_calls w)) w).

(** [librosa.load(path, sr=16000, mono=True)] gives the samples at the rate
    asked for; [librosa.effects.split(y, top_db=30)] gives the voiced
    intervals as pairs of sample indices. *)
Record Librosa : Type := {
  librosa_load : string -> Outcome (list Q);
  librosa_effects_split : list Q -> list (Z * Z)
}.

(* ===================================================================== *)
(** ** Reading a completion *)
(* ===================================================================== *)

Definition lift {A} (o : Outcome A) : M A := fun w => (o, w).

(** [resp.choices[0].message]; [resp] is [None] when [call_with_backoff]
    fell off the end of its loop. *)
Definition first_message (resp : option ChatResponse) : M Message :=
  match resp with
  | None =>
      raise (Exc AttributeError "'NoneType' object has no attribute 'choices'")
  | Some r =>
      match choices r with
      | [] => raise (Exc IndexError "list index out of range")
      | m :: _ => ret m
      end
  end.

(** [json.loads] on a [str], as far as a caller can tell: the decoded
    value, or the exception raised.  That is [JSONDecodeError] for text
    outside the grammar, but also [ValueError] for an integer literal of
    more than 4300 digits and [RecursionError] for deep nesting. *)
Definition Decoder : Type := string -> Outcome json.

(** [json.loads(text)] for a decoder [loads]; [text] is [None] when the
    completion has no content. *)
Definition json_loads (loads : Decoder) (text : option string) : M json :=
  match text with
  | None =>
      raise (Exc TypeError
               "the JSON object must be str, bytes or bytearray, not NoneType")
  | Some t => lift (loads t)
  end.

(* ===================================================================== *)
(** ** src/narrative-agent/exam_grader_agents.py *)
(* ===================================================================== *)

Module NarrativeAgent.

(** [call_with_backoff], src/narrative-agent/exam_grader_agents.py:72-84.
    The loop is unrolled over [range(1, MAX_RETRIES + 1)]; a loop that
    runs out of attempts falls off the end of the function and returns
    [None]. *)
Fixpoint backoff_loop (chat : ChatOracle) (kwargs : ChatRequest)
    (backoff : Q) (attempts : list Z) : M (option ChatResponse) :=
  match attempts with
  | [] => ret None
  | attempt :: rest =>
      try_except
        (r <- chat_create chat kwargs ;; ret (Some r))
        [ ([RateLimitError; ServiceUnavailableError],
           fun e =>
             if decide (attempt = MAX_RETRIES) then raise e
             else (time_sleep (backoff * Qpower 2 (attempt - 1)) ;;;
                   backoff_loop chat kwargs backoff rest));
          ([APIConnectionError; Timeout],
           fun e =>
             if decide (attempt = MAX_RETRIES) then raise e
             else (time_sleep (backoff * Qpower 2 (attempt - 1)) ;;;
                   backoff_loop chat kwargs backoff rest)) ]
  end.

Definition call_with_backoff (chat : ChatOracle) (kwargs : ChatRequest)
  : M (option ChatResponse) :=
  let backoff := INITIAL_BACKOFF in
  backoff_loop chat kwargs backoff (range 1 (MAX_RETRIES + 1)).

(** [get_functions()]: one function schema, [generate_exam_responses]. *)
Definition get_functions : list string := ["generate_exam_responses"].

(** [grade_exam], lines 87-103: the decoded arguments of the forced
    function call are returned as they are; a decoding error is not
    caught. *)
Definition grade_exam (loads : Decoder) (chat : ChatOracle)
    (rubric questions responses : string) : M json :=
  let system_prompt :=
    "You are an exam grader. Use the rubric to assign each question a numeric score (0-10) and concise feedback. "
    +:+ "Then compute the overall score as the average and provide general feedback. Return JSON." in
  let user_prompt :=
    "Rubric:" +:+ nl +:+ rubric +:+ nl +:+ nl +:+
    "Questions:" +:+ nl +:+ questions +:+ nl +:+ nl +:+
    "Student Responses:" +:+ nl +:+ responses in
  resp <- call_with_backoff chat
            {| req_model := "gpt-4-0613";
               req_system := system_prompt;
               req_user := user_prompt;
               req_temperature := 3 # 10;
               req_seed := None;
               req_functions := get_functions;
               req_function_call := Some "generate_exam_responses" |} ;;
  m <- first_message resp ;;
  match function_call_arguments m with
  | None =>
      raise (Exc AttributeError
               "'NoneType' object has no attribute 'arguments'")
  | Some arguments => json_loads loads (Some arguments)
  end.

End NarrativeAgent.

(* ===================================================================== *)
(** ** src/multi-agent/exam_grader_agents_multi_1.py *)
(* ===================================================================== *)

Module MultiAgent.

Definition TECHNICAL_PROMPT_TEMPLATE : string :=
  nl +:+ lines [
    "You are a grading assistant for technical exams. Your "
      +:+ "role is to evaluate student responses based on the "
      +:+ "provided questions and, if available, the rubric.";
    EmptyString;
    "### Grading Instructions:";
    "- For each question:";
    "  - Read the question and the student's answer.";
    "  - If a rubric is provided for that question, follow "
      +:+ "it carefully to assign points based on the expected "
      +:+ "criteria.";
    "  - If no rubric is provided, use your expert-level "
      +:+ "knowledge of the subject to assess:";
    "    - Factual accuracy.";
    "    - Completeness.";
    "    - Clarity.";
    "- Assign a score for each answer:";
    "  - Use the point scale from the rubric, or if none is "
      +:+ "provided, use a default scale of 0-10 points.";
    "- Provide feedback for each answer:";
    "  - Explain why the student received the score.";
    "  - Offer suggestions for improvement if the answer is "
      +:+ "incomplete or incorrect.";
    EmptyString;
    "### Output Format:";
    "Respond ONLY with raw JSON (no markdown):";
    "{";
    "  " +:+ dq +:+ "question_1" +:+ dq +:+ ": {";
    "    " +:+ dq +:+ "score" +:+ dq +:+ ": X,";
    "    " +:+ dq +:+ "feedback" +:+ dq +:+ ": " +:+ dq +:+ "..." +:+ dq;
    "  },";
    "  " +:+ dq +:+ "question_2" +:+ dq +:+ ": {";
    "    " +:+ dq +:+ "score" +:+ dq +:+ ": Y,";
    "    " +:+ dq +:+ "feedback" +:+ dq +:+ ": " +:+ dq +:+ "..." +:+ dq;
    "  },";
    "  ...";
    "  " +:+ dq +:+ "total_score" +:+ dq +:+ ": Z";
    "}";
    EmptyString;
    "### Rubric (if available):";
    "{rubric_markdown}" ]%string.

Definition NARRATIVE_PROMPT_WITH_RUBRIC : string :=
  nl +:+ lines [
    "You are an exam grader. Use the rubric to assign each "
      +:+ "question a numeric score (0-10) and valuable concise "
      +:+ "feedback so the student can further understand their "
      +:+ "strengths and weaknesses of the material. Then compute "
      +:+ "the overall score as the average and provide general "
      +:+ "feedback. Return JSON.";
    EmptyString;
    "### Output Format:";
    "Respond ONLY with raw JSON (no markdown):";
    "{";
    "  " +:+ dq +:+ "question_1" +:+ dq +:+ ": {";
    "    " +:+ dq +:+ "score" +:+ dq +:+ ": X,";
    "    " +:+ dq +:+ "feedback" +:+ dq +:+ ": " +:+ dq +:+ "..." +:+ dq;
    "  },";
    "  " +:+ dq +:+ "question_2" +:+ dq +:+ ": {";
    "    " +:+ dq +:+ "score" +:+ dq +:+ ": Y,";
    "    " +:+ dq +:+ "feedback" +:+ dq +:+ ": " +:+ dq +:+ "..." +:+ dq;
    "  },";
    "  ...";
    "  " +:+ dq +:+ "total_score" +:+ dq +:+ ": Z";
    "}" ]%string.

Definition NARRATIVE_PROMPT_NO_RUBRIC : string :=
  nl +:+ lines [
    "You are an exam grader. The rubric is not available. "
      +:+ "Use your own criteria to assign each question a numeric "
      +:+ "score (0-10) and constructive feedback. Then compute "
      +:+ "the overall score as the average and provide general "
      +:+ "feedback. Return JSON.";
    EmptyString;
    "### Output Format:";
    "Respond ONLY with raw JSON (no markdown):";
    "{";
    "  " +:+ dq +:+ "question_1" +:+ dq +:+ ": {";
    "    " +:+ dq +:+ "score" +:+ dq +:+ ": X,";
    "    " +:+ dq +:+ "feedback" +:+ dq +:+ ": " +:+ dq +:+ "..." +:+ dq;
    "  },";
    "  " +:+ dq +:+ "question_2" +:+ dq +:+ ": {";
    "    " +:+ dq +:+ "score" +:+ dq +:+ ": Y,";
    "    " +:+ dq +:+ "feedback" +:+ dq +:+ ": " +:+ dq +:+ "..." +:+ dq;
    "  },";
    "  ...";
    "  " +:+ dq +:+ "total_score" +:+ dq +:+ ": Z";
    "}" ]%string.

(** [RUBRIC_CACHE_DIR = os.path.join(os.getcwd(), "cache")] *)
Definition RUBRIC_CACHE_DIR (cwd : string) : string :=
  os_path.join cwd "cache".

(** [transcribe], lines 170-185.  The cache file is read and written in
    text mode, the recording is read in binary mode. *)
Definition transcribe (cwd : string) (whisper : WhisperOracle)
    (mp3_path : string) : M string :=
  let cache_file :=
    os_path.join (RUBRIC_CACHE_DIR cwd)
                 (os_path.basename mp3_path +:+ ".txt") in
  cached <- os_path_exists cache_file ;;
  if (cached : bool) then open_read_text cache_file
  else
    f <- open_read mp3_path ;;
    resp <- transcriptions_create whisper f ;;
    let transcript :=
      match resp with
      | WhisperText text => text
      | WhisperObject (Some text) => text
      | WhisperObject None => EmptyString
      end in
    open_write cache_file transcript ;;;
    ret transcript.

Record AudioMetrics : Type := {
  duration : Q;
  wpm : Q;
  silence_ratio : Q;
  transcript : string
}.

(** [sum((e - s) for s, e in intervals)] *)
Definition voiced_samples (intervals : list (Z * Z)) : Z :=
  fold_right (fun '(s, e) acc => (e - s) + acc) 0 intervals.

(** [analyze_audio], lines 188-202.  [len(y) / sr] divides two integers;
    the word count and the sum of the (numpy) sample counts become floats
    before they are divided. *)
Definition analyze_audio (cwd : string) (whisper : WhisperOracle)
    (librosa : Librosa) (mp3_path : string) : M AudioMetrics :=
  y <- lift (librosa_load librosa mp3_path) ;;
  let sr := 16000 in
  duration <- truediv (inject_Z (Z.of_nat (List.length y))) (inject_Z sr) ;;
  transcript <- transcribe cwd whisper mp3_path ;;
  let word_count := Z.of_nat (List.length (split transcript)) in
  wpm <- (if nonzero duration
          then (minutes <- truediv duration 60 ;;
                truediv (float_of_int word_count) minutes)
          else ret 0%Q) ;;
  let intervals := librosa_effects_split librosa y in
  voiced <- truediv (float_of_int (voiced_samples intervals))
              (inject_Z sr) ;;
  silence_ratio <- (if nonzero duration
                    then truediv (float_sub duration voiced) duration
                    else ret 0%Q) ;;
  ret {| duration := duration; wpm := wpm;
         silence_ratio := silence_ratio; transcript := transcript |}.

(** The names of line 9,
    [from openai import OpenAIError, RateLimitError, APIConnectionError, Timeout]:
    three exception classes and [httpx.Timeout]. *)
Definition imported_OpenAIError : except_entry := ExceptionClass OpenAIError.
Definition imported_RateLimitError : except_entry :=
  ExceptionClass RateLimitError.
Definition imported_APIConnectionError : except_entry :=
  ExceptionClass APIConnectionError.
Definition imported_Timeout : except_entry := httpx_Timeout.

(** [call_with_backoff], lines 205-213: one [except] clause, whose tuple
    names the base class [OpenAIError] next to two of its subclasses and
    ends with [Timeout]. *)
Fixpoint backoff_loop (chat : ChatOracle) (kwargs : ChatRequest)
    (backoff : Q) (attempts : list Z) : M (option ChatResponse) :=
  match attempts with
  | [] => ret None
  | attempt :: rest =>
      try_except_tuple
        (r <- chat_create chat kwargs ;; ret (Some r))
        [ imported_RateLimitError; imported_OpenAIError;
          imported_APIConnectionError; imported_Timeout ]
        (fun e =>
           if decide (attempt = MAX_RETRIES) then raise e
           else (time_sleep (backoff * Qpower 2 (attempt - 1)) ;;;
                 backoff_loop chat kwargs backoff rest))
  end.

Definition call_with_backoff (chat : ChatOracle) (kwargs : ChatRequest)
  : M (option ChatResponse) :=
  let backoff := INITIAL_BACKOFF in
  backoff_loop chat kwargs backoff (range 1 (MAX_RETRIES + 1)).

(** The two prompts of [grade_exam], lines 216-228.  The technical branch
    runs [str.format] on a template whose JSON example has single braces. *)
Definition build_prompts (rubric questions responses exam_type : string)
  : Outcome (string * string) :=
  let rubric_markdown :=
    if truthy (strip rubric) then strip rubric else "No rubric provided." in
  if decide (exam_type = "technical") then
    match Format.format TECHNICAL_PROMPT_TEMPLATE
            [("rubric_markdown", rubric_markdown)] with
    | Raises e => Raises e
    | Returns formatted =>
        Returns ("You are a helpful technical exam grader.",
                 formatted +:+ nl +:+ nl +:+ "Questions:" +:+ nl +:+ questions
                 +:+ nl +:+ nl +:+ "Student Responses:" +:+ nl +:+ responses)
    end
  else (* narrative default *)
    if truthy (strip rubric) then
      Returns (NARRATIVE_PROMPT_WITH_RUBRIC,
               "Rubric:" +:+ nl +:+ rubric +:+ nl +:+ nl +:+
               "Questions:" +:+ nl +:+ questions +:+ nl +:+ nl +:+
               "Student Responses:" +:+ nl +:+ responses)
    else
      Returns (NARRATIVE_PROMPT_NO_RUBRIC,
               "Questions:" +:+ nl +:+ questions +:+ nl +:+ nl +:+
               "Student Responses:" +:+ nl +:+ responses).

(** [grade_exam], lines 215-244. *)
Definition grade_exam (loads : Decoder) (chat : ChatOracle)
    (rubric questions responses exam_type : string) : M json :=
  prompts <- lift (build_prompts rubric questions responses exam_type) ;;
  let '(system_prompt, user_prompt) := prompts in
  resp <- call_with_backoff chat
            {| req_model := "gpt-4-0613";
               req_system := system_prompt;
               req_user := user_prompt;
               req_temperature := 0;
               req_seed := Some 42;
               req_functions := [];
               req_function_call := None |} ;;
  m <- first_message resp ;;
  let raw_response := content m in
  try_except
    (json_loads loads raw_response)
    [ ([JSONDecodeError],
       fun _ =>
         ret (JDict [("error", JString "Invalid JSON");
                     ("raw", match raw_response with
                             | Some raw => JString raw
                             | None => JNull
                             end)])) ].

End MultiAgent.

(* ===================================================================== *)
(** ** src/exam_grader_agents.py *)
(* ===================================================================== *)

Module AgentsSDK.

Record PartEvaluation : Type := {
  part_name : string;
  score : Q;
  max_score : Q;
  feedback : string
}.

Record ExamEvaluation : Type := {
  exam_type : string;
  overall_score : Q;
  parts : list PartEvaluation;
  audio_metrics : option (list (string * json))
}.

Record VCAudioCheck : Type := {
  has_audio : bool;
  reasoning : string
}.

Record GuardrailFunctionOutput : Type := {
  output_info : bool;
  tripwire_triggered : bool
}.

(** A [TResponseInputItem]: a role and a content. *)
Record Item : Type := { role : string; item_content : string }.

(** What the model behind an agent can answer: a final output of one of
    the declared output types (or plain text), or a handoff to the agent
    of a given name. *)
Inductive AgentOutput : Type :=
  | OutText (text : string)
  | OutEvaluation (ev : ExamEvaluation)
  | OutAudioCheck (check : VCAudioCheck).

Inductive Turn : Type :=
  | FinalOutput (out : AgentOutput)
  | Handoff (target : string).

(** The language model, asked on behalf of the agent of a given name. *)
Definition AgentModel : Type := string -> list Item -> Outcome Turn.

Definition Guardrail : Type := list Item -> M GuardrailFunctionOutput.

#[warnings="-register-all"]
Inductive Agent : Type :=
  mkAgent (name : string) (handoff_description : string)
          (instructions : string) (tools : list string)
          (input_guardrails : list Guardrail) (handoffs : list Agent).

Definition agent_name (a : Agent) : string :=
  match a with mkAgent name _ _ _ _ _ => name end.

Definition ask (model : AgentModel) (name : string) (items : list Item)
  : M Turn :=
  fun w => (model name items, set_agent_log (agent_log w ++ [name]) w).

Fixpoint run_guardrails (guards : list Guardrail) (items : list Item)
  : M unit :=
  match guards with
  | [] => ret tt
  | g :: rest =>
      out <- g items ;;
      if tripwire_triggered out
      then raise (Exc InputGuardrailTripwireTriggered "input guardrail")
      else run_guardrails rest items
  end.

Definition input_guardrails (a : Agent) : list Guardrail :=
  match a with mkAgent _ _ _ _ guards _ => guards end.

(** [await asyncio.gather(a, b)]: both are started, [a] first, and both
    make their requests; the first exception is the one raised. *)
Definition gather {A B} (a : M A) (b : M B) : M (A * B) :=
  fun w =>
    let '(ra, w1) := a w in
    let '(rb, w2) := b w1 in
    match ra, rb with
    | Returns x, Returns y => (Returns (x, y), w2)
    | Raises e, _ => (Raises e, w2)
    | Returns _, Raises e => (Raises e, w2)
    end.

(** What a run does with the answer of the model of [agent]: a final
    output ends the run; a handoff makes the chosen agent the current
    one, and its model is asked with the same items.  The input
    guardrails of the agent handed to are not looked at.  Turns in which
    the model calls a tool are left out: the model is taken to answer
    with a final output or a handoff. *)
Fixpoint follow (model : AgentModel) (agent : Agent) (items : list Item)
    (turn : Turn) : M AgentOutput :=
  match agent with
  | mkAgent _ _ _ _ _ handoffs =>
      match turn with
      | FinalOutput out => ret out
      | Handoff target =>
          (fix pick (l : list Agent) : M AgentOutput :=
             match l with
             | [] => raise (Exc (OtherException "ModelBehaviorError") target)
             | a :: rest =>
                 if decide (agent_name a = target)
                 then (next <- ask model (agent_name a) items ;;
                       follow model a items next)
                 else pick rest
             end) handoffs
      end
  end.

(** [Runner.run(agent, items)] belongs to the agents SDK, which is not
    part of the repository.  The SDK runs the input guardrails of the
    agent the run starts with, and of no other agent, alongside the first
    call of that agent's model; a triggered tripwire ends the run with
    [InputGuardrailTripwireTriggered]. *)
Definition Runner_run (model : AgentModel) (agent : Agent)
    (items : list Item) : M AgentOutput :=
  first <- gather (run_guardrails (input_guardrails agent) items)
                  (ask model (agent_name agent) items) ;;
  follow model agent items (snd first).

Definition guardrail_agent : Agent :=
  mkAgent "VC Pitch Audio Guardrail" EmptyString
    "Check whether the provided inputs include an audio file for a VC‐pitch exam."
    [] [] [].

(** [require_audio], lines 119-126. *)
Definition require_audio (model : AgentModel) : Guardrail :=
  fun inputs =>
    result <- Runner_run model guardrail_agent inputs ;;
    match result with
    | OutAudioCheck out =>
        ret {| output_info := has_audio out;
               tripwire_triggered := negb (has_audio out) |}
    | _ =>
        raise (Exc AttributeError "object has no attribute 'has_audio'")
    end.

Definition technical_agent : Agent :=
  mkAgent "Technical Examiner"
    "Specialist in grading technical problem‐solving exams"
    ("You are an expert grader for technical exams. "
     +:+ "Given the question, the student’s answer, and an optional rubric (in markdown), "
     +:+ "assign scores for correctness, depth, and clarity, then justify each score.")
    ["extract_pdf_to_markdown"] [] [].

Definition narrative_agent : Agent :=
  mkAgent "Narrative Examiner"
    "Specialist in grading narrative and strategy essays"
    ("You are an expert grader for narrative/strategy essays. "
     +:+ "Evaluate structure, argumentation, creativity, and evidence use. "
     +:+ "Score each dimension and provide feedback.")
    ["extract_pdf_to_markdown"] [] [].

Definition vc_pitch_agent (model : AgentModel) : Agent :=
  mkAgent "VC Pitch Examiner"
    "Specialist in grading VC-pitch presentations"
    ("You are an expert grader for VC pitch presentations. "
     +:+ "Using the transcript, delivery metrics, and any slides, score problem definition, solution, market, team, "
     +:+ "and presentation style. Provide detailed feedback.")
    ["analyze_audio"] [require_audio model] [].

(** [triage_agent], lines 187-205; [prefix] is what the SDK helper
    [prompt_with_handoff_instructions] puts before the instructions. *)
Definition triage_agent (prefix : string) (model : AgentModel) : Agent :=
  mkAgent "Exam Triage Agent" EmptyString
    (prefix +:+ lines
       [ "You have three specialist agents:";
         "         - transfer_to_Technical_Examiner  ";
         "         - transfer_to_Narrative_Examiner  ";
         "         - transfer_to_VC_Pitch_Examiner  ";
         EmptyString;
         "        Read the inputs and **invoke exactly one** of these tools,";
         "        by emitting the single tool call whose name matches";
         "        the specialist best suited. Do not call more than one." ])
    [] []
    [technical_agent; narrative_agent; vc_pitch_agent model].

(** The user messages of [grade_exam], lines 228-240: one per key that
    is present in [input_data]. *)
Definition user_items (input_data : gmap string string)
    (keys : list string) : list Item :=
  omap (fun key =>
          match input_data !! key with
          | Some v => Some {| role := "user";
                              item_content := key +:+ ": " +:+ v |}
          | None => None
          end) keys.

(** [grade_exam], lines 217-246; [final_output_as] does not check the
    type of the output. *)
Definition grade_exam (prefix : string) (model : AgentModel)
    (input_data : gmap string string) : M AgentOutput :=
  let items :=
    ([ {| role := "system";
          item_content :=
            "You will be given an exam, a rubric, and student responses. Decide exam_type then grade." |} ]
     ++ user_items input_data ["pdf_path"; "rubric_path"; "md_path"]
     ++ user_items input_data ["mp3_path"])%list in
  Runner_run model (triage_agent prefix model) items.

End AgentsSDK.

(* ===================================================================== *)
(** ** Vocabulary of the specification *)
(* ===================================================================== *)

(** The failures the specification calls transient: rate limiting,
    service unavailable, connection errors and timeouts. *)
Definition transient (e : exception) : bool :=
  matches e [RateLimitError; ServiceUnavailableError;
             APIConnectionError; Timeout].

Definition MissingRequiredInput : exc_class :=
  OtherException "MissingRequiredInput".


(** The waiting time the source computes before the retry that follows
    attempt number [attempt]: [backoff * (2 ** (attempt - 1))]. *)
Definition delay (attempt : Z) : Q :=
  (INITIAL_BACKOFF * Qpower 2 (attempt - 1))%Q.

(** The world after [k] failed attempts of one request, each followed by
    its wait. *)
Definition after_failures (kwargs : ChatRequest) (waits : list Q) (k : nat)
    (w : World) : World :=
  set_sleeps (sleeps w ++ waits)%list
    (set_chat_log (chat_log w ++ repeat kwargs k)%list w).

(** A retry loop for any [except] test: the shape against which the
    [backoff_loop] of the narrative agent is compared. *)
Fixpoint retry_loop (retryable : exception -> bool) (chat : ChatOracle)
    (kwargs : ChatRequest) (attempts : list Z) : M (option ChatResponse) :=
  match attempts with
  | [] => ret None
  | attempt :: rest =>
      fun w =>
        let w1 := set_chat_log (chat_log w ++ [kwargs])%list w in
        match chat (List.length (chat_log w)) kwargs with
        | Returns r => (Returns (Some r), w1)
        | Raises e =>
            if retryable e then
              if decide (attempt = MAX_RETRIES) then (Raises e, w1)
              else retry_loop retryable chat kwargs rest
                     (set_sleeps (sleeps w1 ++ [delay attempt])%list w1)
            else (Raises e, w1)
        end
  end.

(** The first [k] calls made from world [w] on fail with an error that
    [retryable] accepts. *)
Definition fails_first (retryable : exception -> bool) (chat : ChatOracle)
    (kwargs : ChatRequest) (k : nat) (w : World) : Prop :=
  forall i, (i < k)%nat ->
    exists e, chat (List.length (chat_log w) + i)%nat kwargs = Raises e
              /\ retryable e = true.

(** What the two [except] clauses of the narrative agent catch. *)
Definition narrative_catches (e : exception) : bool :=
  matches e [RateLimitError; ServiceUnavailableError]
  || matches e [APIConnectionError; Timeout].

(** What the [except] clause of the multi agent raises when an exception
    reaches it. *)
Definition except_tuple_error : exception :=
  Exc TypeError
    "catching classes that do not inherit from BaseException is not allowed".

(** Numbers in a decoded answer, and the aggregations the specification
    declares over the scores of the parts. *)
Definition as_number (j : json) : option Q :=
  match j with
  | JInt n => Some (inject_Z n)
  | JFloat q => Some q
  | _ => None
  end.

Definition part_scores (d : list (string * json)) : list Q :=
  omap (fun '(k, v) =>
          if decide (k = "total_score") then None
          else match v with
               | JDict part => dict_get part "score" ≫= as_number
               | _ => None
               end) d.

Definition reported_total (d : list (string * json)) : option Q :=
  dict_get d "total_score" ≫= as_number.

Definition score_sum (scores : list Q) : Q := fold_right Qplus 0%Q scores.

Definition score_mean (scores : list Q) : Q :=
  (score_sum scores / inject_Z (Z.of_nat (List.length scores)))%Q.

Definition within_tolerance (a b : Q) : Prop :=
  (Qabs (a - b) <= 1 # 1000000)%Q.

(** The structure the prompts ask for: an object with a numeric
    [total_score] whose other members are objects with a numeric [score]
    and a [feedback] string. *)
Definition is_part (j : json) : bool :=
  match j with
  | JDict part =>
      match dict_get part "score" ≫= as_number, dict_get part "feedback" with
      | Some _, Some (JString _) => true
      | _, _ => false
      end
  | _ => false
  end.

Definition expected_structure (j : json) : bool :=
  match j with
  | JDict d =>
      bool_decide (is_Some (reported_total d))
      && forallb (fun '(k, v) =>
                    if decide (k = "total_score") then true else is_part v) d
  | _ => false
  end.

(** The record [grade_exam] builds when decoding fails. *)
Definition parse_failure (raw : string) : json :=
  JDict [("error", JString "Invalid JSON"); ("raw", JString raw)].

(** The text of the first choice of a completion, as each file reads it. *)
Definition first_content (resp : ChatResponse) : option string :=
  match choices resp with
  | m :: _ => content m
  | [] => None
  end.

Definition first_arguments (resp : ChatResponse) : option string :=
  match choices resp with
  | m :: _ => function_call_arguments m
  | [] => None
  end.


(** A text without carriage return. *)
Definition no_carriage_return (t : string) : Prop :=
  Forall (fun c => code c <> 13) (list_ascii_of_string t).

(** The words of a text, counted without splitting it: a word begins at
    every character that is not white space and comes first or after
    white space. *)
Fixpoint word_starts (after_space : bool) (chars : list (list ascii))
  : nat :=
  match chars with
  | [] => 0
  | ch :: rest =>
      ((if after_space && negb (Text.isspace ch) then 1 else 0)
       + word_starts (Text.isspace ch) rest)%nat
  end.

Definition word_count (t : string) : nat := word_starts true (characters t).

(** The samples inside a list of intervals. *)
Definition samples_in (intervals : list (Z * Z)) : Z :=
  fold_right Z.add 0 (map (fun interval => snd interval - fst interval)
                          intervals).

(** The cache file of a source. *)
Definition cache_file (cwd mp3_path : string) : string :=
  os_path.join (MultiAgent.RUBRIC_CACHE_DIR cwd)
               (os_path.basename mp3_path +:+ ".txt").

(** The text [transcribe] takes from a Whisper answer. *)
Definition transcript_of (resp : WhisperResponse) : string :=
  match resp with
  | WhisperText text => text
  | WhisperObject (Some text) => text
  | WhisperObject None => EmptyString
  end.

(** A property of [call_with_backoff] that holds in both files. *)
Definition both_files
    (P : (ChatOracle -> ChatRequest -> M (option ChatResponse)) -> Prop)
  : Prop :=
  P NarrativeAgent.call_with_backoff /\ P MultiAgent.call_with_backoff.

(** Requests sent to the chat model between two worlds. *)
Definition invocations (w w' : World) : nat :=
  (List.length (chat_log w') - List.length (chat_log w))%nat.

(* ===================================================================== *)
(** ** Stub services for the examples *)
(* ===================================================================== *)

Module Stub.

Definition world0 : World :=
  {| files := ∅; unwritable := ∅; chat_log := []; whisper_calls := 0;
     agent_log := []; sleeps := [] |}.

Definition request : ChatRequest :=
  {| req_model := "gpt-4-0613"; req_system := "system"; req_user := "user";
     req_temperature := 0; req_seed := None; req_functions := [];
     req_function_call := None |}.

Definition answer (text : string) : ChatResponse :=
  {| choices := [ {| content := Some text;
                     function_call_arguments := Some text |} ] |}.

(** A chat model that always answers [text]. *)
Definition answers (text : string) : ChatOracle :=
  fun _ _ => Returns (answer text).


(** A chat model that raises [e] on every call. *)
Definition always_fails (e : exception) : ChatOracle :=
  fun _ _ => Raises e.

Definition rate_limited : exception := Exc RateLimitError "429".
Definition bad_request : exception := Exc BadRequestError "400".

Definition q (s : string) : string := dq +:+ s +:+ dq.

(** [{"question_1":{"score":8,"feedback":"ok"},"total_score":3}] *)
Definition inflated_total : string :=
  "{" +:+ q "question_1" +:+ ":{" +:+ q "score" +:+ ":8,"
  +:+ q "feedback" +:+ ":" +:+ q "ok" +:+ "}," +:+ q "total_score" +:+ ":3}".

(** An integer literal of 4301 digits. *)
Definition long_integer : string :=
  string_of_list_ascii (repeat "1"%char 4301).

(** A disk with one recording, and the same disk with a cache directory
    that cannot be written. *)
Definition disk : World :=
  set_files {[ "/in/pitch.mp3" := "ID3-bytes" ]} world0.

Definition read_only_disk : World :=
  {| files := {[ "/in/pitch.mp3" := "ID3-bytes" ]};
     unwritable := {[ "/work/cache/pitch.mp3.txt" ]};
     chat_log := []; whisper_calls := 0; agent_log := []; sleeps := [] |}.

Definition whisper : WhisperOracle :=
  fun _ _ => Returns (WhisperText "we sell shovels").


(** A transcript of three words, the first two separated by a no-break
    space (U+00A0, the bytes C2 A0 in UTF-8). *)
Definition three_words : string :=
  "we" +:+ String (chr 194) (String (chr 160) "sell shovels").

Definition whisper_no_break_space : WhisperOracle :=
  fun _ _ => Returns (WhisperText three_words).

(** A millisecond of audio (sixteen samples), four samples of it voiced;
    and no audio. *)
Definition one_millisecond : Librosa :=
  {| librosa_load := fun _ => Returns (repeat 0%Q 16);
     librosa_effects_split := fun _ => [(4, 8)] |}.

Definition empty_audio : Librosa :=
  {| librosa_load := fun _ => Returns [];
     librosa_effects_split := fun _ => [] |}.

(** A language model for the agents: the triage agent hands off to the
    VC pitch examiner, the guardrail agent answers [sees_audio], and the
    examiner returns an evaluation. *)
Definition evaluation : AgentsSDK.ExamEvaluation :=
  {| AgentsSDK.exam_type := "vc_pitch";
     AgentsSDK.overall_score := 7;
     AgentsSDK.parts := [];
     AgentsSDK.audio_metrics := None |}.

Definition pitch_model (sees_audio : bool) : AgentsSDK.AgentModel :=
  fun name _ =>
    if decide (name = "Exam Triage Agent")
    then Returns (AgentsSDK.Handoff "VC Pitch Examiner")
    else if decide (name = "VC Pitch Audio Guardrail")
    then Returns (AgentsSDK.FinalOutput
                    (AgentsSDK.OutAudioCheck
                       {| AgentsSDK.has_audio := sees_audio;
                          AgentsSDK.reasoning := "looked at the inputs" |}))
    else Returns (AgentsSDK.FinalOutput (AgentsSDK.OutEvaluation evaluation)).

(** A submission without [mp3_path]. *)
Definition no_audio : gmap string string :=
  {[ "pdf_path" := "pitch.pdf"; "md_path" := "notes" ]}.

End Stub.

(* ===================================================================== *)
(** * More vocabulary *)
(* ===================================================================== *)

(** The seconds a list of waits adds up to. *)
Definition total_wait (waits : list Q) : Q := fold_right Qplus 0%Q waits.

(** How the chat model ends on its [i]-th request after world [w], as
    [call_with_backoff] would hand it on. *)
Definition attempt_outcome (chat : ChatOracle) (kwargs : ChatRequest)
    (w : World) (i : nat) : Outcome (option ChatResponse) :=
  match chat (List.length (chat_log w) + i)%nat kwargs with
  | Returns r => Returns (Some r)
  | Raises e => Raises e
  end.

(** No character of [s] is the path separator. *)
Definition slash_free (s : list ascii) : Prop :=
  Forall (fun c => code c <> 47) s.

(* ===================================================================== *)
(** * The code around the graders *)
(* ===================================================================== *)

(** ** pdfplumber *)

(** A table is a list of rows, a row a list of cells, a cell a [str] or
    [None]. *)
Definition Table : Type := list (list (option string)).

(** What the code reads of a page: [page.extract_text()] and
    [page.extract_tables()], either of which may be [None]. *)
Record Page : Type := {
  page_text : option string;
  page_tables : option (list Table)
}.

(** pdfplumber, as a function of the bytes of the file: the pages, or the
    exception raised while the file is opened or a page is read.  The
    code between [pdfplumber.open] and the last page has no effect on the
    world, so it does not matter at which page an exception comes. *)
Definition Pdfplumber : Type := string -> Outcome (list Page).

(** [with pdfplumber.open(path) as pdf: ... pdf.pages] *)
Definition pdfplumber_open (pdf : Pdfplumber) (path : string)
  : M (list Page) :=
  data <- open_read path ;;
  lift (pdf data).

(** ** src/multi-agent/exam_grader_agents_multi_1.py, lines 137-167 *)

Module MultiAgentPdf.

(** The characters ["*"], the bullet U+2022, the middle dot U+00B7 and
    ["-"]. *)
Definition markers : list (list ascii) :=
  [ [chr 42]; [chr 226; chr 128; chr 162]; [chr 194; chr 183]; [chr 45] ].

Definition is_marker (ch : list ascii) : bool := bool_decide (ch ∈ markers).

(** The body of the loop of [clean_text_formatting], lines 142-148. *)
Definition clean_line (line : string) : string :=
  let s := Text.strip Text.isspace (Text.chars (list_ascii_of_string line)) in
  match s with
  | [] => EmptyString
  | ch :: _ =>
      if is_marker ch
      then "- " +:+ string_of_list_ascii
                      (List.concat (Text.strip Text.isspace
                                 (Text.lstrip is_marker s)))
      else string_of_list_ascii (List.concat s)
  end.

(** [clean_text_formatting], lines 138-149. *)
Definition clean_text_formatting (text : string) : string :=
  let lines := Text.split (chr 10) text in
  let cleaned := map clean_line lines in
  Text.join nl cleaned +:+ nl.

(** The items of [" | ".join(header)]: [str.join] raises [TypeError] at
    the first item that is not a [str]. *)
Fixpoint str_items (i : nat) (cells : list (option string))
  : Outcome (list string) :=
  match cells with
  | [] => Returns []
  | Some s :: rest =>
      match str_items (S i) rest with
      | Returns l => Returns (s :: l)
      | Raises e => Raises e
      end
  | None :: _ =>
      Raises (Exc TypeError
                ("sequence item " +:+ Text.str_of_nat i
                 +:+ ": expected str instance, NoneType found"))
  end.

(** A cell, or the empty string for [None] and for an empty cell. *)
Definition cell_or_empty (cell : option string) : string :=
  match cell with
  | Some s => if truthy s then s else EmptyString
  | None => EmptyString
  end.

(** [convert_table_to_markdown], lines 151-157. *)
Definition convert_table_to_markdown (table : Table) : Outcome string :=
  match table with
  | [] =>
      Raises (Exc ValueError
                "not enough values to unpack (expected at least 1, got 0)")
  | header :: rows =>
      match str_items 0 header with
      | Raises e => Raises e
      | Returns items =>
          let md := "| " +:+ Text.join " | " items +:+ " |" +:+ nl in
          let md :=
            md +:+ "| " +:+ Text.join " | " (map (fun _ => "--") header)
               +:+ " |" +:+ nl in
          Returns
            (fold_left
               (fun md r =>
                  md +:+ "| " +:+ Text.join " | " (map cell_or_empty r)
                     +:+ " |" +:+ nl)
               rows md)
      end
  end.

(** [for tbl in page.extract_tables() or []: out += ...], lines 165-166. *)
Fixpoint tables_loop (tables : list Table) (out : string) : Outcome string :=
  match tables with
  | [] => Returns out
  | tbl :: rest =>
      match convert_table_to_markdown tbl with
      | Raises e => Raises e
      | Returns md => tables_loop rest (out +:+ nl +:+ md)
      end
  end.

(** [for i, page in enumerate(pdf.pages, start=1): ...], lines 161-166. *)
Fixpoint pages_loop (i : nat) (pages : list Page) (out : string)
  : Outcome string :=
  match pages with
  | [] => Returns out
  | page :: rest =>
      let out := out +:+ nl +:+ nl +:+ "## Page " +:+ Text.str_of_nat i +:+ nl in
      let text :=
        match page_text page with
        | Some t => t
        | None => EmptyString
        end in
      let out := out +:+ clean_text_formatting text in
      let tables :=
        match page_tables page with
        | Some l => l
        | None => []
        end in
      match tables_loop tables out with
      | Raises e => Raises e
      | Returns out => pages_loop (S i) rest out
      end
  end.

(** [extract_pdf_to_markdown], lines 137-167. *)
Definition extract_pdf_to_markdown (pdf : Pdfplumber) (pdf_path : string)
  : M string :=
  pages <- pdfplumber_open pdf pdf_path ;;
  lift (pages_loop 1 pages EmptyString).

End MultiAgentPdf.

(** ** src/multi-agent/gradio_ui_1.py *)

Module GradioUI.

(** An uploaded file is known by its [name], the path of the copy gradio
    keeps; [file_obj.read()] gives the bytes of that copy. *)

(** [extract_text_from_file], lines 12-18. *)
Definition extract_text_from_file (pdf : Pdfplumber) (file_obj : string)
  : M string :=
  if Text.endswith file_obj ".pdf"
  then MultiAgentPdf.extract_pdf_to_markdown pdf file_obj
  else if Text.endswith file_obj ".txt" || Text.endswith file_obj ".md"
  then (data <- open_read file_obj ;; lift (decode_utf8 data))
  else ret "Unsupported file format".

(** [json.dumps(obj, indent=2, ensure_ascii=False)] is a function [dumps]
    of the value.  FPDF lays the lines of that text out and writes the
    document; [fpdf] gives the bytes of the document for the text, or the
    exception FPDF raises (the core fonts cannot encode every
    character). *)
Record Printer : Type := {
  dumps : json -> string;
  fpdf : string -> Outcome string
}.

(** [json_to_pdf], lines 21-28. *)
Definition json_to_pdf (printer : Printer) (json_obj : json)
    (output_path : string) : M unit :=
  document <- lift (fpdf printer (dumps printer json_obj)) ;;
  open_write output_path document.

(** [handle_exam], lines 31-47.  [rubric_path] is [None] when no rubric
    was uploaded. *)
Definition handle_exam (loads : Decoder) (printer : Printer)
    (pdf : Pdfplumber) (chat : ChatOracle)
    (pdf_path : string) (rubric_path : option string)
    (student_response_file : string) (exam_type : string)
  : M (string * string * string) :=
  questions_md <- MultiAgentPdf.extract_pdf_to_markdown pdf pdf_path ;;
  rubric_md <- match rubric_path with
               | Some path => MultiAgentPdf.extract_pdf_to_markdown pdf path
               | None => ret EmptyString
               end ;;
  student_response_md <- extract_text_from_file pdf student_response_file ;;
  result <- MultiAgent.grade_exam loads chat rubric_md questions_md
              student_response_md exam_type ;;
  let base_name := exam_type +:+ "_grade_output" in
  let json_path := base_name +:+ ".json" in
  let pdf_path := base_name +:+ ".pdf" in
  open_write json_path (dumps printer result) ;;;
  json_to_pdf printer result pdf_path ;;;
  ret (dumps printer result, json_path, pdf_path).

(** The format specifications [:.1f] and [:.1%] of the prompt. *)
Record FloatFormat : Type := {
  format_1f : Q -> string;
  format_1pct : Q -> string
}.

(** The f-string of [handle_vc_pitch], lines 54-96. *)
Definition vc_prompt (fmt : FloatFormat) (transcript : string)
    (wpm silence_ratio duration_minutes : Q) : string :=
  nl +:+ lines [
    "Pitch transcript:";
    transcript;
    EmptyString;
    "Audio metrics:";
    "• Words-per-minute: " +:+ format_1f fmt wpm;
    "• Pause ratio: " +:+ format_1pct fmt silence_ratio;
    EmptyString;
    "You are a seasoned VC pitch grader. For a "
      +:+ format_1f fmt duration_minutes
      +:+ "-minute audio pitch, give each dimension a score from 1 (poor) to 10 (excellent), using the following anchors:";
    EmptyString;
    "1. Problem Clarity  ";
    "   • 1–3: No clear problem stated, listener confused  ";
    "   • 4–6: Problem mentioned but lacks context or urgency  ";
    "   • 7–8: Problem clearly described with context  ";
    "   • 9–10: Problem statement is crisp, impactful, and immediately compelling";
    EmptyString;
    "2. Market Evidence  ";
    "   • 1–3: No market data or vague claims  ";
    "   • 4–6: Qualitative market description, no numbers  ";
    "   • 7–8: One clear quantitative metric (TAM, growth rate)  ";
    "   • 9–10: Multiple strong data points (TAM, traction, growth) cited";
    EmptyString;
    "3. Solution Differentiation  ";
    "   • 1–3: Solution not differentiated, generic  ";
    "   • 4–6: Mentions a unique feature but no defense  ";
    "   • 7–8: Clearly highlights one defensible advantage  ";
    "   • 9–10: Demonstrates multiple, well-justified differentiators or proprietary edge";
    EmptyString;
    "4. Delivery & Pacing  ";
    "   • 1–3: Monotone or too fast/slow (outside 80–200 WPM), frequent long pauses (>30 %)  ";
    "   • 4–6: Understandable but some pacing issues (WPM 90–210, pauses 20–30 %)  ";
    "   • 7–8: Good pace (110–160 WPM), pauses <20 %  ";
    "   • 9–10: Engaging tone, ideal pacing (120–150 WPM), minimal pauses (<10 %)";
    EmptyString;
    "Return valid JSON EXACTLY in this format (no extra keys):";
    "{";
    "  " +:+ dq +:+ "Problem" +:+ dq +:+ ": <1–10>,";
    "  " +:+ dq +:+ "Market" +:+ dq +:+ ": <1–10>,";
    "  " +:+ dq +:+ "Solution" +:+ dq +:+ ": <1–10>,";
    "  " +:+ dq +:+ "Delivery" +:+ dq +:+ ": <1–10>,";
    "  " +:+ dq +:+ "Feedback" +:+ dq +:+ ": " +:+ dq
      +:+ "<one sentence actionable feedback for each anchor>" +:+ dq;
    "}" ]%string.

(** [handle_vc_pitch], lines 49-123.  [analyze_audio] runs before the
    [try]; the inner [except] returns the text as it came. *)
Definition handle_vc_pitch (loads : Decoder)
    (printer : Printer) (fmt : FloatFormat) (chat : ChatOracle)
    (cwd : string) (whisper : WhisperOracle) (librosa : Librosa)
    (audio_file : string)
  : M (option string * option string * option string) :=
  audio_metrics <- MultiAgent.analyze_audio cwd whisper librosa audio_file ;;
  let transcript := MultiAgent.transcript audio_metrics in
  duration_minutes <- truediv (MultiAgent.duration audio_metrics) 60 ;;
  let prompt :=
    vc_prompt fmt transcript (MultiAgent.wpm audio_metrics)
      (MultiAgent.silence_ratio audio_metrics) duration_minutes in
  try_except
    (response <- chat_create chat
                   {| req_model := "gpt-4-0613";
                      req_system := "You are a helpful pitch grader.";
                      req_user := prompt;
                      req_temperature := 0;
                      req_seed := None;
                      req_functions := [];
                      req_function_call := None |} ;;
     m <- first_message (Some response) ;;
     let result := content m in
     let base_name := "vc_pitch_grade_output" in
     let json_path := base_name +:+ ".json" in
     let pdf_path := base_name +:+ ".pdf" in
     try_except
       (json_result <- json_loads loads result ;;
        open_write json_path (dumps printer json_result) ;;;
        json_to_pdf printer json_result pdf_path ;;;
        ret (result, Some json_path, Some pdf_path))
       [ ([JSONDecodeError], fun _ => ret (result, None, None)) ])
    [ ([OpenAIError],
       fun e => ret (Some ("Error: " +:+ exc_arg e), None, None)) ].

End GradioUI.

(** ** src/exam_grader_agents.py, the functions behind the tools *)

Module AgentsSDKTools.

(** The names the module binds: its imports, functions, classes and
    agents.  [openai] is not among them. *)
Definition module_globals : list string :=
  [ "List"; "Optional"; "Dict"; "Any"; "BaseModel"; "pdfplumber"; "librosa";
    "Agent"; "Runner"; "handoff"; "function_tool"; "InputGuardrail";
    "GuardrailFunctionOutput"; "input_guardrail"; "AgentOutputSchema";
    "extract_pdf_to_markdown"; "transcribe"; "analyze_audio";
    "PartEvaluation"; "ExamEvaluation"; "VCAudioCheck"; "guardrail_agent";
    "require_audio"; "technical_agent"; "narrative_agent"; "vc_pitch_agent";
    "prompt_with_handoff_instructions"; "triage_agent";
    "TResponseInputItem"; "json"; "grade_exam"; "pd"; "evaluation_to_csv" ].

Definition NameError : exc_class := OtherException "NameError".

(** Reading a global name inside a function. *)
Definition global_name (name : string) : M unit :=
  if bool_decide (name ∈ module_globals) then ret tt
  else raise (Exc NameError ("name '" +:+ name +:+ "' is not defined")).

(** [transcribe], lines 61-68. *)
Definition transcribe (whisper : WhisperOracle) (mp3_path : string)
  : M WhisperResponse :=
  f <- open_read mp3_path ;;
  global_name "openai" ;;;
  resp <- transcriptions_create whisper f ;;
  ret resp.

(** [transcript.split()] of what [transcribe] returned. *)
Definition words (resp : WhisperResponse) : M (list string) :=
  match resp with
  | WhisperText text => ret (split text)
  | WhisperObject _ =>
      raise (Exc AttributeError "object has no attribute 'split'")
  end.

Record AudioMetrics : Type := {
  duration : Q;
  wpm : Q;
  silence_ratio : Q;
  transcript : WhisperResponse
}.

(** [analyze_audio], lines 70-85: the divisions are not guarded.  (The
    last one divides numpy floats, which warn and do not raise on a zero
    divisor; it comes after the division that raises.) *)
Definition analyze_audio (whisper : WhisperOracle) (librosa : Librosa)
    (mp3_path : string) : M AudioMetrics :=
  y <- lift (librosa_load librosa mp3_path) ;;
  let sr := 16000 in
  duration <- truediv (inject_Z (Z.of_nat (List.length y))) (inject_Z sr) ;;
  transcript <- transcribe whisper mp3_path ;;
  ws <- words transcript ;;
  let word_count := Z.of_nat (List.length ws) in
  minutes <- truediv duration 60 ;;
  wpm <- truediv (float_of_int word_count) minutes ;;
  let intervals := librosa_effects_split librosa y in
  voiced <- truediv (float_of_int (MultiAgent.voiced_samples intervals))
              (inject_Z sr) ;;
  silence_ratio <- truediv (float_sub duration voiced) duration ;;
  ret {| duration := duration; wpm := wpm;
         silence_ratio := silence_ratio; transcript := transcript |}.

End AgentsSDKTools.

(** ** Stubs for the examples of the code around the graders *)

Module Stub2.

(** A PDF of one page without text and without tables. *)
Definition blank_page : Page :=
  {| page_text := None; page_tables := None |}.

(** A page with two lines and one table whose second row has an empty
    cell. *)
Definition exam_page : Page :=
  {| page_text := Some ("  Question 1" +:+ nl +:+ "* explain");
     page_tables := Some [ [ [Some "part"; Some "points"];
                             [Some "a"; None] ] ] |}.

(** pdfplumber on the files of [uploads]: the rubric is one blank page. *)
Definition pdf : Pdfplumber :=
  fun data =>
    if decide (data = "%PDF exam") then Returns [exam_page]
    else if decide (data = "%PDF rubric") then Returns [blank_page]
    else Raises (Exc (OtherException "PDFSyntaxError") "No /Root object!").

Definition uploads : World :=
  set_files {[ "/tmp/exam.pdf" := "%PDF exam";
               "/tmp/rubric.pdf" := "%PDF rubric";
               "/tmp/answers.txt" := "Because.";
               "/tmp/note.txt" := "Unsupported file format";
               "/tmp/answers.docx" := "PK" ]} Stub.world0.

(** A printer that lays any text out; its [dumps] is right on strings
    without characters to escape, which is all the examples print. *)
Definition printer : GradioUI.Printer :=
  {| GradioUI.dumps := fun j =>
       match j with JString s => dq +:+ s +:+ dq | _ => "{...}" end;
     GradioUI.fpdf := fun text => Returns ("%PDF " +:+ text) |}.


Definition fmt : GradioUI.FloatFormat :=
  {| GradioUI.format_1f := fun _ => "0.0";
     GradioUI.format_1pct := fun _ => "0.0%" |}.

End Stub2.

(* ===================================================================== *)
(** * Theorems *)
(* ===================================================================== *)

(** ** The monad *)

Lemma bind_returns {A B} (m : M A) (k : A -> M B) (w w1 : World) (a : A) :
  m w = (Returns a, w1) -> bind m k w = k a w1.
Proof. intros H. unfold bind. by rewrite H. Qed.

Lemma bind_raises {A B} (m : M A) (k : A -> M B) (w w1 : World)
    (e : exception) :
  m w = (Raises e, w1) -> bind m k w = (Raises e, w1).
Proof. intros H. unfold bind. by rewrite H. Qed.

(** ** Floats *)

Lemma round_half_even_comp (x y : Q) :
  (x == y)%Q -> Float.round_half_even x = Float.round_half_even y.
Proof.
  intros H. unfold Float.round_half_even.
  rewrite (Qfloor_comp _ _ H). cbv zeta.
  assert ((x - inject_Z (Qfloor y) ?= 1 # 2)%Q
          = (y - inject_Z (Qfloor y) ?= 1 # 2)%Q) as ->; [|done].
  apply Qcompare_comp; [by rewrite H|reflexivity].
Qed.

Lemma round_half_even_Z (z : Z) : Float.round_half_even (inject_Z z) = z.
Proof.
  unfold Float.round_half_even. rewrite Qfloor_Z. cbv zeta.
  assert ((inject_Z z - inject_Z z ?= 1 # 2)%Q = Lt) as ->; [|done].
  apply (proj1 (Qlt_alt _ _)). lra.
Qed.

Lemma round_half_even_monotone (x y : Q) :
  (x <= y)%Q -> Float.round_half_even x <= Float.round_half_even y.
Proof.
  intros Hxy. unfold Float.round_half_even. cbv zeta.
  pose proof (Qfloor_resp_le _ _ Hxy) as Hf.
  pose proof (Qfloor_le x) as Hx1. pose proof (Qlt_floor x) as Hx2.
  pose proof (Qfloor_le y) as Hy1. pose proof (Qlt_floor y) as Hy2.
  destruct (Z.eq_dec (Qfloor x) (Qfloor y)) as [Heq|Hne].
  - rewrite <- Heq in *.
    destruct (x - inject_Z (Qfloor x) ?= 1 # 2)%Q eqn:Cx;
      destruct (y - inject_Z (Qfloor x) ?= 1 # 2)%Q eqn:Cy;
      try (destruct (Z.even (Qfloor x))); try lia.
    all: first [apply (proj2 (Qeq_alt _ _)) in Cx
               |apply (proj2 (Qlt_alt _ _)) in Cx
               |apply (proj2 (Qgt_alt _ _)) in Cx].
    all: first [apply (proj2 (Qeq_alt _ _)) in Cy
               |apply (proj2 (Qlt_alt _ _)) in Cy
               |apply (proj2 (Qgt_alt _ _)) in Cy].
    all: exfalso; lra.
  - assert (Qfloor x + 1 <= Qfloor y) by lia.
    destruct (x - inject_Z (Qfloor x) ?= 1 # 2)%Q;
      destruct (y - inject_Z (Qfloor y) ?= 1 # 2)%Q;
      try (destruct (Z.even (Qfloor x))); try (destruct (Z.even (Qfloor y)));
      lia.
Qed.

Lemma round_half_even_lower (a : Z) (q : Q) :
  (inject_Z a <= q)%Q -> a <= Float.round_half_even q.
Proof.
  intros H. rewrite <- (round_half_even_Z a).
  by apply round_half_even_monotone.
Qed.

Lemma round_half_even_upper (b : Z) (q : Q) :
  (q <= inject_Z b)%Q -> Float.round_half_even q <= b.
Proof.
  intros H. rewrite <- (round_half_even_Z b).
  by apply round_half_even_monotone.
Qed.

Lemma two_nonzero : ~ (2 == 0)%Q.
Proof. discriminate. Qed.

Lemma pow2_pos (k : Z) : (0 < 2 ^ k)%Q.
Proof. by apply Qpower_0_lt. Qed.

Lemma pow2_succ (k : Z) : (2 ^ (k + 1) == 2 * 2 ^ k)%Q.
Proof. rewrite Qpower_plus by apply two_nonzero. rewrite Qpower_1_r. ring. Qed.

Lemma pow2_pred (k : Z) : (2 * 2 ^ (k - 1) == 2 ^ k)%Q.
Proof.
  rewrite <- pow2_succ. by replace (k - 1 + 1) with k by lia.
Qed.

Lemma pow2_le (a b : Z) : a <= b -> (2 ^ a <= 2 ^ b)%Q.
Proof. intros H. apply Qpower_le_compat_l; [done|]. discriminate. Qed.

Lemma pow2_lt_inv (a b : Z) : (2 ^ a < 2 ^ b)%Q -> a < b.
Proof. intros H. eapply Qpower_lt_compat_l_inv; [exact H|reflexivity]. Qed.

Lemma pow2_inject (k : Z) : 0 <= k -> (inject_Z (2 ^ k) == 2 ^ k)%Q.
Proof. intros H. by rewrite Zpower_Qpower. Qed.

Lemma floor_log2_spec (q : Q) :
  (0 < q)%Q ->
  (2 ^ Float.floor_log2 q <= q)%Q /\ (q < 2 ^ (Float.floor_log2 q + 1))%Q.
Proof.
  intros Hq. destruct q as [n d].
  assert (Hn : 0 < n) by (unfold Qlt in Hq; cbn in Hq; lia).
  unfold Float.floor_log2. cbn [Qnum Qden].
  set (a := Z.log2 n). set (b := Z.log2 (Z.pos d)).
  destruct (Z.log2_spec n Hn) as [Ha1 Ha2]. fold a in Ha1, Ha2.
  destruct (Z.log2_spec (Z.pos d) eq_refl) as [Hb1 Hb2]. fold b in Hb1, Hb2.
  assert (Ha0 : 0 <= a) by apply Z.log2_nonneg.
  assert (Hb0 : 0 <= b) by apply Z.log2_nonneg.
  rewrite <- Z.add_1_r in Ha2, Hb2.
  assert (HA1 : (2 ^ a <= inject_Z n)%Q).
  { rewrite <- pow2_inject by done. by rewrite <- Zle_Qle. }
  assert (HA2 : (inject_Z n < 2 * 2 ^ a)%Q).
  { rewrite <- pow2_succ, <- pow2_inject by lia. by rewrite <- Zlt_Qlt. }
  assert (HB1 : (2 ^ b <= inject_Z (Z.pos d))%Q).
  { rewrite <- pow2_inject by done. by rewrite <- Zle_Qle. }
  assert (HB2 : (inject_Z (Z.pos d) < 2 * 2 ^ b)%Q).
  { rewrite <- pow2_succ, <- pow2_inject by lia. by rewrite <- Zlt_Qlt. }
  assert (Hq' : (n # d == inject_Z n / inject_Z (Z.pos d))%Q)
    by apply Qmake_Qdiv.
  assert (HD : (0 < inject_Z (Z.pos d))%Q) by (by rewrite <- (Zlt_Qlt 0)).
  pose proof (pow2_pos a) as HA. pose proof (pow2_pos b) as HB.
  assert (He : (2 ^ (a - b) == 2 ^ a / 2 ^ b)%Q)
    by (apply Qpower_minus, two_nonzero).
  assert (Hup : (n # d < 2 * 2 ^ (a - b))%Q).
  { rewrite Hq', He. apply Qlt_shift_div_r; [done|].
    unfold Qdiv. 
    assert (H : (2 * (2 ^ a * / 2 ^ b) * inject_Z (Z.pos d)
                 == 2 * 2 ^ a * (inject_Z (Z.pos d) / 2 ^ b))%Q)
      by (unfold Qdiv; ring).
    rewrite H.
    assert (1 <= inject_Z (Z.pos d) / 2 ^ b)%Q.
    { apply Qle_shift_div_l; [done|]. lra. }
    nra. }
  assert (Hlow : (2 ^ (a - b) < 2 * (n # d))%Q).
  { rewrite Hq', He. apply Qlt_shift_div_r; [done|].
    assert (H : (2 * (inject_Z n / inject_Z (Z.pos d)) * 2 ^ b
                 == inject_Z n * (2 * 2 ^ b / inject_Z (Z.pos d)))%Q)
      by (unfold Qdiv; ring).
    rewrite H.
    assert (1 < 2 * 2 ^ b / inject_Z (Z.pos d))%Q.
    { apply Qlt_shift_div_l; [done|]. lra. }
    nra. }
  destruct (Qle_bool (2 ^ (a - b)) (n # d)) eqn:E.
  - apply Qle_bool_iff in E. split; [done|]. by rewrite pow2_succ.
  - assert (Hlt : (n # d < 2 ^ (a - b))%Q).
    { apply Qnot_le_lt. intros H. apply Qle_bool_iff in H. congruence. }
    replace (a - b - 1 + 1) with (a - b) by lia. split; [|done].
    pose proof (pow2_pred (a - b)). lra.
Qed.

Lemma floor_log2_unique (q : Q) (e : Z) :
  (2 ^ e <= q)%Q -> (q < 2 ^ (e + 1))%Q -> Float.floor_log2 q = e.
Proof.
  intros H1 H2.
  assert (Hq : (0 < q)%Q) by (pose proof (pow2_pos e); lra).
  destruct (floor_log2_spec q Hq) as [H3 H4].
  assert (e < Float.floor_log2 q + 1) by (apply pow2_lt_inv; lra).
  assert (Float.floor_log2 q < e + 1) by (apply pow2_lt_inv; lra).
  lia.
Qed.

Lemma floor_log2_monotone (x y : Q) :
  (0 < x)%Q -> (x <= y)%Q -> Float.floor_log2 x <= Float.floor_log2 y.
Proof.
  intros Hx Hxy.
  destruct (floor_log2_spec x Hx) as [H1 _].
  destruct (floor_log2_spec y) as [_ H2]; [lra|].
  assert (Float.floor_log2 x < Float.floor_log2 y + 1)
    by (apply pow2_lt_inv; lra).
  lia.
Qed.

Lemma nearest_positive (q : Q) :
  (0 < q)%Q ->
  (Float.nearest q
   == inject_Z (Float.round_half_even (q / 2 ^ Float.exponent q))
      * 2 ^ Float.exponent q)%Q.
Proof.
  intros Hq. unfold Float.nearest.
  destruct (Qle_bool q 0) eqn:E.
  - apply Qle_bool_iff in E. lra.
  - cbv zeta. apply Qred_correct.
Qed.

Lemma nearest_not_positive (q : Q) : (q <= 0)%Q -> Float.nearest q = 0%Q.
Proof.
  intros Hq. unfold Float.nearest.
  destruct (Qle_bool q 0) eqn:E; [done|].
  apply Qle_bool_iff in Hq. congruence.
Qed.

(** The scaled value of a positive number lies below [2 ^ 53], and at or
    above [2 ^ 52] unless the number is subnormal. *)
Lemma scaled_upper (q : Q) :
  (0 < q)%Q -> (q / 2 ^ Float.exponent q < 2 ^ 53)%Q.
Proof.
  intros Hq. destruct (floor_log2_spec q Hq) as [_ Hup].
  apply Qlt_shift_div_r; [apply pow2_pos|].
  rewrite <- Qpower_plus by apply two_nonzero.
  eapply Qlt_le_trans; [exact Hup|]. apply pow2_le.
  unfold Float.exponent. lia.
Qed.

Lemma scaled_lower (q : Q) :
  (0 < q)%Q -> -1074 < Float.exponent q ->
  (2 ^ 52 <= q / 2 ^ Float.exponent q)%Q.
Proof.
  intros Hq Hp. destruct (floor_log2_spec q Hq) as [Hlow _].
  apply Qle_shift_div_l; [apply pow2_pos|].
  rewrite <- Qpower_plus by apply two_nonzero.
  eapply Qle_trans; [|exact Hlow]. apply pow2_le.
  unfold Float.exponent in *. lia.
Qed.

Lemma mantissa_bounds (q : Q) :
  (0 < q)%Q ->
  0 <= Float.round_half_even (q / 2 ^ Float.exponent q) <= 2 ^ 53.
Proof.
  intros Hq. split.
  - apply round_half_even_lower.
    apply Qle_shift_div_l; [apply pow2_pos|]. 
    change (inject_Z 0) with 0%Q. lra.
  - apply round_half_even_upper.
    rewrite pow2_inject by done. apply Qlt_le_weak. by apply scaled_upper.
Qed.

Lemma nearest_nonneg (q : Q) : (0 <= Float.nearest q)%Q.
Proof.
  destruct (Qlt_le_dec 0 q) as [Hq|Hq].
  - rewrite nearest_positive by done.
    destruct (mantissa_bounds q Hq) as [Hm _].
    apply Qmult_le_0_compat; [|apply Qlt_le_weak, pow2_pos].
    by rewrite <- (Zle_Qle 0).
  - by rewrite nearest_not_positive.
Qed.

Lemma exponent_monotone (x y : Q) :
  (0 < x)%Q -> (x <= y)%Q -> Float.exponent x <= Float.exponent y.
Proof.
  intros Hx Hxy. pose proof (floor_log2_monotone x y Hx Hxy).
  unfold Float.exponent. lia.
Qed.

Lemma nearest_monotone (x y : Q) :
  (x <= y)%Q -> (Float.nearest x <= Float.nearest y)%Q.
Proof.
  intros Hxy. destruct (Qlt_le_dec 0 x) as [Hx|Hx].
  2:{ rewrite (nearest_not_positive x) by done. apply nearest_nonneg. }
  assert (Hy : (0 < y)%Q) by lra.
  rewrite (nearest_positive x), (nearest_positive y) by done.
  pose proof (exponent_monotone x y Hx Hxy) as Hexp.
  set (px := Float.exponent x) in *. set (py := Float.exponent y) in *.
  destruct (Z.eq_dec px py) as [Heq|Hne].
  - rewrite <- Heq. apply Qmult_le_compat_r; [|apply Qlt_le_weak, pow2_pos].
    rewrite <- Zle_Qle. apply round_half_even_monotone.
    apply Qmult_le_compat_r; [done|].
    apply Qlt_le_weak, Qinv_lt_0_compat, pow2_pos.
  - assert (Hlt : px + 1 <= py) by lia.
    destruct (mantissa_bounds x Hx) as [_ Hmx]. fold px in Hmx.
    assert (Hmy : 2 ^ 52 <= Float.round_half_even (y / 2 ^ py)).
    { apply round_half_even_lower. rewrite pow2_inject by done.
      apply scaled_lower; [done|]. fold py. unfold px, Float.exponent in *. lia. }
    apply Qle_trans with (2 ^ 53 * 2 ^ px)%Q.
    + apply Qmult_le_compat_r; [|apply Qlt_le_weak, pow2_pos].
      rewrite <- (pow2_inject 53) by done. by rewrite <- Zle_Qle.
    + apply Qle_trans with (2 ^ 52 * 2 ^ py)%Q.
      * rewrite <- !Qpower_plus by apply two_nonzero. apply pow2_le. lia.
      * apply Qmult_le_compat_r; [|apply Qlt_le_weak, pow2_pos].
        rewrite <- (pow2_inject 52) by done. by rewrite <- Zle_Qle.
Qed.

Lemma floor_log2_comp (x y : Q) :
  (0 < x)%Q -> (x == y)%Q -> Float.floor_log2 x = Float.floor_log2 y.
Proof.
  intros Hx Hxy. symmetry.
  destruct (floor_log2_spec x Hx) as [H1 H2].
  apply floor_log2_unique; by rewrite <- Hxy.
Qed.

Lemma nearest_comp (x y : Q) :
  (x == y)%Q -> (Float.nearest x == Float.nearest y)%Q.
Proof.
  intros Hxy. destruct (Qlt_le_dec 0 x) as [Hx|Hx].
  - rewrite (nearest_positive x), (nearest_positive y) by lra.
    unfold Float.exponent. rewrite <- (floor_log2_comp x y Hx Hxy).
    set (p := Z.max (Float.floor_log2 x - 52) (-1074)).
    rewrite (round_half_even_comp (x / 2 ^ p) (y / 2 ^ p)); [reflexivity|].
    by rewrite Hxy.
  - rewrite !nearest_not_positive by lra. reflexivity.
Qed.

(** A number [m * 2 ^ p] with [0 <= m <= 2 ^ 53] and [-1074 <= p] is a
    double: rounding leaves it as it is. *)
Lemma nearest_dyadic (m p : Z) :
  0 <= m <= 2 ^ 53 -> -1074 <= p ->
  (Float.nearest (inject_Z m * 2 ^ p) == inject_Z m * 2 ^ p)%Q.
Proof.
  intros Hm Hp. set (z := (inject_Z m * 2 ^ p)%Q).
  pose proof (pow2_pos p) as Hpp.
  destruct (Z.eq_dec m 0) as [->|Hm0].
  { unfold z. change (inject_Z 0) with 0%Q.
    rewrite nearest_not_positive by lra. ring. }
  assert (Hm1 : (1 <= inject_Z m)%Q) by (rewrite <- (Zle_Qle 1); lia).
  assert (Hz : (0 < z)%Q) by (unfold z; nra).
  destruct (floor_log2_spec z Hz) as [Hk1 Hk2].
  assert (Hscaled : exists N : Z, (z / 2 ^ Float.exponent z == inject_Z N)%Q).
  { destruct (Z.eq_dec m (2 ^ 53)) as [->|Hne].
    - assert (Hz53 : (z == 2 ^ (53 + p))%Q).
      { unfold z. rewrite pow2_inject by done.
        by rewrite Qpower_plus by apply two_nonzero. }
      assert (Hk : Float.floor_log2 z = 53 + p).
      { apply floor_log2_unique; rewrite Hz53; [lra|].
        apply Qpower_lt_compat_l; [lia|reflexivity]. }
      exists (2 ^ 52). unfold Float.exponent. rewrite Hk.
      replace (Z.max (53 + p - 52) (-1074)) with (p + 1) by lia.
      rewrite Hz53, pow2_inject by done.
      rewrite <- Qpower_minus by apply two_nonzero.
      by replace (53 + p - (p + 1)) with 52 by lia.
    - assert (Hlt : (z < 2 ^ (53 + p))%Q).
      { rewrite Qpower_plus by apply two_nonzero.
        rewrite <- (pow2_inject 53) by done. unfold z.
        apply Qmult_lt_compat_r; [done|]. rewrite <- Zlt_Qlt. lia. }
      assert (Hk : Float.floor_log2 z < 53 + p) by (apply pow2_lt_inv; lra).
      assert (Hle : Float.exponent z <= p) by (unfold Float.exponent; lia).
      exists (m * 2 ^ (p - Float.exponent z)).
      rewrite inject_Z_mult, pow2_inject by lia.
      rewrite Qpower_minus by apply two_nonzero. unfold z, Qdiv. ring. }
  destruct Hscaled as (N & HN).
  rewrite nearest_positive by done.
  rewrite (round_half_even_comp _ _ HN), round_half_even_Z, <- HN.
  field. apply Qpower_not_0, two_nonzero.
Qed.

Lemma nearest_idempotent (q : Q) :
  (Float.nearest (Float.nearest q) == Float.nearest q)%Q.
Proof.
  destruct (Qlt_le_dec 0 q) as [Hq|Hq].
  - rewrite (nearest_comp _ _ (nearest_positive q Hq)).
    rewrite nearest_dyadic; [by rewrite nearest_positive| |].
    + by apply mantissa_bounds.
    + unfold Float.exponent. lia.
  - rewrite (nearest_not_positive q) by done. reflexivity.
Qed.

Lemma binary64_nonneg (q : Q) :
  (0 <= q)%Q -> Float.binary64 q = Float.nearest q.
Proof.
  intros Hq. unfold Float.binary64.
  destruct (Qle_bool 0 q) eqn:E; [done|].
  apply Qle_bool_iff in Hq. congruence.
Qed.

(** ** The retry loop *)

Section RetryLoop.

Variable chat : ChatOracle.
Variable kwargs : ChatRequest.

(** The narrative agent runs the common loop with its own [except]
    test. *)
Lemma narrative_backoff_loop_eq (attempts : list Z) (w : World) :
  NarrativeAgent.backoff_loop chat kwargs INITIAL_BACKOFF attempts w
  = retry_loop narrative_catches chat kwargs attempts w.
Proof.
  revert w. induction attempts as [|attempt rest IH]; intros w; [reflexivity|].
  cbn [NarrativeAgent.backoff_loop retry_loop].
  unfold try_except, bind, chat_create, ret, narrative_catches.
  destruct (chat (List.length (chat_log w)) kwargs) as [r|e]; [reflexivity|].
  cbn [dispatch].
  destruct (matches e [RateLimitError; ServiceUnavailableError]) eqn:H1.
  - cbn [orb]. destruct (decide (attempt = MAX_RETRIES)); [reflexivity|].
    unfold time_sleep. cbn. apply IH.
  - cbn [orb]. destruct (matches e [APIConnectionError; Timeout]) eqn:H2.
    + destruct (decide (attempt = MAX_RETRIES)); [reflexivity|].
      unfold time_sleep. cbn. apply IH.
    + reflexivity.
Qed.

End RetryLoop.


Lemma narrative_catches_transient (e : exception) :
  narrative_catches e = transient e.
Proof. destruct e as [[] msg]; reflexivity. Qed.

Lemma after_failures_none (kwargs : ChatRequest) (w : World) :
  after_failures kwargs [] 0 w = w.
Proof.
  destruct w. unfold after_failures, set_sleeps, set_chat_log. cbn.
  by rewrite !app_nil_r.
Qed.

Lemma after_failures_step (kwargs : ChatRequest) (d : Q) (waits : list Q)
    (k : nat) (w : World) :
  after_failures kwargs waits k
    (set_sleeps
       (sleeps (set_chat_log (chat_log w ++ [kwargs])%list w) ++ [d])%list
       (set_chat_log (chat_log w ++ [kwargs])%list w))
  = after_failures kwargs (d :: waits) (S k) w.
Proof.
  destruct w. unfold after_failures, set_sleeps, set_chat_log. cbn.
  by rewrite <- !app_assoc.
Qed.


Section RetryLoopRuns.

Variable retryable : exception -> bool.
Variable chat : ChatOracle.
Variable kwargs : ChatRequest.

(** [k] retried failures consume [k] attempts, none of them the last:
    the loop goes on with the remaining attempts, [k] requests and [k]
    waits later. *)
Lemma retry_loop_failures (k : nat) :
  forall (attempts : list Z) (w : World),
    (k <= List.length attempts)%nat ->
    fails_first retryable chat kwargs k w ->
    Forall (fun a => a <> MAX_RETRIES) (take k attempts) ->
    retry_loop retryable chat kwargs attempts w
    = retry_loop retryable chat kwargs (drop k attempts)
        (after_failures kwargs (map delay (take k attempts)) k w).
Proof.
  induction k as [|k IH]; intros attempts w Hlen Hfail Hnotlast.
  - cbn. by rewrite after_failures_none.
  - destruct attempts as [|attempt rest]; [cbn in Hlen; lia|].
    cbn [take drop map] in *.
    apply Forall_cons in Hnotlast as [Hattempt Hrest].
    destruct (Hfail 0%nat) as (e & Hcall & Hretry); [lia|].
    rewrite Nat.add_0_r in Hcall.
    cbn [retry_loop]. rewrite Hcall, Hretry.
    destruct (decide (attempt = MAX_RETRIES)) as [|_]; [done|].
    rewrite IH.
    + by rewrite after_failures_step.
    + cbn in Hlen. lia.
    + intros i Hi. destruct (Hfail (S i)) as (e' & Hcall' & Hretry'); [lia|].
      exists e'. split; [|done].
      cbn. rewrite length_app. cbn.
      by replace (List.length (chat_log w) + 1 + i)%nat
        with (List.length (chat_log w) + S i)%nat by lia.
    + done.
Qed.

(** One attempt that is answered. *)
Lemma retry_loop_returns (attempt : Z) (rest : list Z) (w : World)
    (r : ChatResponse) :
  chat (List.length (chat_log w)) kwargs = Returns r ->
  retry_loop retryable chat kwargs (attempt :: rest) w
  = (Returns (Some r), set_chat_log (chat_log w ++ [kwargs])%list w).
Proof. intros H. cbn [retry_loop]. by rewrite H. Qed.

(** The last attempt fails: the error is raised again, without a wait. *)
Lemma retry_loop_exhausted (rest : list Z) (w : World) (e : exception) :
  chat (List.length (chat_log w)) kwargs = Raises e ->
  retry_loop retryable chat kwargs (MAX_RETRIES :: rest) w
  = (Raises e, set_chat_log (chat_log w ++ [kwargs])%list w).
Proof.
  intros H. cbn [retry_loop]. rewrite H.
  destruct (retryable e); [|done]. by destruct (decide _).
Qed.

(** An error the [except] clauses do not name leaves at once. *)
Lemma retry_loop_propagates (attempt : Z) (rest : list Z) (w : World)
    (e : exception) :
  chat (List.length (chat_log w)) kwargs = Raises e ->
  retryable e = false ->
  retry_loop retryable chat kwargs (attempt :: rest) w
  = (Raises e, set_chat_log (chat_log w ++ [kwargs])%list w).
Proof. intros H Hno. cbn [retry_loop]. by rewrite H, Hno. Qed.

End RetryLoopRuns.


Lemma range_attempts : range 1 (MAX_RETRIES + 1) = [1; 2; MAX_RETRIES].
Proof. reflexivity. Qed.

Section AnyExceptTest.

Variable retryable : exception -> bool.
Hypothesis retries_transient :
  forall e, transient e = true -> retryable e = true.
Variable chat : ChatOracle.
Variable kwargs : ChatRequest.



(** Whatever the chat model does, the loop makes between one and
    [MAX_RETRIES] requests and waits [delay a] after each attempt [a] but
    the last one made. *)
Lemma retry_loop_waits (w : World) :
  let run := retry_loop retryable chat kwargs (range 1 (MAX_RETRIES + 1)) w in
  exists n : nat,
    (1 <= n <= Z.to_nat MAX_RETRIES)%nat
    /\ chat_log (snd run) = (chat_log w ++ repeat kwargs n)%list
    /\ sleeps (snd run) = (sleeps w ++ map delay (range 1 (Z.of_nat n)))%list.
Proof.
  assert (Hbound : forall n, (1 <= n <= 3)%nat ->
            (1 <= n <= Z.to_nat MAX_RETRIES)%nat) by (vm_compute; lia).
  rewrite range_attempts. cbn zeta. cbn [retry_loop].
  destruct (chat (List.length (chat_log w)) kwargs) as [r1|e1].
  { exists 1%nat. split; [apply Hbound; lia|]. cbn. by rewrite app_nil_r. }
  destruct (retryable e1).
  2:{ exists 1%nat. split; [apply Hbound; lia|]. cbn. by rewrite app_nil_r. }
  destruct (decide (1 = MAX_RETRIES)) as [|_]; [done|].
  match goal with |- context [chat ?n kwargs] =>
    destruct (chat n kwargs) as [r2|e2] end.
  { exists 2%nat. split; [apply Hbound; lia|]. cbn. by rewrite <- !app_assoc. }
  destruct (retryable e2).
  2:{ exists 2%nat. split; [apply Hbound; lia|]. cbn.
      by rewrite <- !app_assoc. }
  destruct (decide (2 = MAX_RETRIES)) as [|_]; [done|].
  match goal with |- context [chat ?n kwargs] =>
    destruct (chat n kwargs) as [r3|e3] end.
  { exists 3%nat. split; [apply Hbound; lia|]. cbn. by rewrite <- !app_assoc. }
  exists 3%nat. split; [apply Hbound; lia|].
  destruct (retryable e3); [destruct (decide (MAX_RETRIES = MAX_RETRIES))|];
    cbn; by rewrite <- ?app_assoc.
Qed.

End AnyExceptTest.

Lemma narrative_call_eq (chat : ChatOracle) (kwargs : ChatRequest) (w : World) :
  NarrativeAgent.call_with_backoff chat kwargs w
  = retry_loop narrative_catches chat kwargs (range 1 (MAX_RETRIES + 1)) w.
Proof. apply narrative_backoff_loop_eq. Qed.

(** The multi agent makes one request.  When it is answered the answer
    is returned; when it raises, the [except] clause is reached, its
    tuple is found to hold [httpx.Timeout], and [TypeError] is raised in
    place of the exception: no attempt follows and nothing is waited
    for. *)
Lemma multi_call_run (chat : ChatOracle) (kwargs : ChatRequest) (w : World) :
  MultiAgent.call_with_backoff chat kwargs w
  = (match chat (List.length (chat_log w)) kwargs with
     | Returns r => Returns (Some r)
     | Raises _ => Raises except_tuple_error
     end,
     set_chat_log (chat_log w ++ [kwargs])%list w).
Proof.
  unfold MultiAgent.call_with_backoff. rewrite range_attempts.
  cbn [MultiAgent.backoff_loop].
  unfold try_except_tuple, bind, chat_create, ret.
  by destruct (chat (List.length (chat_log w)) kwargs) as [r|e].
Qed.




(** ** C2: retries, and what is raised when they are used up *)




(** ** C3: errors outside the transient set *)

(** In the narrative agent an error outside the transient set leaves
    [call_with_backoff] after one call and no wait. *)
Lemma narrative_fails_fast (chat : ChatOracle) (kwargs : ChatRequest)
    (w : World) (e : exception) :
  chat (List.length (chat_log w)) kwargs = Raises e ->
  transient e = false ->
  NarrativeAgent.call_with_backoff chat kwargs w
  = (Raises e, set_chat_log (chat_log w ++ [kwargs])%list w).
Proof.
  intros Hcall Hno. rewrite narrative_call_eq, range_attempts.
  apply retry_loop_propagates; [done|].
  by rewrite narrative_catches_transient.
Qed.

(** In the multi agent no exception of the request reaches the caller:
    the [except] clause raises [TypeError] in its place. *)
Lemma multi_masks_every_exception (chat : ChatOracle)
    (kwargs : ChatRequest) (w : World) (e : exception) :
  chat (List.length (chat_log w)) kwargs = Raises e ->
  MultiAgent.call_with_backoff chat kwargs w
  = (Raises except_tuple_error,
     set_chat_log (chat_log w ++ [kwargs])%list w).
Proof. intros Hcall. by rewrite multi_call_run, Hcall. Qed.

(** C3, at the input where the multi agent departs from it: a request
    the service rejects as malformed is not a transient failure, and the
    narrative agent raises the error of the service after one call and no
    wait.  The multi agent also makes one call and waits for nothing, but
    what it raises is not the error of the service: the [except] clause,
    whose tuple ends with [httpx.Timeout], raises [TypeError]. *)
Theorem multi_agent_raises_TypeError_for_a_malformed_request :
  transient Stub.bad_request = false
  /\ transient (Exc InvalidRequestError "400") = false
  /\ (let run := MultiAgent.call_with_backoff
                   (Stub.always_fails Stub.bad_request)
                   Stub.request Stub.world0 in
      fst run = Raises (Exc TypeError
        "catching classes that do not inherit from BaseException is not allowed")
      /\ fst run <> Raises Stub.bad_request
      /\ invocations Stub.world0 (snd run) = 1%nat
      /\ sleeps (snd run) = [])
  /\ (let run := NarrativeAgent.call_with_backoff
                   (Stub.always_fails (Exc InvalidRequestError "400"))
                   Stub.request Stub.world0 in
      fst run = Raises (Exc InvalidRequestError "400")
      /\ invocations Stub.world0 (snd run) = 1%nat
      /\ sleeps (snd run) = []).
Proof. vm_compute. repeat split; try reflexivity. discriminate. Qed.

(** ** C9: the waits between attempts *)



(** ** The graders *)


(** The narrative branch sends one of the two narrative prompts. *)
Lemma narrative_branch_prompts (rubric questions responses exam_type : string) :
  exam_type <> "technical" ->
  exists system_prompt user_prompt,
    MultiAgent.build_prompts rubric questions responses exam_type
    = Returns (system_prompt, user_prompt)
    /\ (system_prompt = MultiAgent.NARRATIVE_PROMPT_WITH_RUBRIC
        \/ system_prompt = MultiAgent.NARRATIVE_PROMPT_NO_RUBRIC).
Proof.
  intros Hne. unfold MultiAgent.build_prompts.
  destruct (decide (exam_type = "technical")); [done|].
  destruct (truthy (strip rubric)); eauto.
Qed.

(** The technical branch does not get as far as the chat model:
    [str.format] reads the JSON example of the template as a replacement
    field and raises [KeyError]. *)
Lemma technical_branch_raises (rubric questions responses : string) :
  MultiAgent.build_prompts rubric questions responses "technical"
  = Raises (Exc KeyError (nl +:+ "  " +:+ dq +:+ "question_1" +:+ dq)).
Proof. vm_compute. reflexivity. Qed.

(** What the multi agent's [grade_exam] does with a completion. *)
Lemma multi_grade_exam_answered (loads : Decoder)
    (chat : ChatOracle) (rubric questions responses exam_type : string)
    (w : World) (resp : ChatResponse) :
  exam_type <> "technical" ->
  (forall req, chat (List.length (chat_log w)) req = Returns resp) ->
  fst (MultiAgent.grade_exam loads chat rubric questions responses exam_type w)
  = match first_content resp with
    | Some raw =>
        match loads raw with
        | Returns j => Returns j
        | Raises e =>
            if decide (exc_type e = JSONDecodeError)
            then Returns (parse_failure raw) else Raises e
        end
    | None =>
        match choices resp with
        | [] => Raises (Exc IndexError "list index out of range")
        | _ => Raises (Exc TypeError
                 "the JSON object must be str, bytes or bytearray, not NoneType")
        end
    end.
Proof.
  intros Hne Hchat.
  destruct (narrative_branch_prompts rubric questions responses exam_type Hne)
    as (sys & usr & Hp & _).
  unfold MultiAgent.grade_exam. unfold bind at 1. unfold lift. rewrite Hp.
  unfold bind at 1. rewrite multi_call_run, Hchat.
  unfold first_content, first_message, bind.
  destruct (choices resp) as [|m rest]; [reflexivity|].
  cbn [ret]. unfold try_except, json_loads, lift.
  destruct (content m) as [raw|]; [|reflexivity].
  destruct (loads raw) as [j|[c msg]]; [reflexivity|].
  cbn [dispatch]. unfold matches. cbn [existsb exc_type]. unfold issubclass.
  destruct (decide (c = JSONDecodeError)) as [->|Hc]; reflexivity.
Qed.

(** What the narrative agent's [grade_exam] does with a completion. *)
Lemma narrative_grade_exam_answered (loads : Decoder)
    (chat : ChatOracle) (rubric questions responses : string)
    (w : World) (resp : ChatResponse) (raw : string) :
  (forall req, chat (List.length (chat_log w)) req = Returns resp) ->
  first_arguments resp = Some raw ->
  fst (NarrativeAgent.grade_exam loads chat rubric questions responses w)
  = loads raw.
Proof.
  intros Hchat Hraw.
  unfold NarrativeAgent.grade_exam. unfold bind at 1.
  rewrite narrative_call_eq, range_attempts.
  erewrite retry_loop_returns by apply Hchat.
  unfold first_arguments in Hraw. unfold first_message, bind.
  destruct (choices resp) as [|m rest]; [done|].
  cbn [ret]. rewrite Hraw. reflexivity.
Qed.

(** ** C1: where the total comes from *)

(** C1 (as amended).  When the chat model answers and its text decodes
    to [j], [grade_exam] returns [j] itself, in the narrative agent and,
    for every [exam_type] other than ["technical"], in the multi agent:
    the total in the result is the one the chat model wrote, and nothing
    is computed from the scores of the parts. *)
Theorem grade_exam_returns_the_decoded_answer
    (loads : Decoder) (chat : ChatOracle)
    (rubric questions responses exam_type : string) (w : World)
    (resp : ChatResponse) (raw : string) (j : json) :
  (forall req, chat (List.length (chat_log w)) req = Returns resp) ->
  loads raw = Returns j ->
  (exam_type <> "technical" ->
   first_content resp = Some raw ->
   fst (MultiAgent.grade_exam loads chat rubric questions responses
          exam_type w) = Returns j)
  /\ (first_arguments resp = Some raw ->
      fst (NarrativeAgent.grade_exam loads chat rubric questions responses w)
      = Returns j).
Proof.
  intros Hchat Hj. split.
  - intros Hne Hraw.
    rewrite (multi_grade_exam_answered _ _ _ _ _ _ _ resp) by done.
    by rewrite Hraw, Hj.
  - intros Hraw.
    rewrite (narrative_grade_exam_answered _ _ _ _ _ _ resp raw) by done.
    by rewrite Hj.
Qed.

Lemma grade_exam_returns_the_decoded_answer_witness :
  fst (MultiAgent.grade_exam Json.loads (Stub.answers Stub.inflated_total)
         "rubric" "Q1" "A1" "narrative" Stub.world0)
  = Returns (JDict [("question_1",
                     JDict [("score", JInt 8); ("feedback", JString "ok")]);
                    ("total_score", JInt 3)])
  /\ fst (NarrativeAgent.grade_exam Json.loads
            (Stub.answers Stub.inflated_total) "rubric" "Q1" "A1" Stub.world0)
     = Returns (JDict [("question_1",
                        JDict [("score", JInt 8); ("feedback", JString "ok")]);
                       ("total_score", JInt 3)]).
Proof.
  destruct (grade_exam_returns_the_decoded_answer Json.loads
              (Stub.answers Stub.inflated_total) "rubric" "Q1" "A1"
              "narrative" Stub.world0 (Stub.answer Stub.inflated_total)
              Stub.inflated_total
              (JDict [("question_1",
                       JDict [("score", JInt 8); ("feedback", JString "ok")]);
                      ("total_score", JInt 3)]))
    as [Hm Hn].
  - intros req. reflexivity.
  - vm_compute. reflexivity.
  - split.
    + apply Hm; [discriminate | reflexivity].
    + apply Hn. reflexivity.
Defined.

(** C1, as stated, fails: the chat model answers
    [{"question_1":{"score":8,"feedback":"ok"},"total_score":3}] and
    [grade_exam] returns a total of 3, while the only part scores 8, so
    both the mean and the sum of the parts are 8. *)
Lemma grade_exam_trusts_the_reported_total :
  exists d,
    fst (MultiAgent.grade_exam Json.loads (Stub.answers Stub.inflated_total)
           "rubric" "Q1" "A1" "narrative" Stub.world0) = Returns (JDict d)
    /\ reported_total d = Some (inject_Z 3)
    /\ part_scores d = [inject_Z 8]
    /\ ~ within_tolerance (inject_Z 3) (score_mean (part_scores d))
    /\ ~ within_tolerance (inject_Z 3) (score_sum (part_scores d)).
Proof.
  eexists. split; [vm_compute; reflexivity|].
  split; [reflexivity|]. split; [reflexivity|].
  split; intros H; vm_compute in H; by apply H.
Qed.

(** ** C4: answers that cannot be decoded or validated *)

(** C4 (as amended).  In the multi agent, for every [exam_type] other
    than ["technical"], when the chat model answers with a text: if
    [json.loads] raises [JSONDecodeError] on it, [grade_exam] does not
    raise and returns the record [{"error": "Invalid JSON", "raw": text}],
    which carries the text; if [json.loads] raises an exception of
    another class ([ValueError] for an integer literal of more than 4300
    digits, [RecursionError] for deep nesting), [grade_exam] raises that
    exception; and if [json.loads] decodes the text, the decoded value is
    returned as it is, whatever its structure. *)
Theorem grade_exam_reports_only_a_JSONDecodeError
    (loads : Decoder) (chat : ChatOracle)
    (rubric questions responses exam_type : string) (w : World)
    (resp : ChatResponse) (raw : string) :
  exam_type <> "technical" ->
  (forall req, chat (List.length (chat_log w)) req = Returns resp) ->
  first_content resp = Some raw ->
  let result :=
    fst (MultiAgent.grade_exam loads chat rubric questions responses
           exam_type w) in
  (forall e, loads raw = Raises e -> exc_type e = JSONDecodeError ->
     result = Returns (JDict [("error", JString "Invalid JSON");
                              ("raw", JString raw)]))
  /\ (forall e, loads raw = Raises e -> exc_type e <> JSONDecodeError ->
      result = Raises e)
  /\ (forall j, loads raw = Returns j -> result = Returns j).
Proof.
  intros Hne Hchat Hraw. cbn zeta.
  rewrite (multi_grade_exam_answered _ _ _ _ _ _ _ resp) by done.
  rewrite Hraw. split; [|split].
  - intros e -> He. by destruct (decide _).
  - intros e -> He. by destruct (decide _).
  - by intros j ->.
Qed.

Lemma grade_exam_reports_only_a_JSONDecodeError_witness :
  fst (MultiAgent.grade_exam Json.loads (Stub.answers "not json")
         "rubric" "Q1" "A1" "narrative" Stub.world0)
  = Returns (JDict [("error", JString "Invalid JSON");
                    ("raw", JString "not json")])
  /\ fst (MultiAgent.grade_exam Json.loads (Stub.answers Stub.long_integer)
            "rubric" "Q1" "A1" "narrative" Stub.world0)
     = Raises (Exc ValueError
         "Exceeds the limit (4300 digits) for integer string conversion")
  /\ fst (MultiAgent.grade_exam Json.loads (Stub.answers "[]")
            "rubric" "Q1" "A1" "narrative" Stub.world0)
     = Returns (JList []).
Proof.
  split; [|split].
  - destruct (grade_exam_reports_only_a_JSONDecodeError Json.loads
                (Stub.answers "not json") "rubric" "Q1" "A1" "narrative"
                Stub.world0 (Stub.answer "not json") "not json")
      as (Herror & _ & _).
    + discriminate.
    + intros req. reflexivity.
    + reflexivity.
    + apply (Herror (Exc JSONDecodeError "not json")).
      * vm_compute. reflexivity.
      * reflexivity.
  - destruct (grade_exam_reports_only_a_JSONDecodeError Json.loads
                (Stub.answers Stub.long_integer) "rubric" "Q1" "A1"
                "narrative" Stub.world0 (Stub.answer Stub.long_integer)
                Stub.long_integer)
      as (_ & Hraise & _).
    + discriminate.
    + intros req. reflexivity.
    + reflexivity.
    + apply Hraise.
      * vm_compute. reflexivity.
      * discriminate.
  - destruct (grade_exam_reports_only_a_JSONDecodeError Json.loads
                (Stub.answers "[]") "rubric" "Q1" "A1" "narrative"
                Stub.world0 (Stub.answer "[]") "[]")
      as (_ & _ & Hdecoded).
    + discriminate.
    + intros req. reflexivity.
    + reflexivity.
    + apply Hdecoded. vm_compute. reflexivity.
Defined.

(** C4, as stated, fails twice over.  The answer [[]] is JSON but not
    the structure the prompts ask for, and [grade_exam] returns the
    decoded empty list, which is no parse-failure record and does not
    carry the text.  And for an answer that is one integer of 4301
    digits, which cannot be validated either, [grade_exam] raises the
    [ValueError] of [json.loads]. *)
Lemma grade_exam_does_not_validate_structure :
  Json.loads "[]" = Returns (JList [])
  /\ expected_structure (JList []) = false
  /\ fst (MultiAgent.grade_exam Json.loads (Stub.answers "[]")
            "rubric" "Q1" "A1" "narrative" Stub.world0)
     = Returns (JList [])
  /\ JList [] <> parse_failure "[]"
  /\ String.length Stub.long_integer = 4301%nat
  /\ (exists e,
        fst (MultiAgent.grade_exam Json.loads
               (Stub.answers Stub.long_integer)
               "rubric" "Q1" "A1" "narrative" Stub.world0) = Raises e
        /\ exc_type e = ValueError).
Proof.
  split; [vm_compute; reflexivity|]. split; [reflexivity|].
  split; [vm_compute; reflexivity|]. split; [discriminate|].
  split; [vm_compute; reflexivity|].
  eexists. split; [vm_compute; reflexivity|reflexivity].
Qed.

(** The narrative agent does not catch the decoding error. *)
Lemma narrative_grade_exam_raises_on_undecodable_text :
  fst (NarrativeAgent.grade_exam Json.loads (Stub.answers "not json")
         "rubric" "Q1" "A1" Stub.world0)
  = Raises (Exc JSONDecodeError "not json").
Proof. vm_compute. reflexivity. Qed.

(** ** C5: choosing the grading path *)




(** ** C7 and C8: the transcript cache *)

(** Text without carriage return is read as it is. *)
Lemma universal_newlines_without_carriage_return (t : string) :
  no_carriage_return t -> universal_newlines t = t.
Proof.
  unfold no_carriage_return.
  induction t as [|c t IH]; [done|]. cbn [list_ascii_of_string].
  intros H. apply Forall_cons in H as [Hc Ht].
  cbn [universal_newlines].
  destruct (code c =? 13) eqn:E; [lia|]. by rewrite IH.
Qed.

Lemma read_text_plain (t : string) :
  Text.well_formed (list_ascii_of_string t) = true ->
  no_carriage_return t ->
  read_text t = Returns t.
Proof.
  intros Hwf Hcr. unfold read_text, decode_utf8. rewrite Hwf.
  by rewrite universal_newlines_without_carriage_return.
Qed.

Section Transcribe.

Variable cwd : string.
Variable whisper : WhisperOracle.
Variable mp3_path : string.

(** A hit: the stored bytes are read in text mode and Whisper is not
    asked. *)
Lemma transcribe_hit (w : World) (data : string) :
  files w !! cache_file cwd mp3_path = Some data ->
  MultiAgent.transcribe cwd whisper mp3_path w = (read_text data, w).
Proof.
  intros Hhit.
  unfold MultiAgent.transcribe, bind, os_path_exists, open_read_text.
  cbv zeta. fold (cache_file cwd mp3_path). rewrite Hhit. cbn.
  by rewrite Hhit.
Qed.

(** A miss: Whisper is asked once and its text is stored, then returned. *)
Lemma transcribe_miss (w : World) (f : string) (resp : WhisperResponse) :
  files w !! cache_file cwd mp3_path = None ->
  files w !! mp3_path = Some f ->
  whisper (whisper_calls w) f = Returns resp ->
  cache_file cwd mp3_path ∉ unwritable w ->
  MultiAgent.transcribe cwd whisper mp3_path w
  = (Returns (transcript_of resp),
     set_files (<[cache_file cwd mp3_path := transcript_of resp]> (files w))
       (set_whisper_calls (S (whisper_calls w)) w)).
Proof.
  intros Hmiss Hfile Hresp Hwritable.
  unfold MultiAgent.transcribe, bind, os_path_exists, open_read,
    transcriptions_create, open_write, ret.
  fold (cache_file cwd mp3_path). rewrite Hmiss. cbn. rewrite Hfile, Hresp.
  cbn. destruct (decide _) as [|_]; [done|].
  by destruct resp as [|[|]].
Qed.

(** A miss on a cache that cannot be written: the error of [open]
    leaves [transcribe]. *)
Lemma transcribe_write_fails (w : World) (f : string) (resp : WhisperResponse) :
  files w !! cache_file cwd mp3_path = None ->
  files w !! mp3_path = Some f ->
  whisper (whisper_calls w) f = Returns resp ->
  cache_file cwd mp3_path ∈ unwritable w ->
  MultiAgent.transcribe cwd whisper mp3_path w
  = (Raises (Exc OSError (cache_file cwd mp3_path)),
     set_whisper_calls (S (whisper_calls w)) w).
Proof.
  intros Hmiss Hfile Hresp Hro.
  unfold MultiAgent.transcribe, bind, os_path_exists, open_read,
    transcriptions_create, open_write, ret.
  fold (cache_file cwd mp3_path). rewrite Hmiss. cbn. rewrite Hfile, Hresp.
  cbn. by destruct (decide _).
Qed.

(** A miss without the recording. *)
Lemma transcribe_no_recording (w : World) :
  files w !! cache_file cwd mp3_path = None ->
  files w !! mp3_path = None ->
  MultiAgent.transcribe cwd whisper mp3_path w
  = (Raises (Exc FileNotFoundError mp3_path), w).
Proof.
  intros Hmiss Hfile.
  unfold MultiAgent.transcribe, bind, os_path_exists, open_read.
  fold (cache_file cwd mp3_path). rewrite Hmiss. cbn. by rewrite Hfile.
Qed.

(** A miss on which Whisper raises. *)
Lemma transcribe_request_fails (w : World) (f : string) (e : exception) :
  files w !! cache_file cwd mp3_path = None ->
  files w !! mp3_path = Some f ->
  whisper (whisper_calls w) f = Raises e ->
  MultiAgent.transcribe cwd whisper mp3_path w
  = (Raises e, set_whisper_calls (S (whisper_calls w)) w).
Proof.
  intros Hmiss Hfile Hresp.
  unfold MultiAgent.transcribe, bind, os_path_exists, open_read,
    transcriptions_create.
  fold (cache_file cwd mp3_path). rewrite Hmiss. cbn.
  by rewrite Hfile, Hresp.
Qed.

(** A call either leaves the world alone or makes one request. *)
Lemma transcribe_cases (w : World) :
  let run := MultiAgent.transcribe cwd whisper mp3_path w in
  (exists data, files w !! cache_file cwd mp3_path = Some data
                /\ run = (read_text data, w))
  \/ (files w !! cache_file cwd mp3_path = None
      /\ ((exists e, fst run = Raises e
                     /\ (whisper_calls (snd run) <= S (whisper_calls w))%nat
                     /\ files (snd run) = files w)
          \/ (exists t, fst run = Returns t
                /\ whisper_calls (snd run) = S (whisper_calls w)
                /\ files (snd run) !! cache_file cwd mp3_path = Some t))).
Proof.
  cbn zeta.
  destruct (files w !! cache_file cwd mp3_path) as [data|] eqn:Hcache.
  { left. exists data. split; [done|]. by apply transcribe_hit. }
  right. split; [done|].
  destruct (files w !! mp3_path) as [f|] eqn:Hfile.
  2:{ left. eexists. rewrite transcribe_no_recording by done.
      cbn. split; [done|]. split; [lia|done]. }
  destruct (whisper (whisper_calls w) f) as [resp|e] eqn:Hresp.
  2:{ left. exists e. rewrite (transcribe_request_fails w f e) by done.
      cbn. split; [done|]. split; [lia|done]. }
  destruct (decide (cache_file cwd mp3_path ∈ unwritable w)) as [Hro|Hrw].
  - left. eexists. rewrite (transcribe_write_fails w f resp) by done.
    cbn. split; [done|]. split; [lia|done].
  - right. exists (transcript_of resp).
    rewrite (transcribe_miss w f resp) by done. cbn.
    split; [done|]. split; [done|]. apply lookup_insert_eq.
Qed.



(** C8 (as amended).  On a miss, when the cache file cannot be opened for
    writing, [transcribe] does not return the transcript: the request to
    Whisper has been made, and the [OSError] of [open] is raised to the
    caller. *)
Theorem transcribe_raises_when_the_cache_cannot_be_written
    (w : World) (f : string) (resp : WhisperResponse) :
  files w !! cache_file cwd mp3_path = None ->
  files w !! mp3_path = Some f ->
  whisper (whisper_calls w) f = Returns resp ->
  cache_file cwd mp3_path ∈ unwritable w ->
  let run := MultiAgent.transcribe cwd whisper mp3_path w in
  fst run = Raises (Exc OSError (cache_file cwd mp3_path))
  /\ whisper_calls (snd run) = S (whisper_calls w)
  /\ files (snd run) = files w.
Proof.
  intros Hmiss Hfile Hresp Hro. cbn zeta.
  by rewrite (transcribe_write_fails w f resp).
Qed.

End Transcribe.



Lemma transcribe_raises_when_the_cache_cannot_be_written_witness :
  let run := MultiAgent.transcribe "/work" Stub.whisper "/in/pitch.mp3"
               Stub.read_only_disk in
  fst run = Raises (Exc OSError "/work/cache/pitch.mp3.txt")
  /\ whisper_calls (snd run) = 1%nat
  /\ files (snd run) = files Stub.read_only_disk.
Proof.
  apply (transcribe_raises_when_the_cache_cannot_be_written "/work"
           Stub.whisper "/in/pitch.mp3" Stub.read_only_disk "ID3-bytes"
           (WhisperText "we sell shovels")).
  - vm_compute. reflexivity.
  - vm_compute. reflexivity.
  - reflexivity.
  - vm_compute. reflexivity.
Defined.

(** C8, as stated, fails: Whisper answers, the cache file cannot be
    written, and [transcribe] raises [OSError] instead of returning the
    transcript. *)
Lemma write_failure_is_not_swallowed :
  let run := MultiAgent.transcribe "/work" Stub.whisper "/in/pitch.mp3"
               Stub.read_only_disk in
  Stub.whisper 0%nat "ID3-bytes" = Returns (WhisperText "we sell shovels")
  /\ fst run = Raises (Exc OSError "/work/cache/pitch.mp3.txt")
  /\ fst run <> Returns "we sell shovels".
Proof.
  cbn zeta. split; [reflexivity|]. split; [vm_compute; reflexivity|].
  vm_compute. discriminate.
Qed.

(** ** C10: audio metrics *)

Lemma binary64_monotone (a b : Q) :
  (0 <= a)%Q -> (a <= b)%Q -> (Float.binary64 a <= Float.binary64 b)%Q.
Proof.
  intros Ha Hab. rewrite !binary64_nonneg by lra. by apply nearest_monotone.
Qed.

Lemma binary64_not_negative (q : Q) :
  (0 <= q)%Q -> (0 <= Float.binary64 q)%Q.
Proof. intros Hq. rewrite binary64_nonneg by done. apply nearest_nonneg. Qed.

Lemma binary64_idempotent (q : Q) :
  (0 <= q)%Q -> (Float.binary64 (Float.binary64 q) == Float.binary64 q)%Q.
Proof.
  intros Hq. rewrite (binary64_nonneg q) by done.
  rewrite binary64_nonneg by apply nearest_nonneg.
  apply nearest_idempotent.
Qed.

Lemma binary64_of_zero (q : Q) : (q == 0)%Q -> Float.binary64 q = 0%Q.
Proof.
  intros Hq. rewrite binary64_nonneg by lra.
  apply nearest_not_positive. lra.
Qed.

Lemma truediv_defined (a b : Q) (w : World) :
  ~ (b == 0)%Q -> truediv a b w = (Returns (Float.binary64 (a / b)), w).
Proof.
  intros Hb. unfold truediv.
  destruct (Qeq_bool b 0) eqn:E; [|done].
  by apply Qeq_bool_iff in E.
Qed.

Lemma nonzero_spec (a : Q) : nonzero a = true <-> ~ (a == 0)%Q.
Proof.
  unfold nonzero. rewrite negb_true_iff. split.
  - intros E H. apply Qeq_bool_iff in H. congruence.
  - intros H. destruct (Qeq_bool a 0) eqn:E; [|done].
    by apply Qeq_bool_iff in E.
Qed.

(** The duration of [samples] samples at 16000 samples a second: zero
    without samples, and at least the double nearest to 1/16000
    otherwise. *)
Lemma duration_cases (samples : nat) :
  let d := Float.binary64 (inject_Z (Z.of_nat samples) / inject_Z 16000) in
  (samples = 0%nat /\ d = 0%Q)
  \/ (samples <> 0%nat /\ (Float.binary64 (1 # 16000) <= d)%Q /\ (0 < d)%Q).
Proof.
  cbn zeta. destruct samples as [|n]; [left; split; reflexivity|].
  right. split; [done|].
  assert (H : (Float.binary64 (1 # 16000)
               <= Float.binary64 (inject_Z (Z.of_nat (S n)) / inject_Z 16000))%Q).
  { apply binary64_monotone; [discriminate|].
    unfold Qle, Qdiv, Qmult, Qinv. cbn. lia. }
  split; [done|].
  eapply Qlt_le_trans; [|exact H]. by vm_compute.
Qed.

Lemma duration_is_a_double (samples : nat) :
  let d := Float.binary64 (inject_Z (Z.of_nat samples) / inject_Z 16000) in
  (Float.binary64 d == d)%Q.
Proof.
  cbn zeta. apply binary64_idempotent.
  unfold Qle, Qdiv, Qmult, Qinv. cbn. lia.
Qed.

(** A duration that is not zero has its minutes not zero. *)
Lemma minutes_positive (d : Q) :
  (Float.binary64 (1 # 16000) <= d)%Q -> (0 < Float.binary64 (d / 60))%Q.
Proof.
  intros Hd.
  assert (Hc : (0 < Float.binary64 (1 # 16000))%Q) by (by vm_compute).
  eapply Qlt_le_trans
    with (y := Float.binary64 (Float.binary64 (1 # 16000) / 60));
    [by vm_compute|].
  apply binary64_monotone.
  - apply Qle_shift_div_l; [reflexivity|]. lra.
  - apply Qmult_le_compat_r; [done|discriminate].
Qed.

Lemma silence_ratio_bounds (d voiced : Q) :
  (0 < d)%Q -> (Float.binary64 d == d)%Q ->
  (0 <= voiced)%Q -> (voiced <= d)%Q ->
  (0 <= Float.binary64 (float_sub d voiced / d))%Q
  /\ (Float.binary64 (float_sub d voiced / d) <= 1)%Q.
Proof.
  intros Hd Hdouble H0 H1. unfold float_sub.
  assert (Hx0 : (0 <= Float.binary64 (d - voiced))%Q)
    by (apply binary64_not_negative; lra).
  assert (Hx1 : (Float.binary64 (d - voiced) <= d)%Q).
  { rewrite <- Hdouble at 2. apply binary64_monotone; lra. }
  split.
  - apply binary64_not_negative. apply Qle_shift_div_l; [done|]. lra.
  - change 1%Q with (Float.binary64 1).
    apply binary64_monotone.
    + apply Qle_shift_div_l; [done|]. lra.
    + apply Qle_shift_div_r; [done|]. lra.
Qed.

(** [str.split()] gives as many words as the text has word starts. *)
Lemma split_ws_length (chars word : list (list ascii)) :
  List.length (split_ws chars word)
  = match word with
    | [] => word_starts true chars
    | _ => S (word_starts false chars)
    end.
Proof.
  revert word. induction chars as [|ch chars IH]; intros word.
  - by destruct word.
  - cbn [split_ws word_starts]. destruct (Text.isspace ch) eqn:E.
    + destruct word; [by rewrite IH|]. cbn [List.length]. by rewrite IH.
    + rewrite IH. by destruct word.
Qed.

Lemma split_length (t : string) : List.length (split t) = word_count t.
Proof.
  unfold split, word_count. by rewrite length_map, split_ws_length.
Qed.

Lemma voiced_samples_spec (intervals : list (Z * Z)) :
  MultiAgent.voiced_samples intervals = samples_in intervals.
Proof.
  unfold MultiAgent.voiced_samples, samples_in.
  induction intervals as [|[s e] l IH]; [done|]. cbn. by rewrite IH.
Qed.

Section AnalyzeAudio.

Variable cwd : string.
Variable whisper : WhisperOracle.
Variable librosa : Librosa.
Variable mp3_path : string.

(** What [analyze_audio] computes once the samples and the transcript
    are there. *)
Lemma analyze_audio_metrics (w w1 : World) (y : list Q) (t : string) :
  librosa_load librosa mp3_path = Returns y ->
  MultiAgent.transcribe cwd whisper mp3_path w = (Returns t, w1) ->
  let d :=
    Float.binary64 (inject_Z (Z.of_nat (List.length y)) / inject_Z 16000) in
  let words := float_of_int (Z.of_nat (List.length (split t))) in
  let voiced :=
    Float.binary64
      (float_of_int
         (MultiAgent.voiced_samples (librosa_effects_split librosa y))
       / inject_Z 16000) in
  MultiAgent.analyze_audio cwd whisper librosa mp3_path w
  = (Returns
       {| MultiAgent.duration := d;
          MultiAgent.wpm :=
            if nonzero d
            then Float.binary64 (words / Float.binary64 (d / 60)) else 0%Q;
          MultiAgent.silence_ratio :=
            if nonzero d
            then Float.binary64 (float_sub d voiced / d) else 0%Q;
          MultiAgent.transcript := t |}, w1).
Proof.
  intros Hload Htr d words voiced.
  assert (Hsr : ~ (inject_Z 16000 == 0)%Q) by discriminate.
  unfold MultiAgent.analyze_audio.
  erewrite bind_returns by (unfold lift; rewrite Hload; reflexivity).
  erewrite bind_returns by (by apply truediv_defined).
  erewrite bind_returns by exact Htr.
  fold d. destruct (nonzero d) eqn:Hd.
  - apply nonzero_spec in Hd.
    destruct (duration_cases (List.length y)) as [[_ Hz]|(_ & Hc & Hpos)].
    { fold d in Hz. rewrite Hz in Hd. by destruct Hd. }
    fold d in Hc, Hpos.
    pose proof (minutes_positive d Hc) as Hmin.
    erewrite bind_returns.
    2:{ erewrite bind_returns by (apply truediv_defined; discriminate).
        apply truediv_defined. lra. }
    erewrite bind_returns by (by apply truediv_defined).
    erewrite bind_returns by (by apply truediv_defined).
    reflexivity.
  - erewrite bind_returns by reflexivity.
    erewrite bind_returns by (by apply truediv_defined).
    erewrite bind_returns by reflexivity.
    reflexivity.
Qed.

Lemma analyze_audio_load_fails (w : World) (e : exception) :
  librosa_load librosa mp3_path = Raises e ->
  MultiAgent.analyze_audio cwd whisper librosa mp3_path w = (Raises e, w).
Proof.
  intros Hload. unfold MultiAgent.analyze_audio.
  apply bind_raises. unfold lift. by rewrite Hload.
Qed.

Lemma analyze_audio_transcribe_fails (w w1 : World) (y : list Q)
    (e : exception) :
  librosa_load librosa mp3_path = Returns y ->
  MultiAgent.transcribe cwd whisper mp3_path w = (Raises e, w1) ->
  MultiAgent.analyze_audio cwd whisper librosa mp3_path w = (Raises e, w1).
Proof.
  intros Hload Htr. unfold MultiAgent.analyze_audio.
  erewrite bind_returns by (unfold lift; rewrite Hload; reflexivity).
  erewrite bind_returns by (apply truediv_defined; discriminate).
  by apply bind_raises.
Qed.

(** C10.  When librosa loads the recording and [transcribe] returns,
    the multi agent's [analyze_audio] returns, and no division by zero
    is raised.  The duration is the double [len(y) / 16000], which is
    not negative.  When it is zero, [wpm] and [silence_ratio] are 0.
    When it is positive, [wpm] is [word_count / (duration / 60)] and
    [silence_ratio] is [(duration - voiced) / duration], every operation
    giving the nearest double, where [word_count] is the number of words
    of the transcript (its maximal runs of characters that are not
    Unicode white space) and [voiced] is the number of samples inside
    the voiced intervals over 16000; and [silence_ratio] lies in
    [[0, 1]] whenever the voiced time lies between 0 and the
    duration. *)
Theorem analyze_audio_guards_zero_duration
    (w w1 : World) (y : list Q) (t : string) :
  librosa_load librosa mp3_path = Returns y ->
  MultiAgent.transcribe cwd whisper mp3_path w = (Returns t, w1) ->
  let d :=
    Float.binary64 (inject_Z (Z.of_nat (List.length y)) / inject_Z 16000) in
  let minutes := Float.binary64 (d / 60) in
  let words := Float.binary64 (inject_Z (Z.of_nat (word_count t))) in
  let voiced :=
    Float.binary64
      (Float.binary64
         (inject_Z (samples_in (librosa_effects_split librosa y)))
       / inject_Z 16000) in
  let silence := Float.binary64 (Float.binary64 (d - voiced) / d) in
  (0 <= d)%Q
  /\ ((d == 0)%Q ->
      MultiAgent.analyze_audio cwd whisper librosa mp3_path w
      = (Returns {| MultiAgent.duration := d; MultiAgent.wpm := 0;
                    MultiAgent.silence_ratio := 0;
                    MultiAgent.transcript := t |}, w1))
  /\ ((0 < d)%Q ->
      MultiAgent.analyze_audio cwd whisper librosa mp3_path w
      = (Returns {| MultiAgent.duration := d;
                    MultiAgent.wpm := Float.binary64 (words / minutes);
                    MultiAgent.silence_ratio := silence;
                    MultiAgent.transcript := t |}, w1)
      /\ ((0 <= voiced)%Q -> (voiced <= d)%Q ->
          (0 <= silence)%Q /\ (silence <= 1)%Q)).
Proof.
  intros Hload Htr d minutes words voiced silence.
  pose proof (analyze_audio_metrics w w1 y t Hload Htr) as Hrun.
  cbv zeta in Hrun. rewrite split_length, voiced_samples_spec in Hrun.
  unfold float_of_int in Hrun.
  fold d in Hrun. fold words in Hrun. fold voiced in Hrun.
  destruct (duration_cases (List.length y)) as [[_ Hz]|(_ & Hc & Hpos)];
    fold d in Hz || fold d in Hc, Hpos.
  - split; [rewrite Hz; discriminate|]. split.
    + intros _. rewrite Hrun.
      assert (nonzero d = false) as ->; [|done].
      rewrite Hz. reflexivity.
    + intros Hd. rewrite Hz in Hd. by apply Qlt_irrefl in Hd.
  - split; [lra|]. split.
    + intros Hd. lra.
    + intros _. split.
      * rewrite Hrun.
        assert (nonzero d = true) as ->; [|done].
        apply nonzero_spec. lra.
      * intros H0 H1. apply silence_ratio_bounds; try done.
        apply duration_is_a_double.
Qed.

End AnalyzeAudio.

Lemma analyze_audio_guards_zero_duration_witness :
  (exists m,
     fst (MultiAgent.analyze_audio "/work" Stub.whisper_no_break_space
            Stub.one_millisecond "/in/pitch.mp3" Stub.disk) = Returns m
     /\ MultiAgent.duration m = (1152921504606847 # 1152921504606846976)%Q
     /\ MultiAgent.wpm m = 180000%Q
     /\ MultiAgent.silence_ratio m = (3 # 4)%Q
     /\ (0 <= MultiAgent.silence_ratio m)%Q
     /\ (MultiAgent.silence_ratio m <= 1)%Q)
  /\ (exists m,
        fst (MultiAgent.analyze_audio "/work" Stub.whisper Stub.empty_audio
               "/in/pitch.mp3" Stub.disk) = Returns m
        /\ MultiAgent.wpm m = 0%Q /\ MultiAgent.silence_ratio m = 0%Q).
Proof.
  split.
  - destruct (analyze_audio_guards_zero_duration "/work"
                Stub.whisper_no_break_space
                Stub.one_millisecond "/in/pitch.mp3" Stub.disk
                (snd (MultiAgent.transcribe "/work"
                        Stub.whisper_no_break_space
                        "/in/pitch.mp3" Stub.disk))
                (repeat 0%Q 16) Stub.three_words)
      as (_ & _ & Hpos).
    + reflexivity.
    + vm_compute. reflexivity.
    + destruct Hpos as [Hrun Hbounds]; [by vm_compute|].
      eexists. split; [rewrite Hrun; reflexivity|].
      cbn [MultiAgent.duration MultiAgent.wpm MultiAgent.silence_ratio].
      split; [vm_compute; reflexivity|].
      split; [vm_compute; reflexivity|].
      split; [vm_compute; reflexivity|].
      apply Hbounds; vm_compute; discriminate.
  - destruct (analyze_audio_guards_zero_duration "/work" Stub.whisper
                Stub.empty_audio "/in/pitch.mp3" Stub.disk
                (snd (MultiAgent.transcribe "/work" Stub.whisper
                        "/in/pitch.mp3" Stub.disk))
                [] "we sell shovels")
      as (_ & Hzero & _).
    + reflexivity.
    + vm_compute. reflexivity.
    + eexists. split; [rewrite Hzero; reflexivity|]. split; reflexivity.
Defined.

(** ** C6: the audio guardrail *)

(** [require_audio], when it is called, trips exactly when the check
    model says there is no audio. *)
Lemma require_audio_trips_iff_check_says_no (model : AgentsSDK.AgentModel)
    (inputs : list AgentsSDK.Item) (w : World)
    (check : AgentsSDK.VCAudioCheck) :
  model "VC Pitch Audio Guardrail" inputs
  = Returns (AgentsSDK.FinalOutput (AgentsSDK.OutAudioCheck check)) ->
  AgentsSDK.require_audio model inputs w
  = (Returns {| AgentsSDK.output_info := AgentsSDK.has_audio check;
                AgentsSDK.tripwire_triggered :=
                  negb (AgentsSDK.has_audio check) |},
     set_agent_log (agent_log w ++ ["VC Pitch Audio Guardrail"])%list w).
Proof.
  intros Hcheck.
  unfold AgentsSDK.require_audio, AgentsSDK.Runner_run,
    AgentsSDK.guardrail_agent.
  cbn [AgentsSDK.input_guardrails AgentsSDK.agent_name
       AgentsSDK.run_guardrails].
  unfold bind, AgentsSDK.gather, AgentsSDK.ask, ret.
  rewrite Hcheck. reflexivity.
Qed.

(** A run that starts with the triage agent, whose model hands off to
    one of the three examiners: the examiner's model is asked next, and
    nothing else is. *)
Lemma triage_hands_off (prefix : string) (model : AgentsSDK.AgentModel)
    (items : list AgentsSDK.Item) (w : World) (target : string) :
  model "Exam Triage Agent" items = Returns (AgentsSDK.Handoff target) ->
  target = "Technical Examiner" \/ target = "Narrative Examiner"
  \/ target = "VC Pitch Examiner" ->
  AgentsSDK.Runner_run model (AgentsSDK.triage_agent prefix model) items w
  = (match model target items with
     | Returns (AgentsSDK.FinalOutput out) => Returns out
     | Returns (AgentsSDK.Handoff t) =>
         Raises (Exc (OtherException "ModelBehaviorError") t)
     | Raises e => Raises e
     end,
     set_agent_log (agent_log w ++ ["Exam Triage Agent"; target])%list w).
Proof.
  intros Htriage Htarget.
  unfold AgentsSDK.Runner_run, AgentsSDK.triage_agent.
  cbn [AgentsSDK.input_guardrails AgentsSDK.agent_name
       AgentsSDK.run_guardrails].
  unfold bind at 1. unfold AgentsSDK.gather, ret.
  unfold AgentsSDK.ask at 1. rewrite Htriage. cbn [snd AgentsSDK.follow].
  cbn [AgentsSDK.agent_name AgentsSDK.technical_agent
       AgentsSDK.narrative_agent AgentsSDK.vc_pitch_agent].
  assert (Hlog : forall name : string,
            set_agent_log
              (agent_log (set_agent_log
                            (agent_log w ++ ["Exam Triage Agent"])%list w)
               ++ [name])%list
              (set_agent_log (agent_log w ++ ["Exam Triage Agent"])%list w)
            = set_agent_log
                (agent_log w ++ ["Exam Triage Agent"; name])%list w).
  { intros name. unfold set_agent_log. cbn. by rewrite <- app_assoc. }
  destruct Htarget as [-> | [-> | ->]].
  - destruct (decide ("Technical Examiner" = "Technical Examiner")); [|done].
    unfold bind, AgentsSDK.ask. rewrite Hlog.
    by destruct (model "Technical Examiner" items) as [[out|t]|err].
  - destruct (decide ("Technical Examiner" = "Narrative Examiner")); [done|].
    destruct (decide ("Narrative Examiner" = "Narrative Examiner")); [|done].
    unfold bind, AgentsSDK.ask. rewrite Hlog.
    by destruct (model "Narrative Examiner" items) as [[out|t]|err].
  - destruct (decide ("Technical Examiner" = "VC Pitch Examiner")); [done|].
    destruct (decide ("Narrative Examiner" = "VC Pitch Examiner")); [done|].
    destruct (decide ("VC Pitch Examiner" = "VC Pitch Examiner")); [|done].
    unfold bind, AgentsSDK.ask. rewrite Hlog.
    by destruct (model "VC Pitch Examiner" items) as [[out|t]|err].
Qed.

(** C6.  The audio guardrail is declared on the VC pitch examiner, and
    a run looks at the input guardrails of the agent it starts with: the
    triage agent, which declares none.  So when the triage model hands
    the submission to the VC pitch examiner, the guardrail agent is never
    asked and [require_audio] never runs: the examiner's model is asked
    next and what it answers is the result of [grade_exam], whether
    or not [input_data] has an [mp3_path] and whatever the check model
    would have answered.  No run halts for a missing recording. *)
Theorem vc_pitch_guardrail_is_never_run
    (prefix : string) (model : AgentsSDK.AgentModel)
    (input_data : gmap string string)
    (w : World) (out : AgentsSDK.AgentOutput) :
  (forall items, model "Exam Triage Agent" items
                 = Returns (AgentsSDK.Handoff "VC Pitch Examiner")) ->
  (forall items, model "VC Pitch Examiner" items
                 = Returns (AgentsSDK.FinalOutput out)) ->
  let run := AgentsSDK.grade_exam prefix model input_data w in
  fst run = Returns out
  /\ agent_log (snd run)
     = (agent_log w ++ ["Exam Triage Agent"; "VC Pitch Examiner"])%list
  /\ (~ "VC Pitch Audio Guardrail" ∈ agent_log w ->
      ~ "VC Pitch Audio Guardrail" ∈ agent_log (snd run)).
Proof.
  intros Htriage Hexaminer. cbn zeta. unfold AgentsSDK.grade_exam.
  rewrite (triage_hands_off prefix model _ w "VC Pitch Examiner")
    by (auto using Htriage).
  rewrite Hexaminer. cbn [fst snd]. split; [done|]. split; [done|].
  intros Hlog. cbn [agent_log set_agent_log].
  rewrite elem_of_app, !elem_of_cons, elem_of_nil.
  intros [H|[H|[H|[]]]]; [done|discriminate H|discriminate H].
Qed.

(** A submission without a recording, and a check model that would
    answer that there is no audio: the guardrail would trip if it were
    called, and yet the pitch is graded. *)
Lemma vc_pitch_guardrail_is_never_run_witness :
  let run := AgentsSDK.grade_exam EmptyString (Stub.pitch_model false)
               Stub.no_audio Stub.world0 in
  Stub.no_audio !! "mp3_path" = None
  /\ match fst (AgentsSDK.require_audio (Stub.pitch_model false) []
                 Stub.world0) with
     | Returns guard => AgentsSDK.tripwire_triggered guard = true
     | Raises _ => False
     end
  /\ fst run = Returns (AgentsSDK.OutEvaluation Stub.evaluation)
  /\ agent_log (snd run) = ["Exam Triage Agent"; "VC Pitch Examiner"]
  /\ ~ "VC Pitch Audio Guardrail" ∈ agent_log (snd run).
Proof.
  cbn zeta. split; [reflexivity|]. split; [reflexivity|].
  destruct (vc_pitch_guardrail_is_never_run EmptyString
              (Stub.pitch_model false) Stub.no_audio Stub.world0
              (AgentsSDK.OutEvaluation Stub.evaluation))
    as (Hout & Hlog & Hnever).
  - intros items. reflexivity.
  - intros items. reflexivity.
  - split; [exact Hout|]. split; [exact Hlog|].
    apply Hnever. cbn. apply not_elem_of_nil.
Defined.

(* ===================================================================== *)
(** * Further properties of the code *)
(* ===================================================================== *)

(** ** The retry loop, in general *)

Lemma retry_loop_outcome (retryable : exception -> bool) (chat : ChatOracle)
    (kwargs : ChatRequest) (w : World) :
  let run := retry_loop retryable chat kwargs (range 1 (MAX_RETRIES + 1)) w in
  exists n : nat,
    (1 <= n <= 3)%nat
    /\ invocations w (snd run) = n
    /\ fst run = attempt_outcome chat kwargs w (n - 1)
    /\ files (snd run) = files w
    /\ whisper_calls (snd run) = whisper_calls w.
Proof.
  rewrite range_attempts. cbn zeta. cbn [retry_loop]. unfold attempt_outcome, invocations.
  assert (H0 : (List.length (chat_log w) + (1 - 1) = List.length (chat_log w))%nat) by lia.
  destruct (chat (List.length (chat_log w)) kwargs) as [r1|e1] eqn:E1.
  { exists 1%nat. rewrite H0, E1. cbn. rewrite length_app. cbn. repeat split; lia. }
  destruct (retryable e1).
  2:{ exists 1%nat. rewrite H0, E1. cbn. rewrite length_app. cbn. repeat split; lia. }
  destruct (decide (1 = MAX_RETRIES)) as [|_]; [done|].
  cbn [chat_log set_sleeps set_chat_log]. rewrite length_app. cbn [List.length].
  destruct (chat (List.length (chat_log w) + 1)%nat kwargs) as [r2|e2] eqn:E2.
  { exists 2%nat. replace (List.length (chat_log w) + (2 - 1))%nat with (List.length (chat_log w) + 1)%nat by lia. rewrite E2. cbn. rewrite !length_app. cbn. repeat split; lia. }
  destruct (retryable e2).
  2:{ exists 2%nat. replace (List.length (chat_log w) + (2 - 1))%nat with (List.length (chat_log w) + 1)%nat by lia. rewrite E2. cbn. rewrite !length_app. cbn. repeat split; lia. }
  destruct (decide (2 = MAX_RETRIES)) as [|_]; [done|].
  cbn [chat_log set_sleeps set_chat_log]. rewrite !length_app. cbn [List.length].
  replace (List.length (chat_log w) + 1 + 1)%nat with (List.length (chat_log w) + 2)%nat by lia.
  exists 3%nat. replace (List.length (chat_log w) + (3 - 1))%nat with (List.length (chat_log w) + 2)%nat by lia.
  destruct (chat (List.length (chat_log w) + 2)%nat kwargs) as [r3|e3] eqn:E3.
  { cbn. rewrite !length_app. cbn. repeat split; lia. }
  destruct (retryable e3); [destruct (decide (MAX_RETRIES = MAX_RETRIES))|];
    cbn; rewrite !length_app; cbn; repeat split; lia.
Qed.

(** X1.  Whatever the chat model does, the narrative agent's
    [call_with_backoff] makes [n] requests with [1 <= n <= 3] and ends as
    the [n]-th request ended: with its response or with its exception.
    The multi agent's makes one request and ends with its response, or
    with the [TypeError] of the [except] clause when the request raised.
    Neither falls out of the loop with [None], and neither touches the
    files or the transcription service. *)
Theorem call_with_backoff_ends_with_the_last_attempt
    (chat : ChatOracle) (kwargs : ChatRequest) (w : World) :
  (let run := NarrativeAgent.call_with_backoff chat kwargs w in
   exists n : nat,
     (1 <= n <= 3)%nat
     /\ invocations w (snd run) = n
     /\ fst run = attempt_outcome chat kwargs w (n - 1)
     /\ fst run <> Returns None
     /\ files (snd run) = files w
     /\ whisper_calls (snd run) = whisper_calls w)
  /\ (let run := MultiAgent.call_with_backoff chat kwargs w in
      invocations w (snd run) = 1%nat
      /\ fst run = match attempt_outcome chat kwargs w 0 with
                   | Returns r => Returns r
                   | Raises _ => Raises except_tuple_error
                   end
      /\ fst run <> Returns None
      /\ sleeps (snd run) = sleeps w
      /\ files (snd run) = files w
      /\ whisper_calls (snd run) = whisper_calls w).
Proof.
  split; cbn zeta.
  - rewrite narrative_call_eq.
    destruct (retry_loop_outcome narrative_catches chat kwargs w)
      as (n & Hn & Hcalls & Hout & Hfiles & Hwhisper).
    exists n; repeat split; try done; try lia.
    rewrite Hout; unfold attempt_outcome; by destruct (chat _ kwargs).
  - rewrite multi_call_run. unfold invocations, attempt_outcome.
    rewrite Nat.add_0_r. cbn. rewrite length_app. cbn.
    repeat split; try lia; by destruct (chat _ kwargs).
Qed.

Lemma total_wait_range (n : nat) :
  (1 <= n <= 3)%nat -> (total_wait (map delay (range 1 (Z.of_nat n))) <= 6)%Q.
Proof.
  intros Hn. destruct n as [|[|[|[|n]]]]; try lia; vm_compute; discriminate.
Qed.

(** X2.  In both files the waits of one [call_with_backoff] add up to at
    most six seconds (2 and 4), and a request answered at once is
    followed by no wait at all. *)
Theorem call_with_backoff_waits_at_most_six_seconds
    (chat : ChatOracle) (kwargs : ChatRequest) (w : World) :
  both_files (fun call_with_backoff =>
    let run := call_with_backoff chat kwargs w in
    exists waits,
      sleeps (snd run) = (sleeps w ++ waits)%list
      /\ (total_wait waits <= 6)%Q
      /\ (forall r, chat (List.length (chat_log w)) kwargs = Returns r ->
          waits = [])).
Proof.
  split; cbn zeta.
  - rewrite narrative_call_eq.
    destruct (retry_loop_waits narrative_catches chat kwargs w)
      as (n & Hn & Hlog & Hs).
    exists (map delay (range 1 (Z.of_nat n))); split; [done|].
    split; [apply total_wait_range; revert Hn; vm_compute; lia|].
    intros r Hr; rewrite range_attempts in Hlog;
      erewrite retry_loop_returns in Hlog by done; cbn in Hlog.
    apply app_inv_head in Hlog.
    destruct n as [|[|n]]; [done|done|discriminate].
  - rewrite multi_call_run. exists []. cbn. rewrite app_nil_r.
    split; [done|]. split; [discriminate|done].
Qed.

Lemma call_with_backoff_waits_at_most_six_seconds_witness :
  both_files (fun call_with_backoff =>
    let run := call_with_backoff (Stub.answers "ok") Stub.request
                 Stub.world0 in
    sleeps (snd run) = []).
Proof.
  destruct (call_with_backoff_waits_at_most_six_seconds (Stub.answers "ok")
              Stub.request Stub.world0) as [Hn Hm].
  split; cbn zeta.
  - destruct Hn as (waits & Hs & _ & Hnone).
    rewrite Hs. rewrite (Hnone (Stub.answer "ok")); reflexivity.
  - destruct Hm as (waits & Hs & _ & Hnone).
    rewrite Hs. rewrite (Hnone (Stub.answer "ok")); reflexivity.
Defined.

(** X3.  In the narrative agent an exception outside the four transient
    classes leaves [call_with_backoff] at the first request: it is raised
    as it is, after one request and no wait. *)
Theorem narrative_call_with_backoff_fails_fast
    (chat : ChatOracle) (kwargs : ChatRequest) (w : World) (e : exception) :
  chat (List.length (chat_log w)) kwargs = Raises e ->
  transient e = false ->
  let run := NarrativeAgent.call_with_backoff chat kwargs w in
  fst run = Raises e
  /\ invocations w (snd run) = 1%nat
  /\ sleeps (snd run) = sleeps w.
Proof.
  intros Hcall Hno. cbn zeta. rewrite narrative_call_eq, range_attempts.
  rewrite retry_loop_propagates with (e := e);
    [|done|by rewrite narrative_catches_transient].
  unfold invocations. cbn. rewrite length_app. cbn. repeat split. lia.
Qed.

Lemma narrative_call_with_backoff_fails_fast_witness :
  let run := NarrativeAgent.call_with_backoff
               (Stub.always_fails (Exc InvalidRequestError "400"))
               Stub.request Stub.world0 in
  fst run = Raises (Exc InvalidRequestError "400")
  /\ invocations Stub.world0 (snd run) = 1%nat
  /\ sleeps (snd run) = sleeps Stub.world0.
Proof.
  apply narrative_call_with_backoff_fails_fast; reflexivity.
Defined.

(** X4.  In the multi agent an exception of the request, whatever its
    class, leaves [call_with_backoff] at the first request: the [except]
    clause raises [TypeError] in its place, after one request and no
    wait. *)
Theorem multi_call_with_backoff_replaces_the_exception
    (chat : ChatOracle) (kwargs : ChatRequest) (w : World) (e : exception) :
  chat (List.length (chat_log w)) kwargs = Raises e ->
  let run := MultiAgent.call_with_backoff chat kwargs w in
  fst run
  = Raises (Exc TypeError
      "catching classes that do not inherit from BaseException is not allowed")
  /\ invocations w (snd run) = 1%nat
  /\ sleeps (snd run) = sleeps w.
Proof.
  intros Hcall. cbn zeta. rewrite (multi_masks_every_exception _ _ _ e Hcall).
  unfold invocations. cbn. rewrite length_app. cbn. repeat split. lia.
Qed.

Lemma multi_call_with_backoff_replaces_the_exception_witness :
  let run := MultiAgent.call_with_backoff
               (Stub.always_fails Stub.rate_limited)
               Stub.request Stub.world0 in
  fst run
  = Raises (Exc TypeError
      "catching classes that do not inherit from BaseException is not allowed")
  /\ invocations Stub.world0 (snd run) = 1%nat
  /\ sleeps (snd run) = sleeps Stub.world0.
Proof.
  apply (multi_call_with_backoff_replaces_the_exception _ _ _
           Stub.rate_limited).
  reflexivity.
Defined.

(** ** The graders, on their error paths *)

(** X6.  With [exam_type] ["technical"] the multi agent's [grade_exam]
    raises [KeyError] while it builds the prompt, for every rubric,
    question sheet and answer: the braces of the JSON sample in
    [TECHNICAL_PROMPT_TEMPLATE] are read by [str.format] as a field.  No
    request is sent and the world is as before. *)
Theorem technical_grading_raises_before_any_request
    (loads : Decoder) (chat : ChatOracle)
    (rubric questions responses : string) (w : World) :
  MultiAgent.grade_exam loads chat rubric questions responses "technical" w
  = (Raises (Exc KeyError (nl +:+ "  " +:+ dq +:+ "question_1" +:+ dq)), w).
Proof.
  unfold MultiAgent.grade_exam, bind, lift.
  by rewrite technical_branch_raises.
Qed.

(** X7.  The multi agent's [grade_exam] treats a rubric of white space
    only as no rubric: the run is the one with the empty rubric, prompts,
    requests and result alike. *)
Theorem blank_rubric_is_no_rubric
    (loads : Decoder) (chat : ChatOracle)
    (rubric questions responses exam_type : string) (w : World) :
  strip rubric = EmptyString ->
  MultiAgent.grade_exam loads chat rubric questions responses exam_type w
  = MultiAgent.grade_exam loads chat EmptyString questions responses
      exam_type w.
Proof.
  intros Hblank. unfold MultiAgent.grade_exam.
  assert (MultiAgent.build_prompts rubric questions responses exam_type
          = MultiAgent.build_prompts EmptyString questions responses exam_type)
    as ->; [|done].
  unfold MultiAgent.build_prompts. rewrite Hblank.
  replace (strip EmptyString) with EmptyString by reflexivity.
  reflexivity.
Qed.

(** A rubric of a space, a no-break space (U+00A0) and a newline. *)
Lemma blank_rubric_is_no_rubric_witness :
  MultiAgent.grade_exam Json.loads (Stub.answers Stub.inflated_total)
    (" " +:+ String (chr 194) (String (chr 160) nl))
    "Q1" "A1" "narrative" Stub.world0
  = MultiAgent.grade_exam Json.loads (Stub.answers Stub.inflated_total)
      EmptyString "Q1" "A1" "narrative" Stub.world0.
Proof. apply blank_rubric_is_no_rubric. reflexivity. Defined.

(** X8.  The multi agent's [grade_exam] turns only undecodable text into
    the [error] dictionary.  A response without choices raises
    [IndexError] and a first message without content raises [TypeError]
    (from [json.loads(None)]); neither is caught. *)
Theorem completion_without_text_is_not_a_parse_failure
    (loads : Decoder) (chat : ChatOracle)
    (rubric questions responses exam_type : string) (w : World)
    (resp : ChatResponse) :
  exam_type <> "technical" ->
  (forall req, chat (List.length (chat_log w)) req = Returns resp) ->
  first_content resp = None ->
  let run := MultiAgent.grade_exam loads chat rubric questions responses
               exam_type w in
  exists e,
    fst run = Raises e
    /\ exc_type e = (if decide (choices resp = [])
                     then IndexError else TypeError).
Proof.
  intros Hne Hchat Hnone. cbn zeta.
  rewrite (multi_grade_exam_answered _ _ _ _ _ _ _ resp) by done.
  rewrite Hnone. destruct (choices resp); eexists; split; reflexivity.
Qed.

Lemma completion_without_text_is_not_a_parse_failure_witness :
  exists e,
    fst (MultiAgent.grade_exam Json.loads
           (fun _ _ => Returns {| choices := [] |})
           "rubric" "Q1" "A1" "narrative" Stub.world0) = Raises e
    /\ exc_type e = IndexError.
Proof.
  apply (completion_without_text_is_not_a_parse_failure Json.loads
           (fun _ _ => Returns {| choices := [] |})
           "rubric" "Q1" "A1" "narrative" Stub.world0 {| choices := [] |}).
  - discriminate.
  - reflexivity.
  - reflexivity.
Defined.

Lemma retry_loop_always_fails (retryable : exception -> bool)
    (chat : ChatOracle) (kwargs : ChatRequest) (w : World) (e : exception) :
  (forall n req, chat n req = Raises e) ->
  let run := retry_loop retryable chat kwargs (range 1 (MAX_RETRIES + 1)) w in
  fst run = Raises e
  /\ invocations w (snd run) = (if retryable e then 3 else 1)%nat.
Proof.
  intros Hchat. cbn zeta. rewrite range_attempts. unfold invocations.
  destruct (retryable e) eqn:Hr.
  - rewrite (retry_loop_failures retryable chat kwargs 2).
    + cbn [drop]. erewrite retry_loop_exhausted by apply Hchat.
      cbn. rewrite !length_app. cbn. split; [done|lia].
    + cbn. lia.
    + intros i _. exists e. by rewrite Hchat.
    + repeat constructor; done.
  - erewrite retry_loop_propagates; [|apply Hchat|done].
    cbn. rewrite length_app. cbn. split; [done|lia].
Qed.

(** X9.  Neither [grade_exam] catches what [call_with_backoff] raises.
    When every request raises [e], the narrative agent raises [e], after
    three requests if [e] is transient and after one otherwise; the multi
    agent raises the [TypeError] of its [except] clause after one
    request, whatever [e] is. *)
Theorem grade_exam_raises_what_call_with_backoff_raises
    (loads : Decoder) (chat : ChatOracle)
    (rubric questions responses exam_type : string) (w : World)
    (e : exception) :
  exam_type <> "technical" ->
  (forall n req, chat n req = Raises e) ->
  (let run := MultiAgent.grade_exam loads chat rubric questions responses
                exam_type w in
   fst run
   = Raises (Exc TypeError
       "catching classes that do not inherit from BaseException is not allowed")
   /\ invocations w (snd run) = 1%nat
   /\ sleeps (snd run) = sleeps w)
  /\ (let run := NarrativeAgent.grade_exam loads chat rubric questions
                   responses w in
      fst run = Raises e
      /\ invocations w (snd run) = (if transient e then 3 else 1)%nat).
Proof.
  intros Hne Hchat. split; cbn zeta.
  - destruct (narrative_branch_prompts rubric questions responses exam_type Hne)
      as (sys & usr & Hp & _).
    unfold MultiAgent.grade_exam.
    erewrite bind_returns by (unfold lift; rewrite Hp; reflexivity).
    cbv beta iota.
    erewrite bind_raises
      by (apply (multi_masks_every_exception _ _ _ e), Hchat).
    unfold invocations. cbn. rewrite length_app. cbn.
    repeat split. lia.
  - unfold NarrativeAgent.grade_exam.
    match goal with |- context [NarrativeAgent.call_with_backoff chat ?k] =>
      destruct (retry_loop_always_fails narrative_catches chat k w e Hchat)
        as [Hres Hn];
      rewrite <- narrative_call_eq in Hres, Hn;
      destruct (NarrativeAgent.call_with_backoff chat k w) as [o w1] eqn:Hrun
    end.
    cbn [fst snd] in Hres, Hn. subst o.
    erewrite bind_raises by exact Hrun. cbn [fst snd].
    by rewrite <- narrative_catches_transient.
Qed.

Lemma grade_exam_raises_what_call_with_backoff_raises_witness :
  (let run := MultiAgent.grade_exam Json.loads
                (Stub.always_fails Stub.rate_limited)
                "rubric" "Q1" "A1" "narrative" Stub.world0 in
   exc_type <$> (match fst run with Raises e => Some e | _ => None end)
   = Some TypeError
   /\ invocations Stub.world0 (snd run) = 1%nat)
  /\ (let run := NarrativeAgent.grade_exam Json.loads
                   (Stub.always_fails Stub.rate_limited)
                   "rubric" "Q1" "A1" Stub.world0 in
      fst run = Raises Stub.rate_limited
      /\ invocations Stub.world0 (snd run) = 3%nat).
Proof.
  destruct (grade_exam_raises_what_call_with_backoff_raises Json.loads
              (Stub.always_fails Stub.rate_limited) "rubric" "Q1" "A1"
              "narrative" Stub.world0 Stub.rate_limited)
    as [(Hm & Hmn & _) [Hn Hnn]].
  - discriminate.
  - reflexivity.
  - cbn zeta. rewrite Hm, Hmn, Hn, Hnn. repeat split.
Defined.

(** X10.  The narrative agent's [grade_exam] has no fallback for
    undecodable function-call arguments: what [json.loads] raises on
    them, [JSONDecodeError], is raised after the one request. *)
Theorem narrative_grade_exam_raises_on_undecodable_arguments
    (loads : Decoder) (chat : ChatOracle)
    (rubric questions responses : string) (w : World)
    (resp : ChatResponse) (raw : string) (e : exception) :
  (forall req, chat (List.length (chat_log w)) req = Returns resp) ->
  first_arguments resp = Some raw ->
  loads raw = Raises e ->
  let run := NarrativeAgent.grade_exam loads chat rubric questions
               responses w in
  fst run = Raises e
  /\ invocations w (snd run) = 1%nat.
Proof.
  intros Hchat Hraw Hnone. cbn zeta. split.
  - rewrite (narrative_grade_exam_answered _ _ _ _ _ _ resp raw) by done.
    exact Hnone.
  - unfold NarrativeAgent.grade_exam. unfold bind at 1.
    rewrite narrative_call_eq, range_attempts.
    erewrite retry_loop_returns by apply Hchat.
    unfold first_arguments in Hraw. unfold first_message, bind, invocations.
    destruct (choices resp) as [|m rest]; [done|].
    cbn [ret]. rewrite Hraw. unfold json_loads, lift. rewrite Hnone.
    cbn. rewrite length_app. cbn. lia.
Qed.

Lemma narrative_grade_exam_raises_on_undecodable_arguments_witness :
  let run := NarrativeAgent.grade_exam Json.loads (Stub.answers "{oops")
               "rubric" "Q1" "A1" Stub.world0 in
  fst run = Raises (Exc JSONDecodeError "{oops")
  /\ invocations Stub.world0 (snd run) = 1%nat.
Proof.
  apply (narrative_grade_exam_raises_on_undecodable_arguments Json.loads
           (Stub.answers "{oops") "rubric" "Q1" "A1" Stub.world0
           (Stub.answer "{oops") "{oops" (Exc JSONDecodeError "{oops")).
  - reflexivity.
  - reflexivity.
  - vm_compute. reflexivity.
Defined.

(** X11.  The narrative agent's [grade_exam] reads the arguments of the
    function call only: a response without choices raises [IndexError],
    and a first message without a function call raises [AttributeError]
    even when it carries text. *)
Theorem narrative_grade_exam_needs_a_function_call
    (loads : Decoder) (chat : ChatOracle)
    (rubric questions responses : string) (w : World)
    (resp : ChatResponse) :
  (forall req, chat (List.length (chat_log w)) req = Returns resp) ->
  first_arguments resp = None ->
  exists e,
    fst (NarrativeAgent.grade_exam loads chat rubric questions responses w)
    = Raises e
    /\ exc_type e = (if decide (choices resp = [])
                     then IndexError else AttributeError).
Proof.
  intros Hchat Hnone.
  unfold NarrativeAgent.grade_exam. unfold bind at 1.
  rewrite narrative_call_eq, range_attempts.
  erewrite retry_loop_returns by apply Hchat.
  unfold first_arguments in Hnone. unfold first_message, bind.
  destruct (choices resp) as [|m rest]; [eexists; split; reflexivity|].
  cbn [ret]. rewrite Hnone. eexists; split; reflexivity.
Qed.

Lemma narrative_grade_exam_needs_a_function_call_witness :
  exists e,
    fst (NarrativeAgent.grade_exam Json.loads
           (fun _ _ => Returns
              {| choices := [ {| content := Some "plain text";
                                 function_call_arguments := None |} ] |})
           "rubric" "Q1" "A1" Stub.world0)
    = Raises e
    /\ exc_type e = AttributeError.
Proof.
  apply (narrative_grade_exam_needs_a_function_call Json.loads
           (fun _ _ => Returns
              {| choices := [ {| content := Some "plain text";
                                 function_call_arguments := None |} ] |})
           "rubric" "Q1" "A1" Stub.world0
           {| choices := [ {| content := Some "plain text";
                              function_call_arguments := None |} ] |}).
  - reflexivity.
  - reflexivity.
Defined.

(** ** The transcript cache *)

Lemma list_ascii_of_string_append (a b : string) :
  list_ascii_of_string (a +:+ b)
  = (list_ascii_of_string a ++ list_ascii_of_string b)%list.
Proof.
  induction a as [|c a IH]; [done|].
  change (String c a +:+ b) with (String c (a +:+ b)). simpl. by rewrite IH.
Qed.

Lemma string_append_assoc (a b c : string) :
  (a +:+ b) +:+ c = a +:+ (b +:+ c).
Proof.
  induction a as [|x a IH]; [done|].
  change ((String x a +:+ b) +:+ c) with (String x ((a +:+ b) +:+ c)).
  change (String x a +:+ (b +:+ c)) with (String x (a +:+ (b +:+ c))).
  by rewrite IH.
Qed.

Lemma rfind_slash_free (s acc : list ascii) :
  slash_free s -> os_path.rfind_slash s acc = (rev acc ++ s)%list.
Proof.
  revert acc. induction s as [|c s IH]; intros acc Hs; cbn.
  - by rewrite app_nil_r.
  - apply Forall_cons in Hs as [Hc Hs].
    destruct (code c =? 47) eqn:E; [lia|].
    rewrite IH by done. cbn. by rewrite <- app_assoc.
Qed.

Lemma rfind_slash_is_slash_free (s acc : list ascii) :
  slash_free acc -> slash_free (os_path.rfind_slash s acc).
Proof.
  revert acc. induction s as [|c s IH]; intros acc Hacc; cbn.
  - by apply Forall_rev.
  - destruct (code c =? 47) eqn:E.
    + apply IH. constructor.
    + apply IH. constructor; [lia|done].
Qed.

Lemma rfind_slash_after_slash (s b acc : list ascii) :
  slash_free b ->
  os_path.rfind_slash (s ++ chr 47 :: b) acc = b.
Proof.
  intros Hb. revert acc. induction s as [|c s IH]; intros acc; cbn.
  - by rewrite rfind_slash_free.
  - destruct (code c =? 47); apply IH.
Qed.

Lemma basename_slash_free (p : string) :
  slash_free (list_ascii_of_string (os_path.basename p)).
Proof.
  unfold os_path.basename. rewrite list_ascii_of_string_of_list_ascii.
  apply rfind_slash_is_slash_free. constructor.
Qed.

Lemma basename_after_slash (a b : string) :
  slash_free (list_ascii_of_string b) ->
  os_path.basename (a +:+ "/" +:+ b) = b.
Proof.
  intros Hb. unfold os_path.basename.
  rewrite !list_ascii_of_string_append. cbn [list_ascii_of_string app].
  change "/"%char with (chr 47).
  rewrite rfind_slash_after_slash by done.
  apply string_of_list_ascii_of_string.
Qed.

Lemma cache_dir_shape (cwd : string) :
  exists a, MultiAgent.RUBRIC_CACHE_DIR cwd = a +:+ "cache".
Proof.
  unfold MultiAgent.RUBRIC_CACHE_DIR, os_path.join. cbn [os_path.starts_with_slash].
  change (code "c" =? 47) with false. cbn iota.
  destruct (negb (truthy cwd) || os_path.ends_with_slash cwd).
  - by exists cwd.
  - exists (cwd +:+ "/"). 
    by rewrite string_append_assoc.
Qed.

Lemma cache_file_shape (cwd mp3_path : string) :
  exists a, cache_file cwd mp3_path
            = a +:+ "/" +:+ (os_path.basename mp3_path +:+ ".txt").
Proof.
  destruct (cache_dir_shape cwd) as (a & Ha).
  exists (a +:+ "cache").
  unfold cache_file. rewrite Ha. unfold os_path.join.
  assert (os_path.starts_with_slash (os_path.basename mp3_path +:+ ".txt")
          = false) as ->.
  { pose proof (basename_slash_free mp3_path) as Hb.
    destruct (os_path.basename mp3_path) as [|c b]; [reflexivity|].
    change (String c b +:+ ".txt") with (String c (b +:+ ".txt")).
    simpl in Hb. apply Forall_cons in Hb as [Hc _].
    unfold os_path.starts_with_slash. by apply Z.eqb_neq. }
  assert (truthy (a +:+ "cache") = true) as ->.
  { destruct a; reflexivity. }
  assert (os_path.ends_with_slash (a +:+ "cache") = false) as ->; [|done].
  unfold os_path.ends_with_slash.
  rewrite list_ascii_of_string_append, rev_app_distr. reflexivity.
Qed.

Lemma length_append (a b : string) :
  String.length (a +:+ b) = (String.length a + String.length b)%nat.
Proof.
  induction a as [|c a IH]; [done|].
  change (String c a +:+ b) with (String c (a +:+ b)). simpl. by rewrite IH.
Qed.

(** The cache file is never the recording itself. *)
Lemma cache_file_is_not_the_recording (cwd mp3_path : string) :
  cache_file cwd mp3_path <> mp3_path.
Proof.
  intros Heq. destruct (cache_file_shape cwd mp3_path) as (a & Ha).
  assert (Hb : os_path.basename (cache_file cwd mp3_path)
               = os_path.basename mp3_path +:+ ".txt").
  { rewrite Ha. apply basename_after_slash.
    rewrite list_ascii_of_string_append. apply Forall_app. split.
    - apply basename_slash_free.
    - repeat constructor; by vm_compute. }
  rewrite Heq in Hb. apply (f_equal String.length) in Hb.
  rewrite length_append in Hb. cbn in Hb. lia.
Qed.

Section TranscribeMore.

Variable cwd : string.
Variable whisper : WhisperOracle.

(** After a call that returned, the cache file is there: it is the one
    that was read, or it holds the text that was returned. *)
Lemma transcribe_returns_cached (mp3_path : string) (w w1 : World) (t : string) :
  MultiAgent.transcribe cwd whisper mp3_path w = (Returns t, w1) ->
  exists data,
    files w1 !! cache_file cwd mp3_path = Some data
    /\ (files w !! cache_file cwd mp3_path = None -> data = t)
    /\ (files w !! cache_file cwd mp3_path <> None ->
        read_text data = Returns t).
Proof.
  intros Hrun.
  destruct (transcribe_cases cwd whisper mp3_path w)
    as [(data & Hc & H)|(Hc & [(e & He & _)|(t' & Ht & _ & Hf)])].
  - rewrite Hrun in H. injection H as Hread ->.
    exists data. split; [done|]. split; [by rewrite Hc|done].
  - rewrite Hrun in He. done.
  - rewrite Hrun in Ht, Hf. cbn in Ht, Hf. injection Ht as ->.
    exists t'. split; [done|]. split; [done|]. by rewrite Hc.
Qed.

(** X12.  On a cache miss [transcribe] needs the recording: when neither
    the cache file nor the recording exists it raises
    [FileNotFoundError] for the recording, before any request to the
    transcription service, and leaves the world as it was. *)
Theorem transcribe_needs_the_recording_on_a_miss (mp3_path : string)
    (w : World) :
  files w !! cache_file cwd mp3_path = None ->
  files w !! mp3_path = None ->
  MultiAgent.transcribe cwd whisper mp3_path w
  = (Raises (Exc FileNotFoundError mp3_path), w).
Proof.
  intros Hmiss Hfile.
  unfold MultiAgent.transcribe, bind, os_path_exists, open_read.
  fold (cache_file cwd mp3_path). rewrite Hmiss. cbn. by rewrite Hfile.
Qed.

(** X13.  A failed transcription request is not cached: [transcribe]
    raises what the service raised and writes no file, so the next call
    for the same recording asks the service again. *)
Theorem transcribe_does_not_cache_a_failed_request (mp3_path : string)
    (w : World) (f : string) (e : exception) :
  files w !! cache_file cwd mp3_path = None ->
  files w !! mp3_path = Some f ->
  whisper (whisper_calls w) f = Raises e ->
  let run := MultiAgent.transcribe cwd whisper mp3_path w in
  fst run = Raises e
  /\ files (snd run) = files w
  /\ whisper_calls
       (snd (MultiAgent.transcribe cwd whisper mp3_path (snd run)))
     = S (S (whisper_calls w)).
Proof.
  intros Hmiss Hfile Hwhisper. cbn zeta.
  assert (Hrun : MultiAgent.transcribe cwd whisper mp3_path w
                 = (Raises e, set_whisper_calls (S (whisper_calls w)) w)).
  { unfold MultiAgent.transcribe, bind, os_path_exists, open_read,
      transcriptions_create.
    fold (cache_file cwd mp3_path). rewrite Hmiss. cbn.
    by rewrite Hfile, Hwhisper. }
  rewrite Hrun. cbn [fst snd]. split; [done|]. split; [done|].
  unfold MultiAgent.transcribe, bind, os_path_exists, open_read,
    transcriptions_create, open_write, ret.
  fold (cache_file cwd mp3_path). cbn. rewrite Hmiss. cbn. rewrite Hfile.
  cbn.
  destruct (whisper (S (whisper_calls w)) f) as [resp|e']; [|done].
  cbn. by destruct (decide _).
Qed.

(** X14.  The cache is keyed by the base name of the recording alone:
    once [transcribe] has returned for one recording, a call for any
    path with the same base name is answered from the same cache file,
    without reading that path and without a request.  What it returns is
    the cache file as text mode reads it: the transcript the first call
    returned, when that call read it from the cache itself or when the
    transcript has no carriage return. *)
Theorem transcribe_shares_the_cache_between_equal_basenames
    (first second : string) (w w1 : World) (t : string) :
  os_path.basename first = os_path.basename second ->
  MultiAgent.transcribe cwd whisper first w = (Returns t, w1) ->
  exists data,
    files w1 !! cache_file cwd first = Some data
    /\ MultiAgent.transcribe cwd whisper second w1 = (read_text data, w1)
    /\ (files w !! cache_file cwd first = None -> data = t)
    /\ (files w !! cache_file cwd first <> None ->
        MultiAgent.transcribe cwd whisper second w1 = (Returns t, w1))
    /\ (Text.well_formed (list_ascii_of_string t) = true ->
        no_carriage_return t ->
        MultiAgent.transcribe cwd whisper second w1 = (Returns t, w1)).
Proof.
  intros Hname Hrun.
  destruct (transcribe_returns_cached first w w1 t Hrun)
    as (data & Hdata & Hmiss & Hhit).
  assert (Hsecond : MultiAgent.transcribe cwd whisper second w1
                    = (read_text data, w1)).
  { apply transcribe_hit.
    replace (cache_file cwd second) with (cache_file cwd first)
      by (unfold cache_file; by rewrite Hname).
    done. }
  exists data. split; [done|]. split; [done|]. split; [done|]. split.
  - intros Hthere. by rewrite Hsecond, Hhit.
  - intros Hwf Hcr. rewrite Hsecond.
    destruct (files w !! cache_file cwd first) eqn:Hc.
    + by rewrite Hhit.
    + rewrite (Hmiss eq_refl). by rewrite read_text_plain.
Qed.

(** X15.  [transcribe] writes no file but its cache file, and the cache
    file is never the recording itself; the set of unwritable paths and
    the chat log are as before. *)
Theorem transcribe_writes_only_the_cache_file (mp3_path : string)
    (w : World) :
  let run := MultiAgent.transcribe cwd whisper mp3_path w in
  (forall path, path <> cache_file cwd mp3_path ->
     files (snd run) !! path = files w !! path)
  /\ files (snd run) !! mp3_path = files w !! mp3_path
  /\ unwritable (snd run) = unwritable w
  /\ chat_log (snd run) = chat_log w.
Proof.
  cbn zeta.
  assert (Hframe : forall path, path <> cache_file cwd mp3_path ->
            files (MultiAgent.transcribe cwd whisper mp3_path w).2 !! path
            = files w !! path
            /\ unwritable (MultiAgent.transcribe cwd whisper mp3_path w).2
               = unwritable w
            /\ chat_log (MultiAgent.transcribe cwd whisper mp3_path w).2
               = chat_log w).
  { intros path Hpath.
    destruct (files w !! cache_file cwd mp3_path) as [t|] eqn:Hc.
    { by rewrite (transcribe_hit cwd whisper mp3_path w t Hc). }
    unfold MultiAgent.transcribe, bind, os_path_exists, open_read,
      transcriptions_create, open_write, ret.
    fold (cache_file cwd mp3_path). rewrite Hc. cbn.
    destruct (files w !! mp3_path) as [f|]; [|done]. cbn.
    destruct (whisper (whisper_calls w) f) as [resp|e]; [|done]. cbn.
    destruct (decide _); [done|]. cbn.
    split; [|done]. by rewrite lookup_insert_ne. }
  split; [intros path Hpath; by apply Hframe|].
  pose proof (cache_file_is_not_the_recording cwd mp3_path) as Hne.
  destruct (Hframe mp3_path) as (H1 & H2 & H3); [done|]. done.
Qed.

End TranscribeMore.

Lemma transcribe_needs_the_recording_on_a_miss_witness :
  MultiAgent.transcribe "/work" Stub.whisper "/in/other.mp3" Stub.disk
  = (Raises (Exc FileNotFoundError "/in/other.mp3"), Stub.disk).
Proof.
  apply transcribe_needs_the_recording_on_a_miss; vm_compute; reflexivity.
Defined.

Lemma transcribe_does_not_cache_a_failed_request_witness :
  let failing : WhisperOracle := fun _ _ => Raises Stub.rate_limited in
  let run := MultiAgent.transcribe "/work" failing "/in/pitch.mp3"
               Stub.disk in
  fst run = Raises Stub.rate_limited
  /\ files (snd run) = files Stub.disk
  /\ whisper_calls
       (snd (MultiAgent.transcribe "/work" failing "/in/pitch.mp3" (snd run)))
     = 2%nat.
Proof.
  apply (transcribe_does_not_cache_a_failed_request "/work"
           (fun _ _ => Raises Stub.rate_limited) "/in/pitch.mp3" Stub.disk
           "ID3-bytes" Stub.rate_limited).
  - vm_compute. reflexivity.
  - vm_compute. reflexivity.
  - reflexivity.
Defined.

Lemma transcribe_shares_the_cache_between_equal_basenames_witness :
  let w1 := snd (MultiAgent.transcribe "/work" Stub.whisper "/in/pitch.mp3"
                   Stub.disk) in
  MultiAgent.transcribe "/work" Stub.whisper "/elsewhere/pitch.mp3" w1
  = (Returns "we sell shovels", w1)
  /\ files w1 !! "/elsewhere/pitch.mp3" = None.
Proof.
  cbn zeta. split; [|vm_compute; reflexivity].
  destruct (transcribe_shares_the_cache_between_equal_basenames "/work"
              Stub.whisper "/in/pitch.mp3" "/elsewhere/pitch.mp3" Stub.disk
              (snd (MultiAgent.transcribe "/work" Stub.whisper "/in/pitch.mp3"
                      Stub.disk))
              "we sell shovels")
    as (data & _ & _ & _ & _ & Hplain).
  - reflexivity.
  - vm_compute. reflexivity.
  - apply Hplain; [reflexivity|].
    unfold no_carriage_return. cbn [list_ascii_of_string].
    repeat (constructor; [vm_compute; discriminate|]). constructor.
Defined.

Lemma transcribe_writes_only_the_cache_file_witness :
  files (snd (MultiAgent.transcribe "/work" Stub.whisper "/in/pitch.mp3"
                Stub.disk)) !! "/in/pitch.mp3"
  = files Stub.disk !! "/in/pitch.mp3"
  /\ files (snd (MultiAgent.transcribe "/work" Stub.whisper "/in/pitch.mp3"
                   Stub.disk)) !! "/in/slides.pdf"
     = files Stub.disk !! "/in/slides.pdf".
Proof.
  destruct (transcribe_writes_only_the_cache_file "/work" Stub.whisper
              "/in/pitch.mp3" Stub.disk) as (Hother & Hrecording & _).
  split; [exact Hrecording|]. apply Hother. vm_compute. discriminate.
Defined.

(** ** The audio metrics *)

Section AnalyzeAudioErrors.

Variable cwd : string.
Variable whisper : WhisperOracle.
Variable librosa : Librosa.
Variable mp3_path : string.

(** X16.  [analyze_audio] catches nothing: what [librosa.load] raises
    it raises with the world untouched, and what [transcribe] raises it
    raises with the world [transcribe] left. *)
Theorem analyze_audio_raises_what_its_collaborators_raise
    (w w1 : World) (e : exception) :
  (librosa_load librosa mp3_path = Raises e ->
   MultiAgent.analyze_audio cwd whisper librosa mp3_path w = (Raises e, w))
  /\ (forall y,
        librosa_load librosa mp3_path = Returns y ->
        MultiAgent.transcribe cwd whisper mp3_path w = (Raises e, w1) ->
        MultiAgent.analyze_audio cwd whisper librosa mp3_path w
        = (Raises e, w1)).
Proof.
  split.
  - apply analyze_audio_load_fails.
  - intros y. apply analyze_audio_transcribe_fails.
Qed.

(** X17.  When [analyze_audio] returns, the transcript is the one
    [transcribe] returned in that world, the duration and the words per
    minute are not negative, and a transcript without words (one that
    is empty or all Unicode white space) gives zero words per minute. *)
Theorem analyze_audio_metrics_are_not_negative (w w1 : World)
    (m : MultiAgent.AudioMetrics) :
  MultiAgent.analyze_audio cwd whisper librosa mp3_path w = (Returns m, w1) ->
  MultiAgent.transcribe cwd whisper mp3_path w
  = (Returns (MultiAgent.transcript m), w1)
  /\ (0 <= MultiAgent.duration m)%Q
  /\ (0 <= MultiAgent.wpm m)%Q
  /\ (word_count (MultiAgent.transcript m) = 0%nat ->
      (MultiAgent.wpm m == 0)%Q).
Proof.
  intros Hrun.
  destruct (librosa_load librosa mp3_path) as [y|e] eqn:Hload.
  2:{ rewrite (analyze_audio_load_fails _ _ _ _ w e Hload) in Hrun. done. }
  destruct (MultiAgent.transcribe cwd whisper mp3_path w) as [[t|e] w2]
    eqn:Htr.
  2:{ rewrite (analyze_audio_transcribe_fails _ _ _ _ w w2 y e Hload Htr)
        in Hrun.
      done. }
  rewrite (analyze_audio_metrics _ _ _ _ w w2 y t Hload Htr) in Hrun.
  injection Hrun as <- <-. cbn [MultiAgent.transcript MultiAgent.duration
                               MultiAgent.wpm].
  rewrite split_length.
  set (d := Float.binary64
              (inject_Z (Z.of_nat (List.length y)) / inject_Z 16000)).
  set (words := float_of_int (Z.of_nat (word_count t))).
  assert (Hwords : (0 <= words)%Q).
  { apply binary64_not_negative. unfold Qle. cbn. lia. }
  split; [done|].
  destruct (duration_cases (List.length y)) as [[_ Hz]|(_ & Hc & Hpos)];
    fold d in Hz || fold d in Hc, Hpos.
  - rewrite Hz. change (nonzero 0) with false. cbn iota.
    split; [discriminate|]. split; [discriminate|]. intros _. reflexivity.
  - assert (nonzero d = true) as -> by (apply nonzero_spec; lra).
    pose proof (minutes_positive d Hc) as Hmin.
    split; [lra|]. split.
    + apply binary64_not_negative. apply Qle_shift_div_l; [done|]. lra.
    + intros Hnone. unfold words. rewrite Hnone.
      change (float_of_int (Z.of_nat 0)) with 0%Q.
      rewrite (binary64_of_zero (0 / _)); [reflexivity|].
      unfold Qdiv. apply Qmult_0_l.
Qed.

End AnalyzeAudioErrors.

Lemma analyze_audio_raises_what_its_collaborators_raise_witness :
  MultiAgent.analyze_audio "/work" Stub.whisper
    {| librosa_load := fun _ => Raises (Exc (OtherException "NoBackendError") EmptyString);
       librosa_effects_split := fun _ => [] |}
    "/in/pitch.mp3" Stub.disk
  = (Raises (Exc (OtherException "NoBackendError") EmptyString), Stub.disk).
Proof.
  apply (analyze_audio_raises_what_its_collaborators_raise "/work"
           Stub.whisper _ "/in/pitch.mp3" Stub.disk Stub.disk).
  reflexivity.
Defined.

(** A transcript of no-break spaces has no words. *)
Lemma analyze_audio_metrics_are_not_negative_witness :
  let silent : WhisperOracle :=
    fun _ _ => Returns (WhisperText (String (chr 194) (String (chr 160) " ")))
  in
  exists m w1,
    MultiAgent.analyze_audio "/work" silent Stub.one_millisecond
      "/in/pitch.mp3" Stub.disk = (Returns m, w1)
    /\ (0 <= MultiAgent.duration m)%Q
    /\ (MultiAgent.wpm m == 0)%Q.
Proof.
  cbn zeta. eexists _, _. split; [vm_compute; reflexivity|].
  edestruct (analyze_audio_metrics_are_not_negative "/work"
               (fun _ _ =>
                  Returns (WhisperText
                             (String (chr 194) (String (chr 160) " "))))
               Stub.one_millisecond "/in/pitch.mp3" Stub.disk)
    as (_ & Hd & _ & Hnone).
  - vm_compute. reflexivity.
  - split; [exact Hd|]. apply Hnone. vm_compute. reflexivity.
Defined.
(** ** The Agents SDK pipeline *)

Lemma user_items_agree (d1 d2 : gmap string string) (keys : list string) :
  (forall key, key ∈ keys -> d1 !! key = d2 !! key) ->
  AgentsSDK.user_items d1 keys = AgentsSDK.user_items d2 keys.
Proof.
  intros H. unfold AgentsSDK.user_items.
  induction keys as [|key keys IH]; [done|]. cbn.
  rewrite (H key) by apply list_elem_of_here.
  rewrite IH; [done|]. intros k Hk. apply H. by apply list_elem_of_further.
Qed.

(** X18.  [grade_exam] of the Agents SDK file reads the keys
    [pdf_path], [rubric_path], [md_path] and [mp3_path] of its input and
    nothing else: inputs that agree on these four give the same run. *)
Theorem grade_exam_reads_only_the_four_path_keys
    (prefix : string) (model : AgentsSDK.AgentModel)
    (d1 d2 : gmap string string) (w : World) :
  (forall key,
     key ∈ ["pdf_path"; "rubric_path"; "md_path"; "mp3_path"] ->
     d1 !! key = d2 !! key) ->
  AgentsSDK.grade_exam prefix model d1 w
  = AgentsSDK.grade_exam prefix model d2 w.
Proof.
  intros H. unfold AgentsSDK.grade_exam.
  rewrite (user_items_agree d1 d2 ["pdf_path"; "rubric_path"; "md_path"]).
  - rewrite (user_items_agree d1 d2 ["mp3_path"]); [done|].
    intros k Hk. apply H. rewrite !elem_of_cons in *. tauto.
  - intros k Hk. apply H. rewrite !elem_of_cons in *. tauto.
Qed.

Lemma grade_exam_reads_only_the_four_path_keys_witness :
  AgentsSDK.grade_exam EmptyString (Stub.pitch_model true)
    (<["md_text" := "# Answers"]> Stub.no_audio) Stub.world0
  = AgentsSDK.grade_exam EmptyString (Stub.pitch_model true)
      Stub.no_audio Stub.world0.
Proof.
  apply grade_exam_reads_only_the_four_path_keys.
  intros key Hkey. apply lookup_insert_ne.
  intros <-. rewrite !elem_of_cons, elem_of_nil in Hkey.
  destruct Hkey as [H|[H|[H|[H|[]]]]]; discriminate H.
Defined.

(** X19.  When the triage agent hands off to the technical or to the
    narrative examiner, that examiner is asked next and the guardrail
    agent is never consulted: of the agents, only the VC pitch examiner
    declares an input guardrail. *)
Theorem other_examiners_are_not_guarded
    (prefix : string) (model : AgentsSDK.AgentModel)
    (input_data : gmap string string) (w : World) (target : string) :
  (forall items, model "Exam Triage Agent" items
                 = Returns (AgentsSDK.Handoff target)) ->
  target = "Technical Examiner" \/ target = "Narrative Examiner" ->
  agent_log (snd (AgentsSDK.grade_exam prefix model input_data w))
  = (agent_log w ++ ["Exam Triage Agent"; target])%list.
Proof.
  intros Htriage Htarget. unfold AgentsSDK.grade_exam.
  rewrite (triage_hands_off prefix model _ w target); [done|apply Htriage|].
  destruct Htarget; auto.
Qed.

Lemma other_examiners_are_not_guarded_witness :
  agent_log
    (snd (AgentsSDK.grade_exam EmptyString
            (fun name _ =>
               if decide (name = "Exam Triage Agent")
               then Returns (AgentsSDK.Handoff "Technical Examiner")
               else Returns (AgentsSDK.FinalOutput
                               (AgentsSDK.OutEvaluation Stub.evaluation)))
            Stub.no_audio Stub.world0))
  = ["Exam Triage Agent"; "Technical Examiner"].
Proof.
  apply (other_examiners_are_not_guarded EmptyString _ Stub.no_audio
           Stub.world0 "Technical Examiner").
  - intros items. reflexivity.
  - left. reflexivity.
Defined.

(** ** PDF pages as markdown *)

Lemma str_items_returns (cells : list (option string)) (i : nat) :
  (exists items, MultiAgentPdf.str_items i cells = Returns items)
  <-> Forall is_Some cells.
Proof.
  revert i. induction cells as [|[s|] cells IH]; intros i; cbn.
  - split; [constructor|by eexists].
  - rewrite Forall_cons, <- (IH (S i)). split.
    + intros (items & H).
      destruct (MultiAgentPdf.str_items (S i) cells) as [l|e]; [|done].
      split; [by eexists|by eexists].
    + intros (_ & l & ->). by eexists.
  - split; [by intros (items & H)|].
    intros H. apply Forall_cons in H as [[s Hs] _]. done.
Qed.

Lemma str_items_raises (cells : list (option string)) (i : nat) :
  ~ Forall is_Some cells ->
  exists msg, MultiAgentPdf.str_items i cells = Raises (Exc TypeError msg).
Proof.
  revert i. induction cells as [|[s|] cells IH]; intros i Hno; cbn.
  - destruct Hno. constructor.
  - destruct (IH (S i)) as (msg & ->); [|by eexists].
    intros H. apply Hno. constructor; [by eexists|done].
  - by eexists.
Qed.

Lemma cell_or_empty_twice (cell : option string) :
  MultiAgentPdf.cell_or_empty (Some (MultiAgentPdf.cell_or_empty cell))
  = MultiAgentPdf.cell_or_empty cell.
Proof. destruct cell as [[|c s]|]; reflexivity. Qed.

(** X20.  [convert_table_to_markdown] returns exactly for a table whose
    first row is there and holds strings only: the empty table raises
    [ValueError] and a [None] in the header raises [TypeError].  Below
    the header a [None] is read as the empty string, so a table and the
    table with its empty cells filled in by empty strings give the same
    markdown. *)
Theorem convert_table_to_markdown_is_strict_on_the_header_only
    (header : list (option string)) (rows : Table) :
  (exists msg, MultiAgentPdf.convert_table_to_markdown []
               = Raises (Exc ValueError msg))
  /\ ((exists md, MultiAgentPdf.convert_table_to_markdown (header :: rows)
                  = Returns md)
      <-> Forall is_Some header)
  /\ (~ Forall is_Some header ->
      exists msg, MultiAgentPdf.convert_table_to_markdown (header :: rows)
                  = Raises (Exc TypeError msg))
  /\ MultiAgentPdf.convert_table_to_markdown
       (header
        :: map (map (fun cell => Some (MultiAgentPdf.cell_or_empty cell)))
             rows)
     = MultiAgentPdf.convert_table_to_markdown (header :: rows).
Proof.
  split; [by eexists|]. split; [|split].
  - rewrite <- (str_items_returns header 0). cbn.
    destruct (MultiAgentPdf.str_items 0 header) as [items|e].
    + split; intros _; by eexists.
    + split; intros (x & H); done.
  - intros Hno. cbn.
    destruct (str_items_raises header 0 Hno) as (msg & ->). by eexists.
  - unfold MultiAgentPdf.convert_table_to_markdown.
    destruct (MultiAgentPdf.str_items 0 header) as [items|e]; [|done].
    cbv zeta. f_equal.
    match goal with |- fold_left _ _ ?md = _ => generalize md end.
    induction rows as [|r rows IH]; intros md; [done|].
    cbn [map fold_left]. rewrite IH. do 3 f_equal. rewrite map_map.
    do 2 f_equal. apply map_ext. intros cell. apply cell_or_empty_twice.
Qed.

Lemma convert_table_to_markdown_is_strict_on_the_header_only_witness :
  (exists msg,
     MultiAgentPdf.convert_table_to_markdown [ [Some "part"; None] ]
     = Raises (Exc TypeError msg))
  /\ MultiAgentPdf.convert_table_to_markdown
       [ [Some "part"; Some "points"]; [Some "a"; Some EmptyString] ]
     = MultiAgentPdf.convert_table_to_markdown
         [ [Some "part"; Some "points"]; [Some "a"; None] ].
Proof.
  destruct (convert_table_to_markdown_is_strict_on_the_header_only
              [Some "part"; None] []) as (_ & _ & Hraise & _).
  destruct (convert_table_to_markdown_is_strict_on_the_header_only
              [Some "part"; Some "points"] [ [Some "a"; None] ])
    as (_ & _ & _ & Hsame).
  split; [|exact Hsame].
  apply Hraise. intros H. apply Forall_cons in H as [_ H].
  apply Forall_cons in H as [[s Hs] _]. discriminate Hs.
Defined.

(** The characters of a text, put together again, are the text. *)
Lemma concat_chars (s : list ascii) : List.concat (Text.chars s) = s.
Proof.
  induction s as [|c s IH]; [done|].
  change (Text.chars (c :: s)) with
    (match Text.chars s with
     | (d :: g) :: rest =>
         if Text.continuation d then (c :: d :: g) :: rest
         else [c] :: Text.chars s
     | _ => [c] :: Text.chars s
     end).
  destruct (Text.chars s) as [|[|d g] rest]; cbn in *; try by rewrite IH.
  destruct (Text.continuation d); cbn; by rewrite IH.
Qed.

Lemma Forall_concat_chars (P : ascii -> Prop) (l : list (list ascii)) :
  Forall (Forall P) l -> Forall P (List.concat l).
Proof.
  induction 1 as [|g l Hg _ IH]; cbn; [constructor|by apply Forall_app].
Qed.

Lemma Forall_chars (P : ascii -> Prop) (s : list ascii) :
  Forall P s -> Forall (Forall P) (Text.chars s).
Proof.
  intros Hs. rewrite <- (concat_chars s) in Hs.
  induction (Text.chars s) as [|g l IH]; [constructor|].
  cbn in Hs. apply Forall_app in Hs as [Hg Hl]. constructor; auto.
Qed.

Lemma Forall_lstrip (p : list ascii -> bool) (Q : list ascii -> Prop)
    (s : list (list ascii)) :
  Forall Q s -> Forall Q (Text.lstrip p s).
Proof.
  induction 1 as [|ch s Hch Hs IH]; cbn; [constructor|].
  destruct (p ch); [done|by constructor].
Qed.

Lemma Forall_strip (p : list ascii -> bool) (Q : list ascii -> Prop)
    (s : list (list ascii)) :
  Forall Q s -> Forall Q (Text.strip p s).
Proof.
  intros Hs. unfold Text.strip.
  apply Forall_rev, Forall_lstrip, Forall_rev.
  by apply Forall_lstrip.
Qed.

(** Cleaning a line brings no newline into it. *)
Lemma clean_line_newline_free (line : string) :
  Forall (fun c => c <> chr 10) (list_ascii_of_string line) ->
  Forall (fun c => c <> chr 10)
    (list_ascii_of_string (MultiAgentPdf.clean_line line)).
Proof.
  intros Hline. unfold MultiAgentPdf.clean_line.
  pose proof (Forall_strip Text.isspace _ _ (Forall_chars _ _ Hline)) as Hs.
  cbv zeta.
  destruct (Text.strip Text.isspace (Text.chars (list_ascii_of_string line)))
    as [|ch s] eqn:E; [constructor|].
  destruct (MultiAgentPdf.is_marker ch).
  - rewrite list_ascii_of_string_append, list_ascii_of_string_of_list_ascii.
    apply Forall_app. split; [repeat constructor; by vm_compute|].
    apply Forall_concat_chars, Forall_strip.
    by apply Forall_lstrip.
  - rewrite list_ascii_of_string_of_list_ascii.
    by apply Forall_concat_chars.
Qed.

Lemma split_newline_free (text : string) :
  Forall (fun s => Forall (fun c => c <> chr 10) (list_ascii_of_string s))
    (Text.split (chr 10) text).
Proof.
  induction text as [|c text IH]; cbn.
  - repeat constructor.
  - case_bool_decide as Hc.
    + constructor; [constructor|done].
    + destruct (Text.split (chr 10) text) as [|h t].
      * repeat constructor. done.
      * apply Forall_cons in IH as [Hh Ht].
        constructor; [|done]. cbn. by constructor.
Qed.

Lemma split_line (x rest : string) :
  Forall (fun c => c <> chr 10) (list_ascii_of_string x) ->
  Text.split (chr 10) (x +:+ nl +:+ rest) = x :: Text.split (chr 10) rest.
Proof.
  induction x as [|c x IH]; intros Hx.
  - reflexivity.
  - cbn in Hx. apply Forall_cons in Hx as [Hc Hx].
    change (String c x +:+ nl +:+ rest) with (String c (x +:+ nl +:+ rest)).
    cbn [Text.split]. rewrite bool_decide_eq_false_2 by done.
    by rewrite IH.
Qed.

Lemma append_empty (s : string) : s +:+ EmptyString = s.
Proof.
  induction s as [|c s IH]; [done|].
  change (String c s +:+ EmptyString) with (String c (s +:+ EmptyString)).
  by rewrite IH.
Qed.

Lemma split_join_lines (l : list string) :
  l <> [] ->
  Forall (fun s => Forall (fun c => c <> chr 10) (list_ascii_of_string s)) l ->
  Text.split (chr 10) (Text.join nl l +:+ nl) = (l ++ [EmptyString])%list.
Proof.
  induction l as [|x l IH]; [done|]. intros _ Hl.
  apply Forall_cons in Hl as [Hx Hl].
  destruct l as [|y l].
  - cbn [Text.join app]. rewrite <- (append_empty (x +:+ nl)).
    rewrite string_append_assoc. by rewrite split_line.
  - change (Text.join nl (x :: y :: l))
      with (x +:+ nl +:+ Text.join nl (y :: l)).
    rewrite !string_append_assoc, split_line by done.
    rewrite IH by done. reflexivity.
Qed.

(** X21.  [clean_text_formatting] keeps the lines of a text apart: it
    cleans each line of the text on its own and ends the last one with a
    newline, so the result has the lines of the text, each cleaned, and
    one empty line after them.  No line is dropped or joined to its
    neighbour; a line of white space becomes an empty line. *)
Theorem clean_text_formatting_cleans_line_by_line (text : string) :
  Text.split (chr 10) (MultiAgentPdf.clean_text_formatting text)
  = (map MultiAgentPdf.clean_line (Text.split (chr 10) text)
     ++ [EmptyString])%list.
Proof.
  unfold MultiAgentPdf.clean_text_formatting. cbv zeta.
  apply split_join_lines.
  - destruct text as [|c text]; [done|]. cbn.
    case_bool_decide; [done|].
    by destruct (Text.split (chr 10) text).
  - apply Forall_map.
    eapply Forall_impl; [apply split_newline_free|].
    intros line. apply clean_line_newline_free.
Qed.

(** The first byte of a text begins its first character, and a byte
    that does not continue a character ends the one before it. *)
Lemma chars_cons_head (c : ascii) (s : list ascii) :
  exists g rest, Text.chars (c :: s) = (c :: g) :: rest.
Proof.
  change (Text.chars (c :: s)) with
    (match Text.chars s with
     | (d :: g) :: rest =>
         if Text.continuation d then (c :: d :: g) :: rest
         else [c] :: Text.chars s
     | _ => [c] :: Text.chars s
     end).
  destruct (Text.chars s) as [|[|d g] rest]; [by eexists _, _..|].
  destruct (Text.continuation d); by eexists _, _.
Qed.

Lemma chars_cons_plain (c d : ascii) (s : list ascii) :
  Text.continuation d = false ->
  Text.chars (c :: d :: s) = [c] :: Text.chars (d :: s).
Proof.
  intros Hd.
  change (Text.chars (c :: d :: s)) with
    (match Text.chars (d :: s) with
     | (d' :: g) :: rest =>
         if Text.continuation d' then (c :: d' :: g) :: rest
         else [c] :: Text.chars (d :: s)
     | _ => [c] :: Text.chars (d :: s)
     end).
  destruct (chars_cons_head d s) as (g & rest & ->). by rewrite Hd.
Qed.

(** Stripping keeps a character that is not stripped. *)
Lemma Exists_lstrip (p : list ascii -> bool) (Q : list ascii -> Prop)
    (s : list (list ascii)) :
  (forall ch, Q ch -> p ch = false) ->
  Exists Q s -> Exists Q (Text.lstrip p s).
Proof.
  intros HQ. induction 1 as [ch s Hch|ch s Hs IH]; cbn.
  - rewrite (HQ ch Hch). by constructor.
  - destruct (p ch); [done|by apply Exists_cons_tl].
Qed.

Lemma Exists_strip (p : list ascii -> bool) (Q : list ascii -> Prop)
    (s : list (list ascii)) :
  (forall ch, Q ch -> p ch = false) ->
  Exists Q s -> Exists Q (Text.strip p s).
Proof.
  intros HQ Hs. unfold Text.strip.
  apply Exists_rev, Exists_lstrip; [done|].
  apply Exists_rev. by apply Exists_lstrip.
Qed.

Lemma strip_page_header (rest : string) :
  truthy (strip (nl +:+ nl +:+ "## Page 1" +:+ nl +:+ rest)) = true.
Proof.
  unfold strip, characters.
  change (list_ascii_of_string (nl +:+ nl +:+ "## Page 1" +:+ nl +:+ rest))
    with (chr 10 :: chr 10 :: "#"%char :: "#"%char
          :: list_ascii_of_string (" Page 1" +:+ nl +:+ rest)).
  rewrite !chars_cons_plain by reflexivity.
  match goal with |- context [Text.strip _ ?l] =>
    assert (H : Exists (fun ch => ch = ["#"%char])
                  (Text.strip Text.isspace l)) end.
  { apply Exists_strip; [by intros ch ->|].
    do 2 apply Exists_cons_tl. by apply Exists_cons_hd. }
  apply Exists_exists in H as (ch & Hin & ->).
  apply list_elem_of_split in Hin as (l1 & l2 & ->).
  unfold text_of. rewrite concat_app.
  destruct (List.concat l1); reflexivity.
Qed.

Lemma tables_loop_extends (tables : list Table) (out r : string) :
  MultiAgentPdf.tables_loop tables out = Returns r ->
  exists rest, r = out +:+ rest.
Proof.
  revert out. induction tables as [|tbl tables IH]; intros out; cbn.
  - intros [= <-]. exists EmptyString. by rewrite append_empty.
  - destruct (MultiAgentPdf.convert_table_to_markdown tbl) as [md|e];
      [|done].
    intros H. apply IH in H as (rest & ->).
    exists (nl +:+ md +:+ rest). by rewrite !string_append_assoc.
Qed.

Lemma pages_loop_extends (pages : list Page) (i : nat) (out r : string) :
  MultiAgentPdf.pages_loop i pages out = Returns r ->
  exists rest, r = out +:+ rest.
Proof.
  revert i out. induction pages as [|page pages IH]; intros i out; cbn.
  - intros [= <-]. exists EmptyString. by rewrite append_empty.
  - destruct (MultiAgentPdf.tables_loop _ _) as [out'|e] eqn:Ht; [|done].
    apply tables_loop_extends in Ht as (rest1 & ->).
    intros H. apply IH in H as (rest2 & ->).
    eexists. rewrite !string_append_assoc. reflexivity.
Qed.

Lemma extract_pdf_to_markdown_reads_only (pdf : Pdfplumber)
    (pdf_path : string) (w : World) :
  snd (MultiAgentPdf.extract_pdf_to_markdown pdf pdf_path w) = w.
Proof.
  unfold MultiAgentPdf.extract_pdf_to_markdown, pdfplumber_open, bind,
    open_read, lift.
  destruct (files w !! pdf_path) as [data|]; [|done].
  by destruct (pdf data).
Qed.

Lemma extract_pdf_to_markdown_pages (pdf : Pdfplumber) (pdf_path : string)
    (w : World) (data : string) (pages : list Page) :
  files w !! pdf_path = Some data ->
  pdf data = Returns pages ->
  MultiAgentPdf.extract_pdf_to_markdown pdf pdf_path w
  = (MultiAgentPdf.pages_loop 1 pages EmptyString, w).
Proof.
  intros Hfile Hpdf.
  unfold MultiAgentPdf.extract_pdf_to_markdown, pdfplumber_open, bind,
    open_read, lift.
  by rewrite Hfile, Hpdf.
Qed.

Lemma first_page_header (page : Page) (pages : list Page) (out : string) :
  MultiAgentPdf.pages_loop 1 (page :: pages) EmptyString = Returns out ->
  exists rest, out = nl +:+ nl +:+ "## Page 1" +:+ nl +:+ rest.
Proof.
  cbn [MultiAgentPdf.pages_loop].
  destruct (MultiAgentPdf.tables_loop _ _) as [out'|e] eqn:Ht; [|done].
  apply tables_loop_extends in Ht as (rest1 & ->).
  intros H. apply pages_loop_extends in H as (rest2 & ->).
  eexists.
  change (Text.str_of_nat 1) with "1".
  change (EmptyString +:+ ?s) with s.
  rewrite !string_append_assoc. reflexivity.
Qed.

(** X22.  [extract_pdf_to_markdown] only reads: the world is as before,
    whatever happens.  A PDF without pages gives the empty string.  A
    PDF with a page gives, if anything, a text that begins with the
    header of page 1, so the text is never blank, not even when no page
    holds text or a table. *)
Theorem extract_pdf_to_markdown_is_blank_only_without_pages
    (pdf : Pdfplumber) (pdf_path : string) (w : World) (data : string) :
  files w !! pdf_path = Some data ->
  let run := MultiAgentPdf.extract_pdf_to_markdown pdf pdf_path w in
  snd run = w
  /\ (pdf data = Returns [] -> fst run = Returns EmptyString)
  /\ (forall page pages out,
        pdf data = Returns (page :: pages) ->
        fst run = Returns out ->
        (exists rest, out = nl +:+ nl +:+ "## Page 1" +:+ nl +:+ rest)
        /\ truthy (strip out) = true).
Proof.
  intros Hfile. cbv zeta. split; [apply extract_pdf_to_markdown_reads_only|].
  split.
  - intros Hpdf. by rewrite (extract_pdf_to_markdown_pages _ _ _ _ _ Hfile Hpdf).
  - intros page pages out Hpdf.
    rewrite (extract_pdf_to_markdown_pages _ _ _ _ _ Hfile Hpdf). cbn [fst].
    intros Hout. destruct (first_page_header _ _ _ Hout) as (rest & ->).
    split; [by eexists|apply strip_page_header].
Qed.

Lemma extract_pdf_to_markdown_is_blank_only_without_pages_witness :
  truthy (strip (nl +:+ nl +:+ "## Page 1" +:+ nl +:+ nl)) = true
  /\ fst (MultiAgentPdf.extract_pdf_to_markdown Stub2.pdf "/tmp/rubric.pdf"
            Stub2.uploads)
     = Returns (nl +:+ nl +:+ "## Page 1" +:+ nl +:+ nl).
Proof.
  destruct (extract_pdf_to_markdown_is_blank_only_without_pages Stub2.pdf
              "/tmp/rubric.pdf" Stub2.uploads "%PDF rubric")
    as (_ & _ & Hpage).
  - vm_compute. reflexivity.
  - destruct (Hpage Stub2.blank_page [] (nl +:+ nl +:+ "## Page 1" +:+ nl +:+ nl))
      as (_ & Hstrip).
    + reflexivity.
    + vm_compute. reflexivity.
    + split; [exact Hstrip|vm_compute; reflexivity].
Defined.

(** ** The handlers of the user interface *)

Lemma extract_pdf_to_markdown_run (pdf : Pdfplumber) (pdf_path : string)
    (w : World) :
  MultiAgentPdf.extract_pdf_to_markdown pdf pdf_path w
  = (fst (MultiAgentPdf.extract_pdf_to_markdown pdf pdf_path w), w).
Proof.
  rewrite <- (extract_pdf_to_markdown_reads_only pdf pdf_path w) at 3.
  apply surjective_pairing.
Qed.

Lemma extract_text_from_file_run (pdf : Pdfplumber) (file_obj : string)
    (w : World) :
  GradioUI.extract_text_from_file pdf file_obj w
  = (fst (GradioUI.extract_text_from_file pdf file_obj w), w).
Proof.
  unfold GradioUI.extract_text_from_file.
  destruct (Text.endswith file_obj ".pdf");
    [apply extract_pdf_to_markdown_run|].
  destruct (Text.endswith file_obj ".txt" || Text.endswith file_obj ".md");
    [|reflexivity].
  unfold bind, open_read, lift.
  destruct (files w !! file_obj) as [data|]; [|reflexivity].
  by destruct (decode_utf8 data).
Qed.

(** The rubric text [handle_exam] hands to the grader. *)
Lemma rubric_run (pdf : Pdfplumber) (rubric_path : option string)
    (w : World) :
  match rubric_path with
  | Some path => MultiAgentPdf.extract_pdf_to_markdown pdf path
  | None => ret EmptyString
  end w
  = (fst (match rubric_path with
          | Some path => MultiAgentPdf.extract_pdf_to_markdown pdf path
          | None => ret EmptyString
          end w), w).
Proof.
  destruct rubric_path; [apply extract_pdf_to_markdown_run|reflexivity].
Qed.

(** Once the three uploads are read, [handle_exam] is the grader followed
    by the two writes. *)
Lemma handle_exam_after_the_uploads (loads : Decoder)
    (printer : GradioUI.Printer) (pdf : Pdfplumber) (chat : ChatOracle)
    (pdf_path : string) (rubric_path : option string)
    (student_response_file exam_type : string) (w : World)
    (questions_md rubric_md student_response_md : string) :
  fst (MultiAgentPdf.extract_pdf_to_markdown pdf pdf_path w)
  = Returns questions_md ->
  fst (match rubric_path with
       | Some path => MultiAgentPdf.extract_pdf_to_markdown pdf path
       | None => ret EmptyString
       end w) = Returns rubric_md ->
  fst (GradioUI.extract_text_from_file pdf student_response_file w)
  = Returns student_response_md ->
  GradioUI.handle_exam loads printer pdf chat pdf_path rubric_path
    student_response_file exam_type w
  = (result <- MultiAgent.grade_exam loads chat rubric_md questions_md
                 student_response_md exam_type ;;
     open_write ((exam_type +:+ "_grade_output") +:+ ".json")
       (GradioUI.dumps printer result) ;;;
     GradioUI.json_to_pdf printer result ((exam_type +:+ "_grade_output") +:+ ".pdf") ;;;
     ret (GradioUI.dumps printer result,
          (exam_type +:+ "_grade_output") +:+ ".json",
          (exam_type +:+ "_grade_output") +:+ ".pdf")) w.
Proof.
  intros Hq Hr Hs. unfold GradioUI.handle_exam.
  erewrite bind_returns
    by (rewrite extract_pdf_to_markdown_run, Hq; reflexivity).
  erewrite bind_returns by (rewrite rubric_run, Hr; reflexivity).
  erewrite bind_returns
    by (rewrite extract_text_from_file_run, Hs; reflexivity).
  reflexivity.
Qed.

(** X23.  The choice "technical" of the user interface cannot give an
    evaluation: whatever is uploaded and whatever the chat model would
    answer, [handle_exam] with [exam_type] ["technical"] raises, and the
    world is as before: no request was sent and no file written. *)
Theorem handle_exam_cannot_grade_a_technical_exam
    (loads : Decoder) (printer : GradioUI.Printer)
    (pdf : Pdfplumber) (chat : ChatOracle) (pdf_path : string)
    (rubric_path : option string) (student_response_file : string)
    (w : World) :
  exists e,
    GradioUI.handle_exam loads printer pdf chat pdf_path rubric_path
      student_response_file "technical" w
    = (Raises e, w).
Proof.
  destruct (fst (MultiAgentPdf.extract_pdf_to_markdown pdf pdf_path w))
    as [q|e] eqn:Hq.
  2:{ exists e. unfold GradioUI.handle_exam. apply bind_raises.
      by rewrite extract_pdf_to_markdown_run, Hq. }
  destruct (fst (match rubric_path with
                 | Some path => MultiAgentPdf.extract_pdf_to_markdown pdf path
                 | None => ret EmptyString
                 end w)) as [r|e] eqn:Hr.
  2:{ exists e. unfold GradioUI.handle_exam.
      erewrite bind_returns
        by (rewrite extract_pdf_to_markdown_run, Hq; reflexivity).
      apply bind_raises. by rewrite rubric_run, Hr. }
  destruct (fst (GradioUI.extract_text_from_file pdf student_response_file w))
    as [s|e] eqn:Hs.
  2:{ exists e. unfold GradioUI.handle_exam.
      erewrite bind_returns
        by (rewrite extract_pdf_to_markdown_run, Hq; reflexivity).
      erewrite bind_returns by (rewrite rubric_run, Hr; reflexivity).
      apply bind_raises. by rewrite extract_text_from_file_run, Hs. }
  eexists.
  rewrite (handle_exam_after_the_uploads _ _ _ _ _ _ _ _ _ q r s) by done.
  apply bind_raises. unfold MultiAgent.grade_exam.
  apply bind_raises. unfold lift. by rewrite technical_branch_raises.
Qed.



Lemma bind_returns_inv {A B : Type} (m : M A) (k : A -> M B) (w w' : World)
    (b : B) :
  bind m k w = (Returns b, w') ->
  exists a w1, m w = (Returns a, w1) /\ k a w1 = (Returns b, w').
Proof.
  unfold bind. destruct (m w) as [[a|e] w1]; [eauto|done].
Qed.

Lemma open_write_returns_inv (path text : string) (w w' : World) (u : unit) :
  open_write path text w = (Returns u, w') ->
  w' = set_files (<[path := text]> (files w)) w.
Proof.
  unfold open_write. destruct (decide _); [done|]. by intros [= _ <-].
Qed.

Lemma append_cancel (a b c : string) : a +:+ b = a +:+ c -> b = c.
Proof.
  induction a as [|x a IH]; [done|].
  change (String x a +:+ b) with (String x (a +:+ b)).
  change (String x a +:+ c) with (String x (a +:+ c)).
  intros [= H]. by apply IH.
Qed.

(** X25.  When [handle_exam] returns, the text it shows is what it wrote
    to the JSON file, and the PDF file holds what FPDF made of that
    text.  The two files are named after the exam type alone, so every
    exam of one type is written over the one before. *)
Theorem handle_exam_returns_the_text_of_its_json_file
    (loads : Decoder) (printer : GradioUI.Printer)
    (pdf : Pdfplumber) (chat : ChatOracle) (pdf_path : string)
    (rubric_path : option string) (student_response_file exam_type : string)
    (w w' : World) (text json_path out_pdf : string) :
  GradioUI.handle_exam loads printer pdf chat pdf_path rubric_path
    student_response_file exam_type w
  = (Returns (text, json_path, out_pdf), w') ->
  json_path = (exam_type +:+ "_grade_output") +:+ ".json"
  /\ out_pdf = (exam_type +:+ "_grade_output") +:+ ".pdf"
  /\ files w' !! json_path = Some text
  /\ exists document,
       GradioUI.fpdf printer text = Returns document
       /\ files w' !! out_pdf = Some document.
Proof.
  intros Hrun. unfold GradioUI.handle_exam in Hrun.
  apply bind_returns_inv in Hrun as (q & w1 & _ & Hrun).
  apply bind_returns_inv in Hrun as (r & w2 & _ & Hrun).
  apply bind_returns_inv in Hrun as (s & w3 & _ & Hrun).
  apply bind_returns_inv in Hrun as (result & w4 & _ & Hrun).
  cbv zeta in Hrun.
  apply bind_returns_inv in Hrun as (u & w5 & Hjson & Hrun).
  apply open_write_returns_inv in Hjson as ->.
  apply bind_returns_inv in Hrun as (u' & w6 & Hpdf & Hrun).
  unfold GradioUI.json_to_pdf in Hpdf.
  apply bind_returns_inv in Hpdf as (document & w7 & Hdoc & Hpdf).
  unfold lift in Hdoc.
  apply open_write_returns_inv in Hpdf as ->.
  injection Hdoc as Hdoc <-. injection Hrun as <- <- <- <-.
  split; [done|]. split; [done|]. cbn [files set_files]. split.
  - rewrite lookup_insert_ne; [by rewrite lookup_insert_eq|].
    intros H. apply append_cancel in H. discriminate H.
  - exists document. split; [done|]. by rewrite lookup_insert_eq.
Qed.

Lemma handle_exam_returns_the_text_of_its_json_file_witness :
  let run := GradioUI.handle_exam Json.loads Stub2.printer Stub2.pdf
               (Stub.answers (Stub.q "well done")) "/tmp/exam.pdf" None
               "/tmp/answers.txt" "narrative" Stub2.uploads in
  fst run = Returns (Stub.q "well done", "narrative_grade_output.json",
                     "narrative_grade_output.pdf")
  /\ files (snd run) !! "narrative_grade_output.json"
     = Some (Stub.q "well done").
Proof.
  cbv zeta. split; [vm_compute; reflexivity|].
  eapply (handle_exam_returns_the_text_of_its_json_file Json.loads
            Stub2.printer Stub2.pdf (Stub.answers (Stub.q "well done"))
            "/tmp/exam.pdf" None "/tmp/answers.txt" "narrative"
            Stub2.uploads _ (Stub.q "well done")
            "narrative_grade_output.json" "narrative_grade_output.pdf").
  vm_compute. reflexivity.
Defined.



(** The world the multi agent's [grade_exam] leaves is the one its
    [call_with_backoff] leaves. *)
Lemma multi_grade_exam_world (loads : Decoder)
    (chat : ChatOracle) (rubric questions responses exam_type : string)
    (system_prompt user_prompt : string) (w : World) :
  MultiAgent.build_prompts rubric questions responses exam_type
  = Returns (system_prompt, user_prompt) ->
  snd (MultiAgent.grade_exam loads chat rubric questions responses
         exam_type w)
  = snd (MultiAgent.call_with_backoff chat
           {| req_model := "gpt-4-0613";
              req_system := system_prompt;
              req_user := user_prompt;
              req_temperature := 0;
              req_seed := Some 42;
              req_functions := [];
              req_function_call := None |} w).
Proof.
  intros Hp. unfold MultiAgent.grade_exam.
  erewrite bind_returns by (unfold lift; rewrite Hp; reflexivity).
  cbv beta iota. unfold bind.
  destruct (MultiAgent.call_with_backoff chat _ w) as [[resp|e] w1];
    [|done].
  cbn [snd]. unfold first_message.
  destruct resp as [resp|]; [|done].
  destruct (choices resp) as [|m rest]; [done|].
  cbn [ret]. unfold try_except, json_loads, lift.
  destruct (content m) as [raw|]; [|done].
  destruct (loads raw) as [j|e]; [done|].
  cbn [dispatch]. by destruct (matches e [JSONDecodeError]).
Qed.

(** The two writes of [handle_exam] send no request. *)
Lemma writes_keep_the_chat_log {A : Type} (printer : GradioUI.Printer)
    (result : json) (json_path out_pdf : string) (a : A) (w : World) :
  chat_log
    (snd ((open_write json_path (GradioUI.dumps printer result) ;;;
           GradioUI.json_to_pdf printer result out_pdf ;;;
           ret a) w))
  = chat_log w.
Proof.
  unfold bind, open_write, GradioUI.json_to_pdf, bind, lift, open_write, ret.
  destruct (decide _); [done|].
  destruct (GradioUI.fpdf printer _); [|done].
  cbn [unwritable set_files]. by destruct (decide _).
Qed.

(** X27.  A rubric PDF with at least one page always counts as a rubric,
    even when none of its pages holds any text: its markdown begins with
    a page header and so is not blank.  For an [exam_type] other than
    ["technical"], the request [handle_exam] then sends carries the
    prompt for grading with a rubric and the rubric's markdown, and one
    request is sent. *)
Theorem handle_exam_takes_a_rubric_pdf_with_a_page_for_a_rubric
    (loads : Decoder) (printer : GradioUI.Printer)
    (pdf : Pdfplumber) (chat : ChatOracle)
    (pdf_path rubric_path student_response_file exam_type : string)
    (w : World) (questions_md rubric_md student_response_md data : string)
    (page : Page) (pages : list Page) :
  exam_type <> "technical" ->
  fst (MultiAgentPdf.extract_pdf_to_markdown pdf pdf_path w)
  = Returns questions_md ->
  files w !! rubric_path = Some data ->
  pdf data = Returns (page :: pages) ->
  fst (MultiAgentPdf.extract_pdf_to_markdown pdf rubric_path w)
  = Returns rubric_md ->
  fst (GradioUI.extract_text_from_file pdf student_response_file w)
  = Returns student_response_md ->
  exists n : nat,
    n = 1%nat
    /\ chat_log
         (snd (GradioUI.handle_exam loads printer pdf chat pdf_path
                 (Some rubric_path) student_response_file exam_type w))
       = (chat_log w
          ++ repeat
               {| req_model := "gpt-4-0613";
                  req_system := MultiAgent.NARRATIVE_PROMPT_WITH_RUBRIC;
                  req_user :=
                    "Rubric:" +:+ nl +:+ rubric_md +:+ nl +:+ nl +:+
                    "Questions:" +:+ nl +:+ questions_md +:+ nl +:+ nl +:+
                    "Student Responses:" +:+ nl +:+ student_response_md;
                  req_temperature := 0;
                  req_seed := Some 42;
                  req_functions := [];
                  req_function_call := None |} n)%list.
Proof.
  intros Hne Hq Hfile Hpdf Hr Hs.
  assert (Hrubric : truthy (strip rubric_md) = true).
  { rewrite (extract_pdf_to_markdown_pages _ _ _ _ _ Hfile Hpdf) in Hr.
    cbn [fst] in Hr.
    destruct (first_page_header _ _ _ Hr) as (rest & ->).
    apply strip_page_header. }
  assert (Hp : MultiAgent.build_prompts rubric_md questions_md
                 student_response_md exam_type
               = Returns (MultiAgent.NARRATIVE_PROMPT_WITH_RUBRIC,
                          "Rubric:" +:+ nl +:+ rubric_md +:+ nl +:+ nl +:+
                          "Questions:" +:+ nl +:+ questions_md +:+ nl +:+ nl
                          +:+ "Student Responses:" +:+ nl
                          +:+ student_response_md)).
  { unfold MultiAgent.build_prompts.
    destruct (decide (exam_type = "technical")); [done|].
    by rewrite Hrubric. }
  rewrite (handle_exam_after_the_uploads _ _ _ _ _ (Some rubric_path) _ _ _
             questions_md rubric_md student_response_md) by done.
  pose proof (multi_grade_exam_world loads chat _ _ _ _ _ _ w Hp) as Hworld.
  rewrite multi_call_run in Hworld. cbn [snd] in Hworld.
  exists 1%nat. split; [done|]. cbn [repeat].
  change (chat_log w ++ ?l)%list
    with (chat_log (set_chat_log (chat_log w ++ l)%list w)).
  rewrite <- Hworld. unfold bind at 1.
  destruct (MultiAgent.grade_exam loads chat rubric_md questions_md
              student_response_md exam_type w) as [[result|e] w1]; [|done].
  cbn [snd]. apply writes_keep_the_chat_log.
Qed.

Lemma handle_exam_takes_a_rubric_pdf_with_a_page_for_a_rubric_witness :
  exists n : nat,
    n = 1%nat
    /\ map req_system
         (chat_log
            (snd (GradioUI.handle_exam Json.loads Stub2.printer Stub2.pdf
                    (Stub.answers (Stub.q "well done")) "/tmp/exam.pdf"
                    (Some "/tmp/rubric.pdf") "/tmp/answers.txt" "narrative"
                    Stub2.uploads)))
       = repeat MultiAgent.NARRATIVE_PROMPT_WITH_RUBRIC n.
Proof.
  destruct (handle_exam_takes_a_rubric_pdf_with_a_page_for_a_rubric
              Json.loads Stub2.printer Stub2.pdf
              (Stub.answers (Stub.q "well done")) "/tmp/exam.pdf"
              "/tmp/rubric.pdf" "/tmp/answers.txt" "narrative" Stub2.uploads
              (nl +:+ nl +:+ "## Page 1" +:+ nl +:+ "Question 1" +:+ nl
               +:+ "- explain" +:+ nl +:+ nl +:+ "| part | points |"
               +:+ nl +:+ "| -- | -- |" +:+ nl +:+ "| a |  |" +:+ nl)
              (nl +:+ nl +:+ "## Page 1" +:+ nl +:+ nl)
              "Because." "%PDF rubric" Stub2.blank_page [])
    as (n & Hn & Hlog).
  - discriminate.
  - vm_compute. reflexivity.
  - vm_compute. reflexivity.
  - reflexivity.
  - vm_compute. reflexivity.
  - vm_compute. reflexivity.
  - exists n. split; [exact Hn|]. rewrite Hlog.
    change (chat_log Stub2.uploads) with (@nil ChatRequest).
    cbn [app]. clear Hlog Hn. induction n as [|n IH]; [reflexivity|].
    cbn [repeat map]. by rewrite IH.
Defined.

Lemma matches_openai_error (e : exception) :
  matches e [OpenAIError] = is_openai_error (exc_type e).
Proof. destruct e as [[] msg]; reflexivity. Qed.

(** [handle_vc_pitch] once the audio is analysed: the one request and
    what is done with its outcome. *)
Lemma handle_vc_pitch_after_the_analysis (loads : Decoder)
    (printer : GradioUI.Printer) (fmt : GradioUI.FloatFormat)
    (chat : ChatOracle) (cwd : string) (whisper : WhisperOracle)
    (librosa : Librosa) (audio_file : string) (w w1 : World)
    (m : MultiAgent.AudioMetrics) :
  MultiAgent.analyze_audio cwd whisper librosa audio_file w
  = (Returns m, w1) ->
  exists req,
    req_system req = "You are a helpful pitch grader."
    /\ GradioUI.handle_vc_pitch loads printer fmt chat cwd whisper librosa
         audio_file w
       = try_except
           (response <- chat_create chat req ;;
            msg <- first_message (Some response) ;;
            try_except
              (json_result <- json_loads loads (content msg) ;;
               open_write "vc_pitch_grade_output.json"
                 (GradioUI.dumps printer json_result) ;;;
               GradioUI.json_to_pdf printer json_result
                 "vc_pitch_grade_output.pdf" ;;;
               ret (content msg, Some "vc_pitch_grade_output.json",
                    Some "vc_pitch_grade_output.pdf"))
              [ ([JSONDecodeError], fun _ => ret (content msg, None, None)) ])
           [ ([OpenAIError],
              fun e => ret (Some ("Error: " +:+ exc_arg e), None, None)) ]
           w1.
Proof.
  intros Hm. eexists. split; [|unfold GradioUI.handle_vc_pitch].
  2:{ erewrite bind_returns by exact Hm.
      erewrite bind_returns by (apply truediv_defined; discriminate).
      reflexivity. }
  reflexivity.
Qed.

(** X28.  [handle_vc_pitch] sends its request once and never retries.
    An [OpenAIError] of that request is not raised but returned as the
    text "Error: ..." with no files; any other exception of the request
    is raised.  Either way one request was sent, nothing was waited for
    and no file was written.  What [analyze_audio] raises, before the
    [try], is raised as it is, an [OpenAIError] of the transcription
    included. *)
Theorem handle_vc_pitch_reports_only_the_errors_of_its_request
    (loads : Decoder) (printer : GradioUI.Printer)
    (fmt : GradioUI.FloatFormat) (chat : ChatOracle) (cwd : string)
    (whisper : WhisperOracle) (librosa : Librosa) (audio_file : string)
    (w w1 : World) (e : exception) :
  (MultiAgent.analyze_audio cwd whisper librosa audio_file w
   = (Raises e, w1) ->
   GradioUI.handle_vc_pitch loads printer fmt chat cwd whisper librosa
     audio_file w = (Raises e, w1))
  /\ (forall m,
        MultiAgent.analyze_audio cwd whisper librosa audio_file w
        = (Returns m, w1) ->
        (forall req, chat (List.length (chat_log w1)) req = Raises e) ->
        let run := GradioUI.handle_vc_pitch loads printer fmt chat cwd
                     whisper librosa audio_file w in
        fst run = (if is_openai_error (exc_type e)
                   then Returns (Some ("Error: " +:+ exc_arg e), None, None)
                   else Raises e)
        /\ invocations w1 (snd run) = 1%nat
        /\ sleeps (snd run) = sleeps w1
        /\ files (snd run) = files w1).
Proof.
  split.
  - intros Hm. unfold GradioUI.handle_vc_pitch. by apply bind_raises.
  - intros m Hm Hchat. cbv zeta.
    destruct (handle_vc_pitch_after_the_analysis loads printer fmt chat cwd
                whisper librosa audio_file w w1 m Hm) as (req & _ & ->).
    match goal with |- context [try_except ?b ?c w1] =>
      assert (Hrun : try_except b c w1
                     = (if is_openai_error (exc_type e)
                        then Returns (Some ("Error: " +:+ exc_arg e), None,
                                      None)
                        else Raises e,
                        set_chat_log (chat_log w1 ++ [req])%list w1))
    end.
    { unfold try_except at 1. unfold bind at 1. unfold chat_create at 1.
      rewrite Hchat. cbn [dispatch]. rewrite matches_openai_error.
      by destruct (is_openai_error (exc_type e)). }
    rewrite Hrun. unfold invocations.
    cbn [fst snd chat_log set_chat_log sleeps files].
    rewrite length_app. cbn [List.length]. repeat split. lia.
Qed.

Lemma handle_vc_pitch_reports_only_the_errors_of_its_request_witness :
  fst (GradioUI.handle_vc_pitch Json.loads Stub2.printer Stub2.fmt
         (Stub.always_fails Stub.rate_limited) "/work" Stub.whisper
         Stub.one_millisecond "/in/pitch.mp3" Stub.disk)
  = Returns (Some "Error: 429", None, None).
Proof.
  destruct (handle_vc_pitch_reports_only_the_errors_of_its_request
              Json.loads Stub2.printer Stub2.fmt
              (Stub.always_fails Stub.rate_limited) "/work" Stub.whisper
              Stub.one_millisecond "/in/pitch.mp3" Stub.disk
              (snd (MultiAgent.analyze_audio "/work" Stub.whisper
                      Stub.one_millisecond "/in/pitch.mp3" Stub.disk))
              Stub.rate_limited) as [_ Hchat].
  eapply Hchat.
  - vm_compute. reflexivity.
  - reflexivity.
Defined.

(** X29.  [handle_vc_pitch] returns the text of the completion as it
    came, not the text it files.  When the text is not JSON
    ([json.loads] raises [JSONDecodeError]), it is returned with no
    files and nothing is written.  When it decodes to
    [j] and both files can be written, the JSON file holds [dumps j],
    the PDF file what FPDF made of [dumps j], and the text returned is
    still the completion's own. *)
Theorem handle_vc_pitch_returns_the_completion_as_it_came
    (loads : Decoder) (printer : GradioUI.Printer)
    (fmt : GradioUI.FloatFormat) (chat : ChatOracle) (cwd : string)
    (whisper : WhisperOracle) (librosa : Librosa) (audio_file : string)
    (w w1 : World) (m : MultiAgent.AudioMetrics) (resp : ChatResponse)
    (raw : string) :
  MultiAgent.analyze_audio cwd whisper librosa audio_file w
  = (Returns m, w1) ->
  (forall req, chat (List.length (chat_log w1)) req = Returns resp) ->
  first_content resp = Some raw ->
  let run := GradioUI.handle_vc_pitch loads printer fmt chat cwd whisper
               librosa audio_file w in
  (forall e,
     loads raw = Raises e -> exc_type e = JSONDecodeError ->
     fst run = Returns (Some raw, None, None)
     /\ files (snd run) = files w1)
  /\ (forall j document,
        loads raw = Returns j ->
        "vc_pitch_grade_output.json" ∉ unwritable w1 ->
        "vc_pitch_grade_output.pdf" ∉ unwritable w1 ->
        GradioUI.fpdf printer (GradioUI.dumps printer j) = Returns document ->
        fst run = Returns (Some raw, Some "vc_pitch_grade_output.json",
                           Some "vc_pitch_grade_output.pdf")
        /\ files (snd run)
           = <["vc_pitch_grade_output.pdf" := document]>
               (<["vc_pitch_grade_output.json" := GradioUI.dumps printer j]>
                  (files w1))).
Proof.
  intros Hm Hchat Hraw. cbv zeta.
  destruct (handle_vc_pitch_after_the_analysis loads printer fmt chat cwd
              whisper librosa audio_file w w1 m Hm) as (req & _ & ->).
  unfold first_content in Hraw.
  destruct (choices resp) as [|msg rest] eqn:Hchoices; [done|].
  split.
  - intros e Hnone Hclass.
    match goal with |- context [try_except ?b ?c w1] =>
      assert (Hrun : try_except b c w1
                     = (Returns (Some raw, None, None),
                        set_chat_log (chat_log w1 ++ [req])%list w1))
    end.
    { unfold try_except at 1. unfold bind at 1. unfold chat_create at 1.
      rewrite Hchat. unfold first_message. rewrite Hchoices.
      unfold bind at 1. cbn [ret]. rewrite Hraw.
      unfold try_except, json_loads, bind, lift. rewrite Hnone.
      cbn [dispatch]. unfold matches. cbn [existsb]. rewrite Hclass.
      reflexivity. }
    by rewrite Hrun.
  - intros j document Hj Hjson Hpdf Hdoc.
    match goal with |- context [try_except ?b ?c w1] =>
      assert (Hrun : try_except b c w1
                     = (Returns (Some raw, Some "vc_pitch_grade_output.json",
                                 Some "vc_pitch_grade_output.pdf"),
                        set_files
                          (<["vc_pitch_grade_output.pdf" := document]>
                             (<["vc_pitch_grade_output.json"
                                := GradioUI.dumps printer j]> (files w1)))
                          (set_chat_log (chat_log w1 ++ [req])%list w1)))
    end.
    { unfold try_except at 1. unfold bind at 1. unfold chat_create at 1.
      rewrite Hchat. unfold first_message. rewrite Hchoices.
      unfold bind at 1. cbn [ret]. rewrite Hraw.
      unfold try_except, json_loads, lift. unfold bind at 1. rewrite Hj.
      cbn [ret].
      unfold bind, ret, open_write, GradioUI.json_to_pdf, bind, lift,
        open_write.
      cbn [unwritable set_chat_log].
      destruct (decide _); [done|]. rewrite Hdoc.
      cbn [unwritable set_files set_chat_log files].
      by destruct (decide _). }
    by rewrite Hrun.
Qed.

Lemma handle_vc_pitch_returns_the_completion_as_it_came_witness :
  fst (GradioUI.handle_vc_pitch Json.loads Stub2.printer Stub2.fmt
         (Stub.answers "Problem: 7") "/work" Stub.whisper
         Stub.one_millisecond "/in/pitch.mp3" Stub.disk)
  = Returns (Some "Problem: 7", None, None).
Proof.
  destruct (MultiAgent.analyze_audio "/work" Stub.whisper
              Stub.one_millisecond "/in/pitch.mp3" Stub.disk)
    as [[m|e] w1] eqn:Hm; [|vm_compute in Hm; discriminate Hm].
  destruct (handle_vc_pitch_returns_the_completion_as_it_came
              Json.loads Stub2.printer Stub2.fmt
              (Stub.answers "Problem: 7") "/work" Stub.whisper
              Stub.one_millisecond "/in/pitch.mp3" Stub.disk w1 m
              (Stub.answer "Problem: 7") "Problem: 7") as [Hnone _].
  - exact Hm.
  - reflexivity.
  - reflexivity.
  - apply (Hnone (Exc JSONDecodeError "Problem: 7")).
    + vm_compute. reflexivity.
    + reflexivity.
Defined.

(** ** The audio tool of the Agents SDK file *)

Lemma openai_is_not_a_global :
  AgentsSDKTools.global_name "openai"
  = raise (Exc AgentsSDKTools.NameError "name 'openai' is not defined").
Proof. reflexivity. Qed.

Lemma agents_sdk_transcribe_raises (whisper : WhisperOracle)
    (mp3_path : string) (w : World) :
  AgentsSDKTools.transcribe whisper mp3_path w
  = (Raises (match files w !! mp3_path with
             | Some _ =>
                 Exc AgentsSDKTools.NameError "name 'openai' is not defined"
             | None => Exc FileNotFoundError mp3_path
             end), w).
Proof.
  unfold AgentsSDKTools.transcribe, bind, open_read.
  rewrite openai_is_not_a_global.
  by destruct (files w !! mp3_path).
Qed.

(** X30.  In the Agents SDK file [transcribe] reads the name [openai],
    which the module never imports, so it raises [NameError] as soon as
    the recording is open, and [analyze_audio], which calls it, never
    returns metrics: for every recording it raises, without a request to
    the transcription service and with the world as before.  When
    librosa loads the recording and the file is there, the exception is
    that [NameError]. *)
Theorem agents_sdk_analyze_audio_never_returns (whisper : WhisperOracle)
    (librosa : Librosa) (mp3_path : string) (w : World) :
  exists e,
    AgentsSDKTools.analyze_audio whisper librosa mp3_path w = (Raises e, w)
    /\ (forall y data,
          librosa_load librosa mp3_path = Returns y ->
          files w !! mp3_path = Some data ->
          e = Exc AgentsSDKTools.NameError "name 'openai' is not defined").
Proof.
  unfold AgentsSDKTools.analyze_audio.
  destruct (librosa_load librosa mp3_path) as [y|e] eqn:Hload.
  - eexists. split.
    + erewrite bind_returns by reflexivity.
      erewrite bind_returns by (apply truediv_defined; discriminate).
      apply bind_raises, agents_sdk_transcribe_raises.
    + intros y' data _ Hfile. by rewrite Hfile.
  - exists e. split; [by apply bind_raises|]. intros y data Hy. discriminate Hy.
Qed.

Lemma agents_sdk_analyze_audio_never_returns_witness :
  AgentsSDKTools.analyze_audio Stub.whisper Stub.one_millisecond
    "/in/pitch.mp3" Stub.disk
  = (Raises (Exc AgentsSDKTools.NameError "name 'openai' is not defined"),
     Stub.disk).
Proof.
  destruct (agents_sdk_analyze_audio_never_returns Stub.whisper
              Stub.one_millisecond "/in/pitch.mp3" Stub.disk)
    as (e & Hrun & He).
  rewrite Hrun. f_equal. f_equal. eapply He.
  - reflexivity.
  - vm_compute. reflexivity.
Defined.
